(** * Agent orchestration core: locating, cloning, template selection,
    streaming start and WebSocket routing.

    Shallow embedding of [worker/agents/index.ts] (getAgentByName,
    getAgentStub, getAgentState, cloneAgent, getTemplateForQuery), of
    [worker/agents/planning/templateSelector.ts] (selectTemplate) and of
    the coding-agent controller (startCodeGeneration,
    handleWebSocketConnection).

    The TypeScript code is asynchronous and talks to external collaborators
    (the Durable Object platform, the sandbox service, the inference
    backend, the rate limiter).  Every [await]ed call is modelled as a step
    of a small monad that threads an abstract world, may raise a JavaScript
    exception, and records the call together with its answer in a trace.
    The collaborators are the fields of the [Platform] class, so every
    theorem holds for every behaviour of every collaborator. *)

From Stdlib Require Import ZArith Lia.
From stdpp Require Import base strings gmap list pretty.

Set Warnings "-register-all".

(** ** JavaScript values and thrown values *)

Module JS.

Inductive Value : Type :=
| Undefined
| Null
| Bool (b : bool)
| Num (n : Z)
| Str (s : string)
| Arr (items : list Value)
| Obj (fields : list (string * Value)).

(** The classes [instanceof] distinguishes in the modelled code. *)
Inductive ErrorClass : Type :=
| PlainError
| RateLimitExceededError
| SecurityError.

(** A [throw] may carry any value; [Error] objects carry their class and
    their [message]. *)
Inductive Thrown : Type :=
| ErrorObj (cls : ErrorClass) (message : string)
| NonError (v : Value).

Definition instanceof_Error (t : Thrown) : bool :=
  match t with ErrorObj _ _ => true | NonError _ => false end.

Definition instanceof_RateLimitExceededError (t : Thrown) : bool :=
  match t with ErrorObj RateLimitExceededError _ => true | _ => false end.

Definition instanceof_SecurityError (t : Thrown) : bool :=
  match t with ErrorObj SecurityError _ => true | _ => false end.

(** [new Error(msg)] *)
Definition new_Error (msg : string) : Thrown := ErrorObj PlainError msg.

(** [String(v)] on the value fragment above. *)
Fixpoint String_ (v : Value) : string :=
  match v with
  | Undefined => "undefined"
  | Null => "null"
  | Bool true => "true"
  | Bool false => "false"
  | Num n => pretty n
  | Str s => s
  | Arr items =>
      String.concat ","
        ((fix each (l : list Value) : list string :=
            match l with
            | [] => []
            | x :: r =>
                match x with
                | Undefined | Null => ""
                | _ => String_ x
                end :: each r
            end) items)
  | Obj _ => "[object Object]"
  end.

(** [error instanceof Error ? error.message : String(error)] *)
Definition message_or_String (t : Thrown) : string :=
  match t with
  | ErrorObj _ m => m
  | NonError v => String_ v
  end.

(** Truthiness of an optional string: [undefined] and [''] are falsy. *)
Definition truthy_str (s : option string) : bool :=
  match s with
  | Some s => negb (String.eqb s "")
  | None => false
  end.

(** [s || dflt] for an optional string [s]. *)
Definition or_else (s : option string) (dflt : string) : string :=
  match s with
  | Some s => if String.eqb s "" then dflt else s
  | None => dflt
  end.

(** The double quote character, for template literals that contain it. *)
Definition dq : string := String (Ascii.ascii_of_nat 34) EmptyString.

End JS.

(** ** Data exchanged with the collaborators *)

(** [CodeGenState] is a plain JavaScript object: a finite map from property
    names to values.  Object spread copies every own property. *)
Abbreviation CodeGenState := (gmap string JS.Value).

Record TemplateDescription := { selection : string }.

(** One element of [TemplateListResponse['templates']]. *)
Record TemplateDescriptor := {
  tmpl_name : string;
  tmpl_language : string;
  tmpl_frameworks : option (list string);
  tmpl_description : TemplateDescription;
}.

(** [TemplateListResponse]: [{success, templates, error?}] *)
Record TemplateListResponse := {
  tl_success : bool;
  tl_templates : list TemplateDescriptor;
  tl_error : option string;
}.

Record TemplateDetails := {
  td_name : string;
  td_files : list (string * string);
}.

(** [{success, templateDetails?, error?}] *)
Record TemplateDetailsResponse := {
  tdr_success : bool;
  tdr_templateDetails : option TemplateDetails;
  tdr_error : option string;
}.

(** [TemplateSelection] *)
Record TemplateSelection := {
  selectedTemplateName : option string;
  reasoning : string;
  useCase : option string;
  complexity : option string;
  styleSelection : option string;
  projectName : string;
}.

Record ModelConfig := {
  mc_name : JS.Value;
  mc_max_tokens : JS.Value;
  mc_temperature : JS.Value;
  mc_reasoning_effort : JS.Value;
  mc_fallbackModel : JS.Value;
}.

Record InferenceContext := {
  userModelConfigs : list (string * ModelConfig);
  ic_agentId : string;
  ic_userId : string;
  enableRealtimeCodeFix : bool;
}.

Inductive MessageRole := RoleSystem | RoleUser.

Record Message := { role : MessageRole; content : string }.

(** The argument object of [executeInference] (the [env] and the constant
    [schema: TemplateSelectionSchema] are the same at every call). *)
Record InferenceArgs := {
  ia_messages : list Message;
  ia_agentActionName : string;
  ia_context : InferenceContext;
  ia_maxTokens : nat;
}.

(** [namespace.get(id, options)]; an absent key and [undefined] are both
    [None]. *)
Record GetOptions := {
  locationHint : option string;
  jurisdiction : option string;
}.

Inductive Outcome (A : Type) : Type :=
| Ok (a : A)
| Raise (e : JS.Thrown).
Arguments Ok {A} a.
Arguments Raise {A} e.

Inductive LogLevel := Info | Error.

(** ** HTTP-level data of the controller *)

Record URL := {
  url_protocol : string;
  url_hostname : string;
  url_port : string;
  url_host : string;
  url_origin : string;
}.

(** [CodeGenArgs], the request body of the start endpoint. *)
Record CodeGenArgs := {
  cg_query : option string;
  cg_language : option string;
  cg_frameworks : option (list string);
  cg_selectedTemplate : option string;
  cg_agentMode : option string;
}.

(** A [Request]: its URL, method and headers, and what [await
    request.json()] yields (the parsed body, or the thrown parse error). *)
Record Request := {
  req_method : string;
  req_url : URL;
  req_headers : list (string * string);
  req_json : Outcome CodeGenArgs;
}.

Record User := { user_id : string; user_email : string }.

(** [RouteContext]: the optional authenticated user and the path
    parameter [agentId]. *)
Record RouteContext := {
  ctx_user : option User;
  ctx_agentId : option string;
}.

(** One entry of the record returned by [getUserModelConfigs]. *)
Record MergedConfig := {
  isUserOverride : bool;
  merged : ModelConfig;
}.

(** [Env]: only the binding the modelled code inspects. *)
Record Env (Namespace : Type) := {
  CodeGenObject : option Namespace;
}.
Arguments CodeGenObject {Namespace} e.

(** ** The collaborators

    Everything outside the modelled files.  A fallible call answers with an
    [Outcome] and a new world; identifiers and tokens come from the world
    too, so nothing is assumed about them. *)
Class Platform := {
  World : Type;
  Namespace : Type;
  DurableObjectId : Type;
  Stub : Type;
  SandboxClient : Type;
  WebSocket : Type;
  UpstreamResponse : Type;
  (* actor platform *)
  idFromName : Namespace -> string -> World -> Outcome DurableObjectId * World;
  ns_get : Namespace -> DurableObjectId -> GetOptions -> World -> Outcome Stub * World;
  stub_isInitialized : Stub -> World -> Outcome bool * World;
  stub_getFullState : Stub -> World -> Outcome CodeGenState * World;
  stub_setState : Stub -> CodeGenState -> World -> Outcome unit * World;
  stub_fetch : Stub -> Request -> World -> Outcome UpstreamResponse * World;
  (* utilities *)
  generateId : World -> string * World;
  generateSecureToken : nat -> World -> string * World;
  getPreviewDomain : Env Namespace -> string;
  JSON_stringify : JS.Thrown -> option nat -> string;
  (* sandbox service *)
  listTemplates : World -> Outcome (option TemplateListResponse) * World;
  getSandboxService : string -> World -> Outcome SandboxClient * World;
  getTemplateDetails : SandboxClient -> string -> World -> Outcome TemplateDetailsResponse * World;
  (* AI inference: the [object] of the answer *)
  executeInference : InferenceArgs -> World -> Outcome TemplateSelection * World;
  (* controller collaborators *)
  enforceAppCreationRateLimit : User -> Request -> World -> Outcome unit * World;
  getUserModelConfigs : string -> World -> Outcome (list (string * MergedConfig)) * World;
  routeAgentRequest : Request -> World -> Outcome (option UpstreamResponse) * World;
  validateWebSocketOrigin : Request -> World -> Outcome bool * World;
  newWebSocketPair : World -> (WebSocket * WebSocket) * World;
  (* [WebSocketMessageResponses.ERROR], from agents/constants *)
  WebSocketMessageResponses_ERROR : string;
  (* the message of the [TypeError] that [new Request] throws for a header
     value that is not one *)
  invalidHeaderValue : string -> string;
}.

Section Effects.
Context `{P : Platform}.

(** [agentInstance.initialize(agentInitParams, mode)]: the payload the
    source builds, without the progress callback. *)
Record AgentInitParams := {
  aip_query : string;
  aip_language : string;
  aip_frameworks : list string;
  aip_hostname : string;
  aip_inferenceContext : InferenceContext;
  aip_templateDetails : TemplateDetails;
  aip_selection : TemplateSelection;
  aip_sandboxSessionId : string;
}.

(** What is written to the NDJSON stream before the handler returns. *)
Record InitialResponse := {
  ir_message : string;
  ir_agentId : string;
  ir_websocketUrl : string;
  ir_httpStatusUrl : string;
  ir_template : string * list (string * string);
}.

(** The calls a run makes, in order, each with the answer it got. *)
Inductive Event : Type :=
| Log (level : LogLevel) (message : string)
| IdFromName (name : string) (r : Outcome DurableObjectId)
| NsGet (id : DurableObjectId) (options : GetOptions) (r : Outcome Stub)
| IsInitialized (stub : Stub) (r : Outcome bool)
| GetFullState (stub : Stub) (r : Outcome CodeGenState)
| SetState (stub : Stub) (state : CodeGenState) (r : Outcome unit)
| Fetch (stub : Stub) (request : Request) (r : Outcome UpstreamResponse)
| Initialize (stub : Stub) (params : AgentInitParams) (mode : string)
| GenerateId (r : string)
| GenerateSecureToken (n : nat) (r : string)
| ListTemplates (r : Outcome (option TemplateListResponse))
| GetSandboxService (sessionId : string) (r : Outcome SandboxClient)
| GetTemplateDetails (client : SandboxClient) (name : string) (r : Outcome TemplateDetailsResponse)
| ExecuteInference (args : InferenceArgs) (r : Outcome TemplateSelection)
| EnforceAppCreationRateLimit (user : User) (r : Outcome unit)
| GetUserModelConfigs (userId : string) (r : Outcome (list (string * MergedConfig)))
| RouteAgentRequest (request : Request) (r : Outcome (option UpstreamResponse))
| ValidateWebSocketOrigin (request : Request) (r : Outcome bool)
| NewWebSocketPair (client server : WebSocket)
| WsAccept (socket : WebSocket)
| WsSend (socket : WebSocket) (json : JS.Value)
| WsClose (socket : WebSocket) (code : nat) (reason : string)
| WriterWrite (chunk : InitialResponse).

(** An asynchronous computation: from a world to an outcome, the world
    after, and the calls made. *)
Definition M (A : Type) : Type := World -> Outcome A * World * list Event.

Definition ret {A} (a : A) : M A := fun w => (Ok a, w, []).

Definition throw {A} (e : JS.Thrown) : M A := fun w => (Raise e, w, []).

Definition bind {A B} (m : M A) (k : A -> M B) : M B :=
  fun w =>
    match m w with
    | (Ok a, w1, t1) =>
        match k a w1 with
        | (r, w2, t2) => (r, w2, t1 ++ t2)
        end
    | (Raise e, w1, t1) => (Raise e, w1, t1)
    end.

(** [try { m } catch (error) { handler error }] *)
Definition try_catch {A} (m : M A) (handler : JS.Thrown -> M A) : M A :=
  fun w =>
    match m w with
    | (Ok a, w1, t1) => (Ok a, w1, t1)
    | (Raise e, w1, t1) =>
        match handler e w1 with
        | (r, w2, t2) => (r, w2, t1 ++ t2)
        end
    end.

(** Settles [m] without raising: the shape of a promise that is awaited
    later (used for [Promise.all]). *)
Definition settle {A} (m : M A) : M (Outcome A) :=
  fun w => match m w with (r, w1, t1) => (Ok r, w1, t1) end.

(** [await p] for a promise [p] that is already settled with [r]. *)
Definition settled {A} (r : Outcome A) : M A := fun w => (r, w, []).

(** A fallible collaborator call, recorded with its answer. *)
Definition call {A} (h : World -> Outcome A * World) (ev : Outcome A -> Event) : M A :=
  fun w => match h w with (r, w1) => (r, w1, [ev r]) end.

(** A collaborator call that cannot raise. *)
Definition call_total {A} (h : World -> A * World) (ev : A -> Event) : M A :=
  fun w => match h w with (a, w1) => (Ok a, w1, [ev a]) end.

(** An effect on a runtime object that answers nothing. *)
Definition emit (ev : Event) : M unit := fun w => (Ok tt, w, [ev]).

(** [logger.info(msg, ...)] and [logger.error(msg, ...)]: the message is
    kept (without its pictogram), the structured payload is not. *)
Definition log (level : LogLevel) (message : string) : M unit :=
  emit (Log level message).

(** The three components of a finished run. *)
Definition result_of {A} (run : Outcome A * World * list Event) : Outcome A :=
  run.1.1.
Definition world_of {A} (run : Outcome A * World * list Event) : World :=
  run.1.2.
Definition trace_of {A} (run : Outcome A * World * list Event) : list Event :=
  run.2.

End Effects.

#[global] Instance M_ret `{P : Platform} : MRet M := @ret P.
#[global] Instance M_bind `{P : Platform} : MBind M := fun A B k m => bind m k.

(** ** templateSelector.ts *)

Section TemplateSelector.
Context `{P : Platform}.

Record SelectTemplateArgs := {
  sta_env : Env Namespace;
  sta_query : string;
  sta_availableTemplates : list TemplateDescriptor;
  sta_inferenceContext : InferenceContext;
}.

(** [availableTemplates.map((t, index) => `- Template #${index + 1} ...`)] *)
Definition describeTemplate (index : nat) (t : TemplateDescriptor) : string :=
  "- Template #" +:+ pretty (index + 1) +:+ " 
 Name - " +:+ tmpl_name t +:+ " 
 Language: " +:+ tmpl_language t +:+ ", Frameworks: "
  +:+ (let joined := match tmpl_frameworks t with
                     | Some fs => Some (String.concat ", " fs)
                     | None => None
                     end in
       JS.or_else joined "None")
  +:+ "
 " +:+ selection (tmpl_description t).

Definition templateDescriptions (availableTemplates : list TemplateDescriptor) : string :=
  String.concat "

" (imap describeTemplate availableTemplates).

Definition systemPrompt : string :=
  "You are an Expert Software Architect at Cloudflare specializing in template selection for rapid development. Your task is to select the most suitable starting template based on user requirements.

## SELECTION EXAMPLES:

**Example 1 - Game Request:**
User: " +:+ JS.dq +:+ "Build a 2D puzzle game with scoring" +:+ JS.dq +:+ "
Templates: [" +:+ JS.dq +:+ "react-dashboard" +:+ JS.dq +:+ ", " +:+ JS.dq +:+ "react-game-starter" +:+ JS.dq +:+ ", " +:+ JS.dq +:+ "vue-blog" +:+ JS.dq +:+ "]
Selection: " +:+ JS.dq +:+ "react-game-starter" +:+ JS.dq +:+ "
complexity: " +:+ JS.dq +:+ "simple" +:+ JS.dq +:+ "
Reasoning: " +:+ JS.dq +:+ "Game starter template provides canvas setup, state management, and scoring systems" +:+ JS.dq +:+ "

**Example 2 - Business Dashboard:**
User: " +:+ JS.dq +:+ "Create an analytics dashboard with charts" +:+ JS.dq +:+ "
Templates: [" +:+ JS.dq +:+ "react-dashboard" +:+ JS.dq +:+ ", " +:+ JS.dq +:+ "nextjs-blog" +:+ JS.dq +:+ ", " +:+ JS.dq +:+ "vanilla-js" +:+ JS.dq +:+ "]
Selection: " +:+ JS.dq +:+ "react-dashboard" +:+ JS.dq +:+ "
complexity: " +:+ JS.dq +:+ "simple" +:+ JS.dq +:+ " // Because single page application
Reasoning: " +:+ JS.dq +:+ "Dashboard template includes chart components, grid layouts, and data visualization setup" +:+ JS.dq +:+ "

**Example 3 - No Perfect Match:**
User: " +:+ JS.dq +:+ "Build a recipe sharing app" +:+ JS.dq +:+ "
Templates: [" +:+ JS.dq +:+ "react-social" +:+ JS.dq +:+ ", " +:+ JS.dq +:+ "vue-blog" +:+ JS.dq +:+ ", " +:+ JS.dq +:+ "angular-todo" +:+ JS.dq +:+ "]
Selection: " +:+ JS.dq +:+ "react-social" +:+ JS.dq +:+ "
complexity: " +:+ JS.dq +:+ "simple" +:+ JS.dq +:+ " // Because single page application
Reasoning: " +:+ JS.dq +:+ "Social template provides user interactions, content sharing, and community features closest to recipe sharing needs" +:+ JS.dq +:+ "

## SELECTION CRITERIA:
1. **Feature Alignment** - Templates with similar core functionality
2. **Tech Stack Match** - Compatible frameworks and dependencies  
3. **Architecture Fit** - Similar application structure and patterns
4. **Minimal Modification** - Template requiring least changes

## STYLE GUIDE:
- **Minimalist Design**: Clean, simple interfaces
- **Brutalism**: Bold, raw, industrial aesthetics
- **Retro**: Vintage, nostalgic design elements
- **Illustrative**: Rich graphics and visual storytelling
- **Kid_Playful**: Colorful, fun, child-friendly interfaces

## RULES:
- ALWAYS select a template (never return null)
- Ignore misleading template names - analyze actual features
- Focus on functionality over naming conventions
- Provide clear, specific reasoning for selection".

Definition userPrompt (query descriptions token : string) : string :=
  "**User Request:** " +:+ JS.dq +:+ query +:+ JS.dq +:+ "

**Available Templates:**
" +:+ descriptions +:+ "

**Task:** Select the most suitable template and provide:
1. Template name (exact match from list)
2. Clear reasoning for why it fits the user's needs
3. Appropriate style for the project type. Try to come up with unique styles that might look nice and unique. Be creative about your choices.
4. Descriptive project name

Analyze each template's features, frameworks, and architecture to make the best match.

ENTROPY SEED: " +:+ token +:+ " - for unique results".

(** The object returned when the candidate list is empty. *)
Definition noTemplatesSelection : TemplateSelection :=
  {| selectedTemplateName := None;
     reasoning := "No templates were available to choose from.";
     useCase := None; complexity := None; styleSelection := None;
     projectName := "" |}.

(** The object returned when the inference call failed. *)
Definition errorFallbackSelection : TemplateSelection :=
  {| selectedTemplateName := None;
     reasoning := "An error occurred during the template selection process.";
     useCase := None; complexity := None; styleSelection := None;
     projectName := "" |}.

Definition selectTemplate (args : SelectTemplateArgs) : M TemplateSelection :=
  let query := sta_query args in
  let availableTemplates := sta_availableTemplates args in
  let inferenceContext := sta_inferenceContext args in
  log Info "Starting template selection";;
  if Nat.eqb (length availableTemplates) 0 then
    log Error "No templates available for selection";;
    mret noTemplatesSelection
  else
    log Info "Available templates:";;
    try_catch
      (log Info "Asking AI to select a template";;
       let descriptions := templateDescriptions availableTemplates in
       token ← call_total (generateSecureToken 64) (GenerateSecureToken 64);
       let messages :=
         [ {| role := RoleSystem; content := systemPrompt |};
           {| role := RoleUser; content := userPrompt query descriptions token |} ] in
       log Info "Executing AI inference for template selection...";;
       let iargs := {| ia_messages := messages;
                       ia_agentActionName := "templateSelection";
                       ia_context := inferenceContext;
                       ia_maxTokens := 2000 |} in
       selection ← call (executeInference iargs) (ExecuteInference iargs);
       log Info "AI template selection completed:";;
       mret selection)
      (fun error =>
         log Error "Error during AI template selection:";;
         if JS.instanceof_RateLimitExceededError error
            || JS.instanceof_SecurityError error
         then throw error
         else
           log Error "AI template selection failed, falling back to default selection";;
           mret errorFallbackSelection).

End TemplateSelector.

(** ** agents/index.ts *)

Section Agents.
Context `{P : Platform}.

(** How a template literal prints a jurisdiction. *)
Definition show_jurisdiction (j : option string) : string :=
  match j with
  | Some s => s
  | None => "undefined"
  end.

Definition getAgentByName (namespace : Namespace) (name : string)
    (options : GetOptions) : M Stub :=
  id ← call (idFromName namespace name) (IdFromName name);
  call (ns_get namespace id options) (NsGet id options).

(** The body of [for (const jurisdiction of jurisdictions)]: [Some stub]
    is the [return stub] inside the loop, [None] falls through to the next
    iteration (also after the [catch]). *)
Definition tryJurisdiction (namespace : Namespace) (agentId : string)
    (jurisdiction : option string) : M (option Stub) :=
  try_catch
    (log Info ("Agent " +:+ agentId +:+ " retrieving from jurisdiction "
               +:+ show_jurisdiction jurisdiction);;
     stub ← getAgentByName namespace agentId
              {| locationHint := Some "enam"; jurisdiction := jurisdiction |};
     isInitialized ← call (stub_isInitialized stub) (IsInitialized stub);
     if isInitialized : bool then
       log Info ("Agent " +:+ agentId +:+ " found in jurisdiction "
                 +:+ show_jurisdiction jurisdiction);;
       mret (Some stub)
     else mret None)
    (fun error =>
       log Info ("Agent " +:+ agentId +:+ " not found in jurisdiction "
                 +:+ show_jurisdiction jurisdiction +:+ ":");;
       mret None).

Fixpoint searchJurisdictions (namespace : Namespace) (agentId : string)
    (jurisdictions : list (option string)) : M (option Stub) :=
  match jurisdictions with
  | [] => mret None
  | jurisdiction :: rest =>
      found ← tryJurisdiction namespace agentId jurisdiction;
      match found with
      | Some stub => mret (Some stub)
      | None => searchJurisdictions namespace agentId rest
      end
  end.

(** [const jurisdictions = [undefined, 'eu']] *)
Definition jurisdictions : list (option string) := [None; Some "eu"].

Definition getAgentStub (env : Env Namespace) (agentId : string)
    (searchInOtherJurisdictions : bool) : M Stub :=
  log Info "Starting getAgentStub";;
  match CodeGenObject env with
  | None =>
      log Error "CodeGenObject namespace not available in environment";;
      throw (JS.new_Error "CodeGenObject namespace not available in environment")
  | Some namespace =>
      log Info "CodeGenObject namespace is available";;
      found ← (if searchInOtherJurisdictions
               then searchJurisdictions namespace agentId jurisdictions
               else mret None);
      match found with
      | Some stub => mret stub
      | None =>
          (* If all jurisdictions fail, throw an error
             -- the throw is commented out in the source *)
          log Info ("Agent " +:+ agentId +:+ " retrieving directly");;
          try_catch
            (stub ← getAgentByName namespace agentId
                      {| locationHint := Some "enam"; jurisdiction := None |};
             log Info ("Agent " +:+ agentId +:+ " stub created successfully");;
             mret stub)
            (fun error =>
               log Error ("Failed to create agent stub for " +:+ agentId +:+ ":");;
               throw error)
      end
  end.

Definition getAgentState (env : Env Namespace) (agentId : string)
    (searchInOtherJurisdictions : bool) : M CodeGenState :=
  agentInstance ← getAgentStub env agentId searchInOtherJurisdictions;
  call (stub_getFullState agentInstance) (GetFullState agentInstance).

(** The object literal [{...originalState, sessionId: newAgentId, ...}] of
    [cloneAgent]: later properties overwrite the spread ones. *)
Definition newState (originalState : CodeGenState) (newAgentId : string)
    : CodeGenState :=
  <["clientReportedErrors" := JS.Arr []]>
  (<["shouldBeGenerating" := JS.Bool false]>
  (<["generationPromise" := JS.Undefined]>
  (<["currentDevState" := JS.Num 0]>
  (<["pendingUserInputs" := JS.Arr []]>
  (<["sandboxInstanceId" := JS.Undefined]>
  (<["sessionId" := JS.Str newAgentId]> originalState)))))).

(** A stub is an object, so [!agentInstance] is false and the guard is
    [!await agentInstance.isInitialized()]. *)
Definition cloneAgent (env : Env Namespace) (agentId : string)
    : M (string * Stub) :=
  agentInstance ← getAgentStub env agentId true;
  initialized ← call (stub_isInitialized agentInstance) (IsInitialized agentInstance);
  if negb initialized then
    throw (JS.new_Error ("Agent " +:+ agentId +:+ " not found"))
  else
    newAgentId ← call_total generateId GenerateId;
    newAgent ← getAgentStub env newAgentId false;
    originalState ← call (stub_getFullState agentInstance) (GetFullState agentInstance);
    let newState := newState originalState newAgentId in
    call (stub_setState newAgent newState) (SetState newAgent newState);;
    mret (newAgentId, newAgent).

Record TemplateForQuery := {
  sandboxSessionId : string;
  templateDetails : TemplateDetails;
  tfq_selection : TemplateSelection;
}.

(** [Promise.all([a, b])]: both computations are started, [a] first; the
    result is the pair of their values, or the rejection.  The two run
    one after the other here, and when both reject the first one's
    rejection is the one reported. *)
Definition promise_all {A B} (a : M A) (b : M B) : M (A * B) :=
  ra ← settle a;
  rb ← settle b;
  match ra, rb with
  | Ok x, Ok y => mret (x, y)
  | Raise e, _ => throw e
  | Ok _, Raise e => throw e
  end.

Definition getTemplateForQuery (env : Env Namespace)
    (inferenceContext : InferenceContext) (query : string)
    : M TemplateForQuery :=
  log Info "Starting getTemplateForQuery";;
  log Info "Fetching available templates from sandbox service...";;
  templatesResponse ← call listTemplates ListTemplates;
  log Info "Templates response received:";;
  match templatesResponse with
  | Some {| tl_success := true; tl_templates := templates |} =>
      sandboxSessionId ← call_total generateId GenerateId;
      log Info "Generated sandbox session ID:";;
      log Info "Starting template selection and sandbox service initialization...";;
      '(analyzeQueryResponse, sandboxClient) ←
        promise_all
          (selectTemplate {| sta_env := env;
                             sta_inferenceContext := inferenceContext;
                             sta_query := query;
                             sta_availableTemplates := templates |})
          (call (getSandboxService sandboxSessionId) (GetSandboxService sandboxSessionId));
      log Info "Template selection and sandbox service completed:";;
      log Info "Validating selected template...";;
      if negb (JS.truthy_str (selectedTemplateName analyzeQueryResponse)) then
        log Error "No suitable template found for code generation:";;
        throw (JS.new_Error "No suitable template found for code generation")
      else
        let selectedName := default "" (selectedTemplateName analyzeQueryResponse) in
        let selectedTemplate :=
          List.find (fun template => String.eqb (tmpl_name template) selectedName) templates in
        log Info "Template lookup result:";;
        match selectedTemplate with
        | None =>
            log Error "Selected template not found in available templates:";;
            throw (JS.new_Error ("Selected template '" +:+ selectedName
                                 +:+ "' not found in available templates"))
        | Some selectedTemplate =>
            log Info "Fetching template details...";;
            templateDetailsResponse ←
              call (getTemplateDetails sandboxClient (tmpl_name selectedTemplate))
                   (GetTemplateDetails sandboxClient (tmpl_name selectedTemplate));
            log Info "Template details response:";;
            match tdr_success templateDetailsResponse,
                  tdr_templateDetails templateDetailsResponse with
            | true, Some templateDetails =>
                log Info "getTemplateForQuery completed successfully:";;
                mret {| sandboxSessionId := sandboxSessionId;
                        templateDetails := templateDetails;
                        tfq_selection := analyzeQueryResponse |}
            | _, _ =>
                log Error "Failed to fetch template details:";;
                throw (JS.new_Error
                         ("Failed to fetch template details: "
                          +:+ JS.or_else (tdr_error templateDetailsResponse) "Unknown error"))
            end
        end
  | _ =>
      log Error "Failed to fetch templates from sandbox service:";;
      throw (JS.new_Error
               ("Failed to fetch templates from sandbox service: "
                +:+ JS.or_else (templatesResponse ≫= tl_error) "Unknown error"))
  end.

End Agents.

(** ** The coding-agent controller *)

(** ** HTTP headers

    The header list of a [Headers] object is a list of name-value pairs:
    names as they were given, values already normalized.  Names are compared
    byte-lowercased. *)

Definition lowerAscii (c : Ascii.ascii) : Ascii.ascii :=
  let n := Ascii.nat_of_ascii c in
  if Nat.leb 65 n && Nat.leb n 90 then Ascii.ascii_of_nat (n + 32) else c.

Fixpoint lowerCase (s : string) : string :=
  match s with
  | EmptyString => EmptyString
  | String c rest => String (lowerAscii c) (lowerCase rest)
  end.

(** The values of the headers named [name] (a lower-case name), in order. *)
Definition header_values (name : string) (headers : list (string * string))
    : list string :=
  List.map snd
    (List.filter (fun kv => String.eqb (lowerCase (fst kv)) name) headers).

(** Ascending order of names, byte by byte. *)
Fixpoint insert_name (name : string) (sorted : list string) : list string :=
  match sorted with
  | [] => [name]
  | other :: rest =>
      if String.leb name other then name :: sorted
      else other :: insert_name name rest
  end.

Definition sort_names (names : list string) : list string :=
  List.fold_right insert_name [] names.

(** [headers.entries()], the "sort and combine" of the Fetch standard: the
    lower-case names in ascending order without repetition, each with its
    combined value; the values of [set-cookie] are not combined. *)
Definition headers_entries (headers : list (string * string))
    : list (string * string) :=
  List.flat_map
    (fun name =>
       let values := header_values name headers in
       if String.eqb name "set-cookie"
       then List.map (fun value => (name, value)) values
       else [(name, String.concat ", " values)])
    (sort_names (remove_dups (List.map (fun kv => lowerCase (fst kv)) headers))).

(** The HTTP whitespace bytes: TAB, LF, CR and SPACE. *)
Definition isHTTPWhitespace (c : Ascii.ascii) : bool :=
  let n := Ascii.nat_of_ascii c in
  Nat.eqb n 9 || Nat.eqb n 10 || Nat.eqb n 13 || Nat.eqb n 32.

Fixpoint stripStart (s : string) : string :=
  match s with
  | EmptyString => EmptyString
  | String c rest => if isHTTPWhitespace c then stripStart rest else s
  end.

Fixpoint stripEnd (s : string) : string :=
  match s with
  | EmptyString => EmptyString
  | String c rest =>
      match stripEnd rest with
      | EmptyString => if isHTTPWhitespace c then EmptyString else String c EmptyString
      | kept => String c kept
      end
  end.

(** A header value is normalized when it is stored: leading and trailing
    HTTP whitespace bytes are removed. *)
Definition normalizeValue (value : string) : string := stripEnd (stripStart value).

(** A normalized value is a header value when it holds no NUL, LF or CR. *)
Fixpoint isHeaderValue (value : string) : bool :=
  match value with
  | EmptyString => true
  | String c rest =>
      let n := Ascii.nat_of_ascii c in
      negb (Nat.eqb n 0 || Nat.eqb n 10 || Nat.eqb n 13) && isHeaderValue rest
  end.

Section Controller.
Context `{P : Platform}.

(** The argument of [createErrorResponse]: a message or a caught error. *)
Inductive ErrorArg : Type :=
| ErrText (message : string)
| ErrObject (error : JS.Thrown).

Inductive ResponseBody : Type :=
| BodyNull
| BodyText (text : string)
| BodyReadable.

(** What the handlers return, by the expression that builds it:
    [createErrorResponse(message, status)], [handleError(error, action)],
    [new Response(body, {status, headers, webSocket})], or a response
    handed over by the routing facility or by the actor. *)
Inductive Response : Type :=
| ErrorResponse (message : ErrorArg) (status : nat)
| HandledError (error : JS.Thrown) (action : string)
| NewResponse (body : ResponseBody) (status : nat)
    (headers : list (string * string)) (webSocket : option WebSocket)
| Upstream (response : UpstreamResponse).

(** [defaultCodeGenArgs] *)
Definition defaultCodeGenArgs : CodeGenArgs :=
  {| cg_query := Some "";
     cg_language := Some "typescript";
     cg_frameworks := Some ["react"; "vite"];
     cg_selectedTemplate := Some "auto";
     cg_agentMode := Some "deterministic" |}.

(** [headers.get(name)]: the values of the headers whose name matches
    [name] without regard to case, in order, joined by a comma and a space;
    [null] when there is none. *)
Definition headers_get (name : string) (headers : list (string * string))
    : option string :=
  match header_values (lowerCase name) headers with
  | [] => None
  | values => Some (String.concat ", " values)
  end.

(** [{...obj, key: value}] on a property list: an existing key keeps its
    place and takes the new value, a new key goes last. *)
Fixpoint obj_set (key value : string) (obj : list (string * string))
    : list (string * string) :=
  match obj with
  | [] => [(key, value)]
  | (k, v) :: rest =>
      if String.eqb k key then (k, value) :: rest
      else (k, v) :: obj_set key value rest
  end.

(** [Object.fromEntries(entries)]: each entry is assigned in turn, a later
    one overwriting an earlier one of the same key.  (The order of the keys
    of a record is not observable through the [Headers] built from it, whose
    names are distinct.) *)
Definition Object_fromEntries (entries : list (string * string))
    : list (string * string) :=
  List.fold_left (fun obj kv => obj_set (fst kv) (snd kv) obj) entries [].

(** The loop over [Object.entries(userConfigsRecord)]: entries flagged
    [isUserOverride] are kept, each one logged. *)
Fixpoint collectUserModelConfigs (entries : list (string * MergedConfig))
    : M (list (string * ModelConfig)) :=
  match entries with
  | [] => mret []
  | (actionKey, mergedConfig) :: rest =>
      if isUserOverride mergedConfig then
        log Info ("Added model config for " +:+ actionKey +:+ ":");;
        more ← collectUserModelConfigs rest;
        mret ((actionKey, merged mergedConfig) :: more)
      else collectUserModelConfigs rest
  end.

(** A block that may [return] a response early ([inl]) or go on with a
    value ([inr]). *)
Definition or_return {A} (m : M (Response + A)) (k : A -> M Response)
    : M Response :=
  r ← m;
  match r with
  | inl response => mret response
  | inr a => k a
  end.

Definition startCodeGeneration (request : Request) (env : Env Namespace)
    (context : RouteContext) : M Response :=
  try_catch
    (log Info "Starting code generation process";;
     log Info "Request details:";;
     let url := req_url request in
     let hostname :=
       if String.eqb (url_hostname url) "localhost"
       then "localhost:" +:+ url_port url
       else getPreviewDomain env in
     log Info "Hostname determined:";;
     or_return
       (try_catch
          (log Info "Parsing request body...";;
           body ← settled (req_json request);
           log Info "Request body parsed successfully:";;
           mret (inr body))
          (fun error =>
             log Error "Failed to parse request body:";;
             mret (inl (ErrorResponse
                          (ErrText ("Invalid JSON in request body: "
                                    +:+ JSON_stringify error (Some 2))) 400))))
       (fun body =>
     if negb (JS.truthy_str (cg_query body)) then
       log Error "Missing query field in request body";;
       mret (ErrorResponse
               (ErrText ("Missing " +:+ JS.dq +:+ "query" +:+ JS.dq
                         +:+ " field in request body")) 400)
     else
     let query := default "" (cg_query body) in
     log Info "Query validated:";;
     (* the TransformStream and its writer are created here *)
     let user := ctx_user context in
     log Info "User context:";;
     or_return
       (match user with
        | Some user =>
            try_catch
              (log Info "Applying rate limiting for authenticated user...";;
               call (enforceAppCreationRateLimit user request)
                    (EnforceAppCreationRateLimit user);;
               log Info "Rate limiting passed for authenticated user";;
               mret (inr tt))
              (fun error =>
                 log Error "Rate limiting failed for authenticated user:";;
                 if JS.instanceof_Error error then
                   mret (inl (ErrorResponse (ErrObject error) 429))
                 else
                   log Error "Unknown error in enforceAppCreationRateLimit";;
                   mret (inl (ErrorResponse
                                (ErrText (JSON_stringify error None)) 429)))
        | None =>
            log Info "Anonymous user - skipping rate limiting";;
            mret (inr tt)
        end)
       (fun _ =>
     agentId ← call_total generateId GenerateId;
     log Info "Generated agent ID:";;
     log Info "Model config service initialized";;
     or_return
       (try_catch
          (log Info "Fetching user configs and creating agent stub...";;
           fetched ←
             promise_all
               (match user with
                | Some user =>
                    call (getUserModelConfigs (user_id user))
                         (GetUserModelConfigs (user_id user))
                | None => mret []
                end)
               (getAgentStub env agentId false);
           log Info "User configs and agent stub created successfully:";;
           mret (inr fetched))
          (fun error =>
             log Error "Error fetching user configs or creating agent stub:";;
             mret (inl (ErrorResponse
                          (ErrText ("Failed to initialize agent: "
                                    +:+ JS.message_or_String error)) 500))))
       (fun '(userConfigsRecord, agentInstance) =>
     log Info "Processing user model configs...";;
     userModelConfigs ← collectUserModelConfigs userConfigsRecord;
     let userId := JS.or_else (user_id <$> user) "anonymous" in
     let inferenceContext :=
       {| userModelConfigs := userModelConfigs;
          ic_agentId := agentId;
          ic_userId := userId;
          enableRealtimeCodeFix := true |} in
     log Info ("Initialized inference context for user " +:+ userId);;
     or_return
       (try_catch
          (log Info "Getting template for query...";;
           templateResult ← getTemplateForQuery env inferenceContext query;
           log Info "Template selection completed:";;
           mret (inr templateResult))
          (fun error =>
             log Error "Error getting template for query:";;
             mret (inl (ErrorResponse
                          (ErrText ("Failed to get template for query: "
                                    +:+ JS.message_or_String error)) 500))))
       (fun templateResult =>
     let templateDetails := templateDetails templateResult in
     let websocketUrl :=
       (if String.eqb (url_protocol url) "https:" then "wss:" else "ws:")
       +:+ "//" +:+ url_host url +:+ "/api/agent/" +:+ agentId +:+ "/ws" in
     let httpStatusUrl := url_origin url +:+ "/api/agent/" +:+ agentId in
     log Info "Generated URLs:";;
     let initialResponse :=
       {| ir_message := "Code generation started";
          ir_agentId := agentId;
          ir_websocketUrl := websocketUrl;
          ir_httpStatusUrl := httpStatusUrl;
          ir_template := (td_name templateDetails, td_files templateDetails) |} in
     log Info "Sending initial response to client:";;
     emit (WriterWrite initialResponse);;
     let agentInitParams :=
       {| aip_query := query;
          aip_language :=
            JS.or_else (cg_language body)
              (default "" (cg_language defaultCodeGenArgs));
          aip_frameworks :=
            default (default [] (cg_frameworks defaultCodeGenArgs))
              (cg_frameworks body);
          aip_hostname := hostname;
          aip_inferenceContext := inferenceContext;
          aip_templateDetails := templateDetails;
          aip_selection := tfq_selection templateResult;
          aip_sandboxSessionId := sandboxSessionId templateResult |} in
     log Info "Initializing agent with params:";;
     (* the promise is not awaited: its settlement is handled by the
        [then]/[catch] callbacks after the handler has returned *)
     emit (Initialize agentInstance agentInitParams
             (JS.or_else (cg_agentMode body)
                (default "" (cg_agentMode defaultCodeGenArgs))));;
     log Info ("Agent " +:+ agentId +:+ " initialization launched successfully");;
     mret (NewResponse BodyReadable 200
             [ ("Content-Type", "text/event-stream; charset=utf-8");
               ("Cache-Control", "no-cache, no-store, must-revalidate, no-transform");
               ("Pragma", "no-cache");
               ("Connection", "keep-alive") ]
             None))))))
    (fun error =>
       log Error "Fatal error starting code generation:";;
       mret (HandledError error "start code generation")).

(** [new Request(request.url, {method, headers, body, cf})] with a record
    of headers: the [Headers] of the new request are filled from the
    record's entries in turn, each value normalized; a value that is then
    not a header value makes the constructor throw a [TypeError].  URL,
    method and body are those of [request]. *)
Definition new_Request (request : Request) (headers : list (string * string))
    : M Request :=
  let stored := List.map (fun kv => (fst kv, normalizeValue (snd kv))) headers in
  match List.find (fun kv => negb (isHeaderValue (snd kv))) stored with
  | Some (_, value) =>
      throw (JS.ErrorObj JS.PlainError (invalidHeaderValue value))
  | None =>
      mret {| req_method := req_method request;
              req_url := req_url request;
              req_headers := stored;
              req_json := req_json request |}
  end.

(** [return agentInstance.fetch(modifiedRequest)] is not awaited, so a
    rejection of that promise is caught by neither [try]: the two blocks
    hand the pending call out ([inr]) and it is made after them. *)
Definition handleWebSocketConnection (request : Request) (env : Env Namespace)
    (context : RouteContext) : M Response :=
  pending ←
    try_catch
      (if negb (JS.truthy_str (ctx_agentId context)) then
         mret (inl (ErrorResponse (ErrText "Missing agent ID parameter") 400))
       else
       let chatId := default "" (ctx_agentId context) in
       if negb (bool_decide (headers_get "Upgrade" (req_headers request) = Some "websocket")) then
         mret (inl (NewResponse (BodyText "Expected WebSocket upgrade") 426 [] None))
       else
       valid ← call (validateWebSocketOrigin request) (ValidateWebSocketOrigin request);
       if negb valid then
         mret (inl (NewResponse (BodyText "Forbidden: Invalid origin") 403 [] None))
       else
       log Info ("WebSocket connection request for chat: " +:+ chatId);;
       log Info "WebSocket request details";;
       try_catch
         (response ← call (routeAgentRequest request) (RouteAgentRequest request);
          match response with
          | Some response =>
              log Info ("Successfully routed WebSocket connection for chat: " +:+ chatId);;
              mret (inl (Upstream response))
          | None =>
              log Info ("RouteAgentRequest returned null, falling back to direct connection for chat: " +:+ chatId);;
              agentInstance ← getAgentStub env chatId true;
              (* {...Object.fromEntries(request.headers.entries()),
                  'namespace': 'CodeGenObject', 'room': chatId} *)
              let headers :=
                obj_set "room" chatId
                  (obj_set "namespace" "CodeGenObject"
                     (Object_fromEntries (headers_entries (req_headers request)))) in
              modifiedRequest ← new_Request request headers;
              mret (inr (agentInstance, modifiedRequest))
          end)
         (fun error =>
            log Error ("Failed to get agent instance with ID " +:+ chatId +:+ ":");;
            (* We need to emulate a WebSocket response even for errors *)
            '(client, server) ← call_total newWebSocketPair
                                  (fun pair => NewWebSocketPair (fst pair) (snd pair));
            emit (WsAccept server);;
            emit (WsSend server
                    (JS.Obj [ ("type", JS.Str WebSocketMessageResponses_ERROR);
                              ("error", JS.Str ("Failed to get agent instance: "
                                                +:+ JS.message_or_String error)) ]));;
            emit (WsClose server 1011 "Agent instance not found");;
            mret (inl (NewResponse BodyNull 101 [] (Some client)))))
      (fun error =>
         log Error "Error handling WebSocket connection";;
         mret (inl (HandledError error "handle WebSocket connection")));
  match pending with
  | inl response => mret response
  | inr (agentInstance, modifiedRequest) =>
      response ← call (stub_fetch agentInstance modifiedRequest)
                   (Fetch agentInstance modifiedRequest);
      mret (Upstream response)
  end.

End Controller.

(** ** The controller, continued: connecting and previews *)

(** [ControllerResponse<ApiResponse<T>>], by the expression that builds
    it: [createSuccessResponse(data)], [createErrorResponse(message,
    status)], [handleError(error, action)]. *)
Inductive ControllerResponse (T : Type) : Type :=
| CreateSuccess (data : T)
| CreateError (message : ErrorArg) (status : nat)
| HandleError (error : JS.Thrown) (action : string).
Arguments CreateSuccess {T} data.
Arguments CreateError {T} message status.
Arguments HandleError {T} error action.

(** [AgentConnectionData] *)
Record AgentConnectionData := {
  acd_websocketUrl : string;
  acd_agentId : string;
}.

Section ControllerEndpoints.
Context `{P : Platform}.

Definition connectToExistingAgent (request : Request) (env : Env Namespace)
    (context : RouteContext) : M (ControllerResponse AgentConnectionData) :=
  try_catch
    (if negb (JS.truthy_str (ctx_agentId context)) then
       mret (CreateError (ErrText "Missing agent ID parameter") 400)
     else
     let agentId := default "" (ctx_agentId context) in
     log Info ("Connecting to existing agent: " +:+ agentId);;
     try_catch
       ((* Verify the agent instance exists *)
        agentInstance ← getAgentStub env agentId true;
        initialized ← call (stub_isInitialized agentInstance)
                        (IsInitialized agentInstance);
        if negb initialized then
          mret (CreateError
                  (ErrText "Agent instance not found or not initialized") 404)
        else
          log Info ("Successfully connected to existing agent: " +:+ agentId);;
          let url := req_url request in
          let websocketUrl :=
            (if String.eqb (url_protocol url) "https:" then "wss:" else "ws:")
            +:+ "//" +:+ url_host url +:+ "/api/agent/" +:+ agentId +:+ "/ws" in
          mret (CreateSuccess {| acd_websocketUrl := websocketUrl;
                                 acd_agentId := agentId |}))
       (fun error =>
          log Error ("Failed to connect to agent " +:+ agentId +:+ ":");;
          mret (CreateError
                  (ErrText ("Agent instance not found or unavailable: "
                            +:+ JS.message_or_String error)) 404)))
    (fun error =>
       log Error "Error connecting to existing agent";;
       mret (HandleError error "connect to existing agent")).

(** [agentInstance.deployToSandbox()] is not one of the recorded platform
    calls: [deployPreview] takes it as a parameter, the answer being the
    preview ([None] for a falsy one) or the rejection. *)
Definition deployPreview {Preview : Type}
    (deployToSandbox : Stub -> World -> Outcome (option Preview) * World)
    (env : Env Namespace) (context : RouteContext)
    : M (ControllerResponse Preview) :=
  try_catch
    (if negb (JS.truthy_str (ctx_agentId context)) then
       mret (CreateError (ErrText "Missing agent ID parameter") 400)
     else
     let agentId := default "" (ctx_agentId context) in
     log Info ("Deploying preview for agent: " +:+ agentId);;
     try_catch
       ((* Get the agent instance *)
        agentInstance ← getAgentStub env agentId true;
        (* Deploy the preview *)
        preview ← (fun w => match deployToSandbox agentInstance w with
                            | (r, w1) => (r, w1, [])
                            end);
        match preview with
        | None => mret (CreateError (ErrText "Failed to deploy preview") 500)
        | Some preview =>
            log Info "Preview deployed successfully";;
            mret (CreateSuccess preview)
        end)
       (fun error =>
          log Error "Failed to deploy preview";;
          mret (CreateError (ErrText "Failed to deploy preview") 500)))
    (fun error =>
       log Error "Error deploying preview";;
       mret (HandleError error "deploy preview")).

End ControllerEndpoints.

(** ** The status controller *)

(** Strings are sequences of code units below 256; among these the white
    space of [String.prototype.trim] is TAB, LF, VT, FF, CR, SPACE and
    NBSP. *)
Definition isWhiteSpace (c : Ascii.ascii) : bool :=
  let n := Ascii.nat_of_ascii c in
  (Nat.leb 9 n && Nat.leb n 13) || Nat.eqb n 32 || Nat.eqb n 160.

(** [s.trimStart()] *)
Fixpoint trimStart (s : string) : string :=
  match s with
  | EmptyString => EmptyString
  | String c rest => if isWhiteSpace c then trimStart rest else s
  end.

(** [s.trimEnd()] *)
Fixpoint trimEnd (s : string) : string :=
  match s with
  | EmptyString => EmptyString
  | String c rest =>
      match trimEnd rest with
      | EmptyString => if isWhiteSpace c then EmptyString else String c EmptyString
      | kept => String c kept
      end
  end.

(** [s.trim()] *)
Definition trim (s : string) : string := trimEnd (trimStart s).

(** Whether a string holds white space only (the empty string does). *)
Fixpoint allWhiteSpace (s : string) : bool :=
  match s with
  | EmptyString => true
  | String c rest => isWhiteSpace c && allWhiteSpace rest
  end.

(** [context.config.globalMessaging], each level optional. *)
Record GlobalMessaging := {
  gm_globalUserMessage : option string;
  gm_changeLogs : option string;
}.

Record PlatformStatusData := {
  globalUserMessage : string;
  changeLogs : string;
  hasActiveMessage : bool;
}.

(** [StatusController.getPlatformStatus]: it only reads
    [context.config.globalMessaging] and always answers
    [createSuccessResponse(data)]; this is [data]. *)
Definition getPlatformStatus (globalMessaging : option GlobalMessaging)
    : PlatformStatusData :=
  let messaging :=
    default {| gm_globalUserMessage := Some ""; gm_changeLogs := Some "" |}
      globalMessaging in
  let globalUserMessage := default "" (gm_globalUserMessage messaging) in
  let changeLogs := default "" (gm_changeLogs messaging) in
  {| globalUserMessage := globalUserMessage;
     changeLogs := changeLogs;
     hasActiveMessage := Nat.ltb 0 (String.length (trim globalUserMessage)) |}.

(** Truthiness and [typeof] on the value fragment. *)
Definition truthy (v : JS.Value) : bool :=
  match v with
  | JS.Undefined | JS.Null => false
  | JS.Bool b => b
  | JS.Num n => negb (Z.eqb n 0)
  | JS.Str s => negb (String.eqb s "")
  | JS.Arr _ | JS.Obj _ => true
  end.

Definition typeof (v : JS.Value) : string :=
  match v with
  | JS.Undefined => "undefined"
  | JS.Bool _ => "boolean"
  | JS.Num _ => "number"
  | JS.Str _ => "string"
  | JS.Null | JS.Arr _ | JS.Obj _ => "object"
  end.

(** The bindings of [Env] that [testWorkersForPlatforms] reads. *)
Record DispatchEnv := {
  DISPATCH_NAMESPACE : option string;
  DISPATCHER : JS.Value;
}.

Record NamespaceInfo := {
  ni_binding : string;
  ni_namespace : string;
  ni_available : bool;
}.

Record DispatcherTest := {
  dt_status : string;
  dt_message : string;
  dt_bindingType : option string;
}.

Record WorkersForPlatforms := {
  wfp_enabled : bool;
  wfp_namespace : NamespaceInfo;
  wfp_dispatcher : DispatcherTest;
  wfp_timestamp : string;
}.

(** What [testWorkersForPlatforms] answers: [createSuccessResponse] of the
    report, or [createErrorResponse(message, 500)]. *)
Inductive StatusResponse : Type :=
| StatusSuccess (workersForPlatforms : WorkersForPlatforms)
| StatusError (message : string) (status : nat).

(** [isDispatcherAvailable] (utils/dispatcherUtils) is a parameter: it
    answers a boolean or throws.  [timestamp] is what [new
    Date().toISOString()] yields at the call.  Reading a binding of [env]
    cannot throw, so the inner [try] has no [catch] to model. *)
Definition testWorkersForPlatforms
    (isDispatcherAvailable : DispatchEnv -> Outcome bool)
    (timestamp : string) (env : DispatchEnv) : StatusResponse :=
  match isDispatcherAvailable env with
  | Raise error =>
      StatusError ("Error testing Workers for Platforms: "
                   +:+ JS.message_or_String error) 500
  | Ok dispatcherAvailable =>
      let namespaceInfo :=
        {| ni_binding := "DISPATCHER";
           ni_namespace := JS.or_else (DISPATCH_NAMESPACE env)
                             "vibesdk-default-namespace";
           ni_available := dispatcherAvailable |} in
      let dispatcherTest :=
        if dispatcherAvailable then
          let dispatcher := DISPATCHER env in
          if truthy dispatcher then
            {| dt_status := "available";
               dt_message := "Dispatcher binding is available and functional";
               dt_bindingType := Some (typeof dispatcher) |}
          else
            {| dt_status := "error";
               dt_message := "Dispatcher binding exists but is null/undefined";
               dt_bindingType := None |}
        else
          {| dt_status := "unavailable";
             dt_message := "Dispatcher binding not available - Workers for Platforms may not be enabled";
             dt_bindingType := None |} in
      StatusSuccess {| wfp_enabled := dispatcherAvailable;
                       wfp_namespace := namespaceInfo;
                       wfp_dispatcher := dispatcherTest;
                       wfp_timestamp := timestamp |}
  end.

(** ** Tools: executeToolWithDefinition *)

Section Tools.
Context `{P : Platform}.

(** [ToolDefinition<TArgs, TResult>]: the two hooks are optional and
    synchronous, the implementation is asynchronous. *)
Record ToolDefinition (TArgs TResult : Type) := {
  onStart : option (TArgs -> M unit);
  implementation : TArgs -> Env Namespace -> M TResult;
  onComplete : option (TArgs -> TResult -> M unit);
}.
Arguments onStart {TArgs TResult} t.
Arguments implementation {TArgs TResult} t.
Arguments onComplete {TArgs TResult} t.

Definition executeToolWithDefinition {TArgs TResult}
    (toolDef : ToolDefinition TArgs TResult) (args : TArgs)
    (env : Env Namespace) : M TResult :=
  match onStart toolDef with
  | Some hook => hook args
  | None => mret tt
  end;;
  result ← implementation toolDef args env;
  match onComplete toolDef with
  | Some hook => hook args result
  | None => mret tt
  end;;
  mret result.

End Tools.

Arguments onStart {P TArgs TResult} t.
Arguments implementation {P TArgs TResult} t.
Arguments onComplete {P TArgs TResult} t.

(** ** Vocabulary of the properties *)

(** A record whose keys are distinct lower-case names. *)
Definition lowerKeyed (obj : list (string * string)) : Prop :=
  List.NoDup (List.map fst obj)
  /\ Forall (fun kv => lowerCase (fst kv) = fst kv) obj.

(** Which failures [selectTemplate] rethrows. *)
Definition propagated (e : JS.Thrown) : bool :=
  JS.instanceof_RateLimitExceededError e || JS.instanceof_SecurityError e.

(** The properties the object literal of [cloneAgent] sets. *)
Definition resetKeys : list string :=
  [ "sessionId"; "sandboxInstanceId"; "pendingUserInputs"; "currentDevState";
    "generationPromise"; "shouldBeGenerating"; "clientReportedErrors" ].

(** The six properties the claim C2 lists. *)
Definition claimedKeys : list string :=
  [ "sessionId"; "sandboxInstanceId"; "pendingUserInputs";
    "shouldBeGenerating"; "generationPromise"; "clientReportedErrors" ].

(** The two messages the spec calls a template fetch failure, followed by
    the upstream error text. *)
Definition isTemplateFetchFailure (e : JS.Thrown) : Prop :=
  exists upstream,
    e = JS.new_Error ("Failed to fetch templates from sandbox service: " +:+ upstream)
    \/ e = JS.new_Error ("Failed to fetch template details: " +:+ upstream).

Section Vocabulary.
Context `{P : Platform}.

(** The actor of [agentId] in [jurisdiction] reports initialized: starting
    in world [w], the lookup answers [stub] and [stub.isInitialized()]
    answers [true], leaving world [w']. *)
Definition reportsInitialized (namespace : Namespace) (agentId : string)
    (jurisdiction : option string) (w : World) (stub : Stub) (w' : World) : Prop :=
  exists id w1 w2,
    idFromName namespace agentId w = (Ok id, w1)
    /\ ns_get namespace id
         {| locationHint := Some "enam"; jurisdiction := jurisdiction |} w1
       = (Ok stub, w2)
    /\ stub_isInitialized stub w2 = (Ok true, w').

(** No initialized actor is reported in [jurisdiction]: the lookup raises,
    or [isInitialized] raises, or it answers [false]. *)
Definition notInitialized (namespace : Namespace) (agentId : string)
    (jurisdiction : option string) (w w' : World) : Prop :=
  (exists e, idFromName namespace agentId w = (Raise e, w'))
  \/ (exists id w1 e,
        idFromName namespace agentId w = (Ok id, w1)
        /\ ns_get namespace id
             {| locationHint := Some "enam"; jurisdiction := jurisdiction |} w1
           = (Raise e, w'))
  \/ (exists id w1 stub w2 answer,
        idFromName namespace agentId w = (Ok id, w1)
        /\ ns_get namespace id
             {| locationHint := Some "enam"; jurisdiction := jurisdiction |} w1
           = (Ok stub, w2)
        /\ stub_isInitialized stub w2 = (answer, w')
        /\ answer <> Ok true).

(** The attempt in [jurisdiction] raised: in the lookup or in
    [isInitialized]. *)
Definition attemptRaised (namespace : Namespace) (agentId : string)
    (jurisdiction : option string) (w w' : World) : Prop :=
  (exists e, idFromName namespace agentId w = (Raise e, w'))
  \/ (exists id w1 e,
        idFromName namespace agentId w = (Ok id, w1)
        /\ ns_get namespace id
             {| locationHint := Some "enam"; jurisdiction := jurisdiction |} w1
           = (Raise e, w'))
  \/ (exists id w1 stub w2 e,
        idFromName namespace agentId w = (Ok id, w1)
        /\ ns_get namespace id
             {| locationHint := Some "enam"; jurisdiction := jurisdiction |} w1
           = (Ok stub, w2)
        /\ stub_isInitialized stub w2 = (Raise e, w')).

(** Every call recorded by [m], from any world, satisfies [Q]. *)
Definition emits_only {A} (Q : Event -> Prop) (m : M A) : Prop :=
  forall w, Forall Q (trace_of (m w)).

(** The calls of a lookup: logging, the namespace, the initialization
    flag. *)
Definition lookup_event (ev : Event) : Prop :=
  match ev with
  | Log _ _ | IdFromName _ _ | NsGet _ _ _ | IsInitialized _ _ => True
  | _ => False
  end.

(** What [cloneAgent] does before it writes. *)
Definition prewrite_event (ev : Event) : Prop :=
  match ev with
  | Log _ _ | IdFromName _ _ | NsGet _ _ _ | IsInitialized _ _
  | GenerateId _ | GetFullState _ _ => True
  | _ => False
  end.

(** The calls of [selectTemplate]. *)
Definition select_event (ev : Event) : Prop :=
  match ev with
  | Log _ _ | GenerateSecureToken _ _ | ExecuteInference _ _ => True
  | _ => False
  end.

(** The calls of [getTemplateForQuery]. *)
Definition template_event (ev : Event) : Prop :=
  match ev with
  | Log _ _ | GenerateSecureToken _ _ | ExecuteInference _ _
  | ListTemplates _ | GenerateId _ | GetSandboxService _ _
  | GetTemplateDetails _ _ _ => True
  | _ => False
  end.

(** [listTemplates] answered, but not with a success. *)
Definition listFailed (answer : option TemplateListResponse) : Prop :=
  answer = None \/ exists response, answer = Some response /\ tl_success response = false.

(** [getTemplateDetails] answered, but without success or without details. *)
Definition detailsFailed (answer : TemplateDetailsResponse) : Prop :=
  tdr_success answer = false \/ tdr_templateDetails answer = None.

(** The calls on the sockets of a [WebSocketPair]. *)
Definition is_socket_event (ev : Event) : bool :=
  match ev with
  | NewWebSocketPair _ _ | WsAccept _ | WsSend _ _ | WsClose _ _ _ => true
  | _ => false
  end.

Definition socket_events (tr : list Event) : list Event :=
  List.filter is_socket_event tr.

(** [EnforceAppCreationRateLimit] is only ever called for the
    authenticated user of the request. *)
Definition rate_limited_for (user : option User) (ev : Event) : Prop :=
  match ev with
  | EnforceAppCreationRateLimit u _ => user = Some u
  | _ => True
  end.

Definition is_log (ev : Event) : Prop :=
  match ev with
  | Log _ _ => True
  | _ => False
  end.

(** The calls made on the actor handle [stub]. *)
Definition addressed_to (stub : Stub) (ev : Event) : Prop :=
  match ev with
  | IsInitialized s _ | GetFullState s _ | SetState s _ _
  | Fetch s _ _ | Initialize s _ _ => s = stub
  | _ => False
  end.

(** The calls on an actor that only read: [isInitialized], [getFullState]. *)
Definition is_read (ev : Event) : Prop :=
  match ev with
  | IsInitialized _ _ | GetFullState _ _ => True
  | _ => False
  end.

End Vocabulary.

(** ** Vocabulary of the further properties *)

Section Counting.
Context `{P : Platform}.

Definition is_lookup (ev : Event) : bool :=
  match ev with NsGet _ _ _ => true | _ => false end.

Definition is_probe (ev : Event) : bool :=
  match ev with IsInitialized _ _ => true | _ => false end.

Definition is_inference (ev : Event) : bool :=
  match ev with ExecuteInference _ _ => true | _ => false end.

(** How many calls of a kind a trace holds. *)
Definition count (kind : Event -> bool) (tr : list Event) : nat :=
  length (List.filter kind tr).


(** The calls that change or use an actor beyond looking it up. *)
Definition actor_write (ev : Event) : Prop :=
  match ev with
  | SetState _ _ _ | Initialize _ _ _ | Fetch _ _ _ => True
  | _ => False
  end.

(** The entries [collectUserModelConfigs] keeps. *)
Definition userOverrides (entries : list (string * MergedConfig))
    : list (string * ModelConfig) :=
  List.map (fun entry => (fst entry, merged (snd entry)))
    (List.filter (fun entry => isUserOverride (snd entry)) entries).

(** [`${url.protocol === 'https:' ? 'wss:' : 'ws:'}//${url.host}/api/agent/${agentId}/ws`] *)
Definition websocketUrlOf (url : URL) (agentId : string) : string :=
  (if String.eqb (url_protocol url) "https:" then "wss:" else "ws:")
  +:+ "//" +:+ url_host url +:+ "/api/agent/" +:+ agentId +:+ "/ws".

(** The calls that stream to the client or start work on an agent. *)
Definition is_launch (ev : Event) : bool :=
  match ev with
  | WriterWrite _ | Initialize _ _ _ => true
  | _ => false
  end.

Definition launches (tr : list Event) : list Event :=
  List.filter is_launch tr.

(** The calls of [getTemplateForQuery], whose inference calls carry the
    inference context [ctx]. *)
Definition resolve_event (ctx : InferenceContext) (ev : Event) : Prop :=
  match ev with
  | ExecuteInference iargs _ => ia_context iargs = ctx
  | Log _ _ | GenerateSecureToken _ _
  | ListTemplates _ | GenerateId _ | GetSandboxService _ _
  | GetTemplateDetails _ _ _ => True
  | _ => False
  end.

(** The inference context [startCodeGeneration] builds for the agent
    [agentId], from the user and the configuration entries fetched. *)
Definition startContext (user : option User) (agentId : string)
    (entries : list (string * MergedConfig)) : InferenceContext :=
  {| userModelConfigs := userOverrides entries;
     ic_agentId := agentId;
     ic_userId := JS.or_else (user_id <$> user) "anonymous";
     enableRealtimeCodeFix := true |}.

(** The list was fetched, but not with a success: the call raised, or
    answered nothing or a failure. *)
Definition listUnusable (answer : Outcome (option TemplateListResponse)) : Prop :=
  match answer with
  | Raise _ => True
  | Ok None => True
  | Ok (Some response) => tl_success response = false
  end.

(** The calls of a direct lookup of the actor named [name]. *)
Definition direct_event (name : string) (ev : Event) : Prop :=
  match ev with
  | Log _ _ => True
  | IdFromName asked _ => asked = name
  | NsGet _ options _ =>
      options = {| locationHint := Some "enam"; jurisdiction := None |}
  | _ => False
  end.

(** The calls that reach an actor beyond looking it up, the routing
    facility or a socket. *)
Definition reaches_actor (ev : Event) : Prop :=
  match ev with
  | IsInitialized _ _ | GetFullState _ _ | SetState _ _ _ | Fetch _ _ _
  | RouteAgentRequest _ _ | ValidateWebSocketOrigin _ _
  | NewWebSocketPair _ _ | WsAccept _ | WsSend _ _ | WsClose _ _ _ => True
  | _ => False
  end.

End Counting.

(** ** A scripted platform, to run the model on concrete inputs

    The world counts the identifiers handed out; a stub is the pair of the
    name and the jurisdiction it was asked in. *)

Record Script := {
  sc_initialized : option string -> bool;
  sc_get_raises : bool;
  sc_state : CodeGenState;
  sc_templates : Outcome (option TemplateListResponse);
  sc_inference : Outcome TemplateSelection;
  sc_details : Outcome TemplateDetailsResponse;
  sc_rateLimit : Outcome unit;
  sc_route : Outcome (option unit);
}.

Definition scripted (sc : Script) : Platform :=
  {| World := nat;
     Namespace := unit;
     DurableObjectId := string;
     Stub := string * option string;
     SandboxClient := string;
     WebSocket := bool;
     UpstreamResponse := unit;
     idFromName := fun _ name w => (Ok name, w);
     ns_get := fun _ id options w =>
       if sc_get_raises sc
       then (Raise (JS.new_Error "get failed"), w)
       else (Ok (id, jurisdiction options), w);
     stub_isInitialized := fun stub w => (Ok (sc_initialized sc stub.2), w);
     stub_getFullState := fun _ w => (Ok (sc_state sc), w);
     stub_setState := fun _ _ w => (Ok tt, w);
     stub_fetch := fun _ _ w => (Ok tt, w);
     generateId := fun w => ("agent-" +:+ pretty w, S w);
     generateSecureToken := fun _ w => ("token", w);
     getPreviewDomain := fun _ => "preview.example";
     JSON_stringify := fun _ _ => "{}";
     listTemplates := fun w => (sc_templates sc, w);
     getSandboxService := fun sessionId w => (Ok sessionId, w);
     getTemplateDetails := fun _ _ w => (sc_details sc, w);
     executeInference := fun _ w => (sc_inference sc, w);
     enforceAppCreationRateLimit := fun _ _ w => (sc_rateLimit sc, w);
     getUserModelConfigs := fun _ w => (Ok [], w);
     routeAgentRequest := fun _ w => (sc_route sc, w);
     validateWebSocketOrigin := fun _ w => (Ok true, w);
     newWebSocketPair := fun w => ((false, true), w);
     WebSocketMessageResponses_ERROR := "error";
     invalidHeaderValue := fun _ => "Invalid header value." |}.

Definition gameTemplate : TemplateDescriptor :=
  {| tmpl_name := "react-game-starter";
     tmpl_language := "typescript";
     tmpl_frameworks := Some ["react"; "vite"];
     tmpl_description := {| selection := "Canvas game starter" |} |}.

Definition dashboardTemplate : TemplateDescriptor :=
  {| tmpl_name := "react-dashboard";
     tmpl_language := "typescript";
     tmpl_frameworks := None;
     tmpl_description := {| selection := "Dashboard with charts" |} |}.

Definition gameSelection : TemplateSelection :=
  {| selectedTemplateName := Some "react-game-starter";
     reasoning := "Game starter template provides canvas setup";
     useCase := Some "game"; complexity := Some "simple";
     styleSelection := Some "Retro"; projectName := "puzzle" |}.

Definition gameDetails : TemplateDetails :=
  {| td_name := "react-game-starter";
     td_files := [("src/main.tsx", "render()")] |}.

(** A platform on which everything succeeds: the actor is initialized in
    the default jurisdiction only. *)
Definition happyScript : Script :=
  {| sc_initialized := fun j => match j with None => true | Some _ => false end;
     sc_get_raises := false;
     sc_state := {[ "sessionId" := JS.Str "source";
                    "language" := JS.Str "typescript";
                    "currentDevState" := JS.Num 3 ]};
     sc_templates := Ok (Some {| tl_success := true;
                                 tl_templates := [dashboardTemplate; gameTemplate];
                                 tl_error := None |});
     sc_inference := Ok gameSelection;
     sc_details := Ok {| tdr_success := true;
                         tdr_templateDetails := Some gameDetails;
                         tdr_error := None |};
     sc_rateLimit := Ok tt;
     sc_route := Ok None |}.

(** A failed inference call: [happyScript] with a transport error in
    place of the answer. *)
Definition timeoutScript : Script :=
  {| sc_initialized := sc_initialized happyScript;
     sc_get_raises := false;
     sc_state := sc_state happyScript;
     sc_templates := sc_templates happyScript;
     sc_inference := Raise (JS.new_Error "inference timed out");
     sc_details := sc_details happyScript;
     sc_rateLimit := Ok tt;
     sc_route := Ok None |}.

Definition demoContext : InferenceContext :=
  {| userModelConfigs := []; ic_agentId := "agent-0";
     ic_userId := "anonymous"; enableRealtimeCodeFix := true |}.

Definition demoEnv : Env unit := {| CodeGenObject := Some tt |}.

Definition demoArgs (sc : Script) (templates : list TemplateDescriptor)
    : @SelectTemplateArgs (scripted sc) :=
  @Build_SelectTemplateArgs (scripted sc) demoEnv
    "Build a 2D puzzle game with scoring" templates demoContext.

Definition gameInferenceArgs : InferenceArgs :=
  {| ia_messages :=
       [ {| role := RoleSystem; content := systemPrompt |};
         {| role := RoleUser;
            content := userPrompt "Build a 2D puzzle game with scoring"
                         (templateDescriptions [gameTemplate]) "token" |} ];
     ia_agentActionName := "templateSelection";
     ia_context := demoContext;
     ia_maxTokens := 2000 |}.

Definition withActors (initialized : option string -> bool) (get_raises : bool)
    : Script :=
  {| sc_initialized := initialized;
     sc_get_raises := get_raises;
     sc_state := sc_state happyScript;
     sc_templates := sc_templates happyScript;
     sc_inference := sc_inference happyScript;
     sc_details := sc_details happyScript;
     sc_rateLimit := sc_rateLimit happyScript;
     sc_route := sc_route happyScript |}.

Definition withTemplates (templates : Outcome (option TemplateListResponse))
    : Script :=
  {| sc_initialized := sc_initialized happyScript;
     sc_get_raises := false;
     sc_state := sc_state happyScript;
     sc_templates := templates;
     sc_inference := sc_inference happyScript;
     sc_details := sc_details happyScript;
     sc_rateLimit := sc_rateLimit happyScript;
     sc_route := sc_route happyScript |}.

Definition withRateLimit (answer : Outcome unit) : Script :=
  {| sc_initialized := sc_initialized happyScript;
     sc_get_raises := false;
     sc_state := sc_state happyScript;
     sc_templates := sc_templates happyScript;
     sc_inference := sc_inference happyScript;
     sc_details := sc_details happyScript;
     sc_rateLimit := answer;
     sc_route := sc_route happyScript |}.

(** The actor is initialized in "eu" only. *)
Definition euScript : Script :=
  withActors (fun j => match j with Some "eu" => true | _ => false end) false.

(** The actor is initialized nowhere. *)
Definition dormantScript : Script := withActors (fun _ => false) false.

(** Every [namespace.get] raises. *)
Definition brokenScript : Script := withActors (fun _ => false) true.

(** [listTemplates] succeeds with no template. *)
Definition emptyListScript : Script :=
  withTemplates (Ok (Some {| tl_success := true; tl_templates := [];
                             tl_error := None |})).

(** [listTemplates] reports a failure. *)
Definition offlineScript : Script :=
  withTemplates (Ok (Some {| tl_success := false; tl_templates := [];
                             tl_error := Some "sandbox offline" |})).

(** The rate limiter rejects. *)
Definition limitedScript : Script :=
  withRateLimit (Raise (JS.ErrorObj JS.RateLimitExceededError "too many apps")).

Definition enam (j : option string) : GetOptions :=
  {| locationHint := Some "enam"; jurisdiction := j |}.

Definition happyList : TemplateListResponse :=
  {| tl_success := true;
     tl_templates := [dashboardTemplate; gameTemplate];
     tl_error := None |}.

Definition demoURL : URL :=
  {| url_protocol := "https:"; url_hostname := "build.example"; url_port := "";
     url_host := "build.example"; url_origin := "https://build.example" |}.

Definition demoBody (query : option string) : CodeGenArgs :=
  {| cg_query := query; cg_language := None; cg_frameworks := None;
     cg_selectedTemplate := None; cg_agentMode := None |}.

Definition startRequest (query : option string) : Request :=
  {| req_method := "POST"; req_url := demoURL;
     req_headers := [("content-type", "application/json")];
     req_json := Ok (demoBody query) |}.

Definition socketRequest : Request :=
  {| req_method := "GET"; req_url := demoURL;
     req_headers := [("Upgrade", "websocket"); ("Origin", "https://build.example")];
     req_json := Raise (JS.new_Error "no body") |}.

Definition alice : User := {| user_id := "u1"; user_email := "alice@example.org" |}.

Definition signedIn : RouteContext :=
  {| ctx_user := Some alice; ctx_agentId := Some "app" |}.

Definition anonymous : RouteContext :=
  {| ctx_user := None; ctx_agentId := Some "app" |}.

(** A platform scripted like [scripted], with the answers of the model
    configuration store, of the origin check and of the forwarded fetch
    scripted too. *)
Record Stage := {
  st_script : Script;
  st_configs : Outcome (list (string * MergedConfig));
  st_origin : Outcome bool;
  st_fetch : Outcome unit;
}.

Definition staged (st : Stage) : Platform :=
  let sc := st_script st in
  {| World := nat;
     Namespace := unit;
     DurableObjectId := string;
     Stub := string * option string;
     SandboxClient := string;
     WebSocket := bool;
     UpstreamResponse := unit;
     idFromName := fun _ name w => (Ok name, w);
     ns_get := fun _ id options w =>
       if sc_get_raises sc
       then (Raise (JS.new_Error "get failed"), w)
       else (Ok (id, jurisdiction options), w);
     stub_isInitialized := fun stub w => (Ok (sc_initialized sc stub.2), w);
     stub_getFullState := fun _ w => (Ok (sc_state sc), w);
     stub_setState := fun _ _ w => (Ok tt, w);
     stub_fetch := fun _ _ w => (st_fetch st, w);
     generateId := fun w => ("agent-" +:+ pretty w, S w);
     generateSecureToken := fun _ w => ("token", w);
     getPreviewDomain := fun _ => "preview.example";
     JSON_stringify := fun _ _ => "{}";
     listTemplates := fun w => (sc_templates sc, w);
     getSandboxService := fun sessionId w => (Ok sessionId, w);
     getTemplateDetails := fun _ _ w => (sc_details sc, w);
     executeInference := fun _ w => (sc_inference sc, w);
     enforceAppCreationRateLimit := fun _ _ w => (sc_rateLimit sc, w);
     getUserModelConfigs := fun _ w => (st_configs st, w);
     routeAgentRequest := fun _ w => (sc_route sc, w);
     validateWebSocketOrigin := fun _ w => (st_origin st, w);
     newWebSocketPair := fun w => ((false, true), w);
     WebSocketMessageResponses_ERROR := "error";
     invalidHeaderValue := fun _ => "Invalid header value." |}.

Definition withInference (answer : Outcome TemplateSelection) : Script :=
  {| sc_initialized := sc_initialized happyScript;
     sc_get_raises := false;
     sc_state := sc_state happyScript;
     sc_templates := sc_templates happyScript;
     sc_inference := answer;
     sc_details := sc_details happyScript;
     sc_rateLimit := sc_rateLimit happyScript;
     sc_route := sc_route happyScript |}.

Definition withRoute (answer : Outcome (option unit)) : Script :=
  {| sc_initialized := sc_initialized happyScript;
     sc_get_raises := false;
     sc_state := sc_state happyScript;
     sc_templates := sc_templates happyScript;
     sc_inference := sc_inference happyScript;
     sc_details := sc_details happyScript;
     sc_rateLimit := sc_rateLimit happyScript;
     sc_route := answer |}.

(** The inference answers with a template that is not a candidate. *)
Definition strangerSelection : TemplateSelection :=
  {| selectedTemplateName := Some "vue-blog";
     reasoning := "Closest match";
     useCase := None; complexity := None;
     styleSelection := None; projectName := "blog" |}.

Definition slowDown : JS.Thrown :=
  JS.ErrorObj JS.RateLimitExceededError "slow down".

Definition fastModel : ModelConfig :=
  {| mc_name := JS.Str "fast"; mc_max_tokens := JS.Num 4000;
     mc_temperature := JS.Undefined; mc_reasoning_effort := JS.Str "low";
     mc_fallbackModel := JS.Undefined |}.

Definition stockModel : ModelConfig :=
  {| mc_name := JS.Str "stock"; mc_max_tokens := JS.Num 8000;
     mc_temperature := JS.Undefined; mc_reasoning_effort := JS.Undefined;
     mc_fallbackModel := JS.Undefined |}.

(** The configurations of [alice]: one of her own, one default. *)
Definition aliceConfigs : list (string * MergedConfig) :=
  [ ("blueprint", {| isUserOverride := true; merged := fastModel |});
    ("templateSelection", {| isUserOverride := false; merged := stockModel |}) ].

Definition overridesStage : Stage :=
  {| st_script := happyScript; st_configs := Ok aliceConfigs;
     st_origin := Ok true; st_fetch := Ok tt |}.

(** The origin check refuses. *)
Definition foreignOriginStage : Stage :=
  {| st_script := happyScript; st_configs := Ok [];
     st_origin := Ok false; st_fetch := Ok tt |}.

(** The actor rejects the forwarded request. *)
Definition unreachableStage : Stage :=
  {| st_script := happyScript; st_configs := Ok [];
     st_origin := Ok true;
     st_fetch := Raise (JS.new_Error "actor unreachable") |}.

Definition gameQuery : string := "Build a 2D puzzle game with scoring".

Definition happyInferenceArgs (ctx : InferenceContext) : InferenceArgs :=
  {| ia_messages :=
       [ {| role := RoleSystem; content := systemPrompt |};
         {| role := RoleUser;
            content := userPrompt gameQuery
                         (templateDescriptions [dashboardTemplate; gameTemplate])
                         "token" |} ];
     ia_agentActionName := "templateSelection";
     ia_context := ctx;
     ia_maxTokens := 2000 |}.

Definition noEnv : Env unit := {| CodeGenObject := None |}.

Definition happyResult : TemplateForQuery :=
  {| sandboxSessionId := "agent-0"; templateDetails := gameDetails;
     tfq_selection := gameSelection |}.


Definition happyParams (ctx : InferenceContext) (sessionId : string)
    : AgentInitParams :=
  {| aip_query := gameQuery;
     aip_language := "typescript";
     aip_frameworks := ["react"; "vite"];
     aip_hostname := "preview.example";
     aip_inferenceContext := ctx;
     aip_templateDetails := gameDetails;
     aip_selection := gameSelection;
     aip_sandboxSessionId := sessionId |}.

(** A WebSocket request whose client sets the [Room] header itself, with
    header names in mixed case. *)
Definition spoofedRequest : Request :=
  {| req_method := "GET"; req_url := demoURL;
     req_headers := [ ("upgrade", "websocket"); ("Room", "evil");
                      ("Origin", "https://build.example") ];
     req_json := Raise (JS.new_Error "no body") |}.

(** What the fallback forwards for [spoofedRequest] and the agent "app". *)
Definition forwardedRequest : Request :=
  {| req_method := "GET"; req_url := demoURL;
     req_headers := [ ("origin", "https://build.example"); ("room", "app");
                      ("upgrade", "websocket"); ("namespace", "CodeGenObject") ];
     req_json := Raise (JS.new_Error "no body") |}.

(** A sandbox that refuses the deployment. *)
Definition quotaExceeded (stub : string * option string) (w : nat)
    : Outcome (option string) * nat :=
  (Raise (JS.new_Error "sandbox quota exceeded"), w).

(** A tool whose implementation fails, with both hooks logging. *)
Definition failingTool (sc : Script)
    : ToolDefinition (P := scripted sc) string nat :=
  {| onStart := Some (fun args => log (P := scripted sc) Info ("start " +:+ args));
     implementation := fun args _ =>
       log (P := scripted sc) Info ("run " +:+ args);;
       throw (JS.new_Error "tool failed");
     onComplete := Some (fun args result =>
                           log (P := scripted sc) Info ("done " +:+ args)) |}.

(** ** Running the model *)

Lemma trace_event `{P : Platform} (Q : Event -> Prop) (t : list Event) (ev : Event) :
  Forall Q t -> In ev t -> Q ev.
Proof.
  induction 1 as [| x l Hx Hl IH]; simpl; [tauto |].
  intros [<- | H]; auto.
Qed.


(** Unfolds the monad so that a run reduces to the collaborators' answers. *)
Ltac run :=
  cbv beta iota zeta delta
    [mbind M_bind bind mret M_ret ret throw try_catch settle settled call
     call_total emit log result_of world_of trace_of promise_all or_return
     fst snd negb]; cbn [app].

Tactic Notation "run" "in" hyp(H) :=
  cbv beta iota zeta delta
    [mbind M_bind bind mret M_ret ret throw try_catch settle settled call
     call_total emit log result_of world_of trace_of promise_all or_return
     fst snd negb] in H; cbn [app] in H.

(** One step of a run kept in [H]: case analysis on the answer of the next
    call (a collaborator or a modelled function that is still folded). *)
Ltac step_in H :=
  match type of H with
  | context [match ?x with Ok _ => _ | Raise _ => _ end] => is_var x; destruct x
  | context [let (_, _) := ?x in _] =>
      lazymatch x with
      | context [let (_, _) := _ in _] => fail
      | context [match _ with Ok _ => _ | Raise _ => _ end] => fail
      | context [if _ then _ else _] => fail
      | context [match _ with Some _ => _ | None => _ end] => fail
      | context [match _ with inl _ => _ | inr _ => _ end] => fail
      | _ => idtac
      end;
      first [ is_var x; destruct x | destruct x eqn:? ]
  end;
  run in H.

(** Uses the known answer [H] of the next call of the run in the goal. *)
Ltac feed H := rewrite H; run.

Ltac feed_in Hrun H := rewrite H in Hrun; run in Hrun.

(** Closes a run: the equation [H] between two finished runs. *)
Ltac finish H := injection H as <- <- <-.

(** Case analysis on membership in a trace: an explicit list, possibly
    with the traces of folded runs inside; these need [emits_only] facts
    ([Forall Q t]) in the context. *)
Ltac in_trace H :=
  simpl in H;
  repeat lazymatch type of H with
    | _ \/ _ => destruct H as [H | H]; [try discriminate H |]
    | False => destruct H
    | In _ (_ ++ _) => apply in_app_or in H; simpl in H
    | In _ ?t =>
        is_var t;
        match goal with
        | Ht : Forall _ t |- _ =>
            let Hq := fresh "Hq" in
            pose proof (trace_event _ _ _ Ht H) as Hq; simpl in Hq; destruct Hq
        end
    end.

(** The model runs: the scenario of the spec, end to end. *)
Example selectTemplate_happy :
  result_of (selectTemplate (demoArgs happyScript [dashboardTemplate; gameTemplate]) 0)
  = Ok gameSelection.
Proof. reflexivity. Qed.

Example getTemplateForQuery_happy :
  result_of (getTemplateForQuery (P := scripted happyScript) demoEnv demoContext
               "Build a 2D puzzle game with scoring" 0)
  = Ok {| sandboxSessionId := "agent-0"; templateDetails := gameDetails;
          tfq_selection := gameSelection |}.
Proof. reflexivity. Qed.

Example getAgentStub_eu :
  result_of (getAgentStub (P := scripted euScript) demoEnv "app" true 0)
  = Ok ("app", Some "eu").
Proof. reflexivity. Qed.

Example startCodeGeneration_happy :
  exists headers,
    result_of (startCodeGeneration (P := scripted happyScript)
                 (startRequest (Some "Build a 2D puzzle game with scoring"))
                 demoEnv anonymous 0)
    = Ok (NewResponse BodyReadable 200 headers None).
Proof. eexists. reflexivity. Qed.

Example startCodeGeneration_missing_query :
  result_of (startCodeGeneration (P := scripted happyScript)
               (startRequest None) demoEnv anonymous 0)
  = Ok (ErrorResponse
          (ErrText ("Missing " +:+ JS.dq +:+ "query" +:+ JS.dq
                    +:+ " field in request body")) 400).
Proof. reflexivity. Qed.

Example headers_get_ignores_case :
  headers_get "Upgrade" [("upgrade", "websocket")] = Some "websocket"
  /\ headers_get "upgrade" [("Upgrade", "websocket")] = Some "websocket"
  /\ headers_get "Upgrade" [("Origin", "https://build.example")] = None.
Proof. repeat split. Qed.

Example headers_get_joins_repeated :
  headers_get "accept" [("Accept", "text/html"); ("Origin", "o"); ("ACCEPT", "*/*")]
  = Some "text/html, */*".
Proof. reflexivity. Qed.

Example headers_entries_sorted_and_combined :
  headers_entries [("Upgrade", "websocket"); ("Room", "evil"); ("accept", "a");
                   ("Accept", "b")]
  = [("accept", "a, b"); ("room", "evil"); ("upgrade", "websocket")].
Proof. reflexivity. Qed.

Example handleWebSocketConnection_lower_case_upgrade :
  result_of (handleWebSocketConnection (P := scripted (withRoute (Ok (Some tt))))
               spoofedRequest demoEnv anonymous 0)
  = Ok (Upstream (P := scripted (withRoute (Ok (Some tt)))) tt).
Proof. reflexivity. Qed.

Example handleWebSocketConnection_without_upgrade :
  result_of (handleWebSocketConnection (P := scripted happyScript)
               (startRequest None) demoEnv anonymous 0)
  = Ok (NewResponse (BodyText "Expected WebSocket upgrade") 426 [] None).
Proof. reflexivity. Qed.

Section TemplateSelectorFacts.
Context `{P : Platform}.

Lemma selectTemplate_empty_run (args : SelectTemplateArgs) (w : World) :
  sta_availableTemplates args = [] ->
  selectTemplate args w
  = (Ok noTemplatesSelection, w,
     [ Log Info "Starting template selection";
       Log Error "No templates available for selection" ]).
Proof. intros Hempty. unfold selectTemplate. rewrite Hempty. reflexivity. Qed.

(** C3. With an empty candidate list [selectTemplate] returns, without
    raising, a selection whose [selectedTemplateName] is null and whose
    reasoning is not empty; the inference collaborator is not called (and
    the world is left as it was). *)
Theorem selectTemplate_empty_candidates (args : SelectTemplateArgs) (w : World) :
  sta_availableTemplates args = [] ->
  exists sel,
    result_of (selectTemplate args w) = Ok sel
    /\ selectedTemplateName sel = None
    /\ reasoning sel <> ""
    /\ world_of (selectTemplate args w) = w
    /\ forall iargs r, ~ In (ExecuteInference iargs r) (trace_of (selectTemplate args w)).
Proof.
  intros Hempty. exists noTemplatesSelection.
  rewrite (selectTemplate_empty_run _ _ Hempty).
  repeat split; try done.
  intros iargs r H. in_trace H.
Qed.

(** C4, amended. When the inference call raises inside [selectTemplate]:
    a rate-limit or security error is rethrown unchanged; any other
    failure is caught and a selection is returned whose name, use case,
    complexity, style and project name are those of the empty-candidate
    result, with its own reasoning text. *)
Theorem selectTemplate_inference_failure (args : SelectTemplateArgs) (w w' : World)
    (r : Outcome TemplateSelection) (tr : list Event)
    (iargs : InferenceArgs) (e : JS.Thrown) :
  selectTemplate args w = (r, w', tr) ->
  In (ExecuteInference iargs (Raise e)) tr ->
  (propagated e = true -> r = Raise e)
  /\ (propagated e = false ->
      exists sel,
        r = Ok sel
        /\ selectedTemplateName sel = None
        /\ selectedTemplateName sel = selectedTemplateName noTemplatesSelection
        /\ useCase sel = useCase noTemplatesSelection
        /\ complexity sel = complexity noTemplatesSelection
        /\ styleSelection sel = styleSelection noTemplatesSelection
        /\ projectName sel = projectName noTemplatesSelection
        /\ reasoning sel = "An error occurred during the template selection process.").
Proof.
  unfold selectTemplate, propagated. intros Hrun Hin.
  destruct (length (sta_availableTemplates args) =? 0); run in Hrun.
  { finish Hrun. in_trace Hin. }
  do 3 step_in Hrun.
  { finish Hrun. in_trace Hin. }
  destruct (JS.instanceof_RateLimitExceededError e0
            || JS.instanceof_SecurityError e0) eqn:Hcls;
    run in Hrun; finish Hrun; in_trace Hin; injection Hin as <- <-.
  - split; [reflexivity | congruence].
  - split; [congruence |]. intros _. exists errorFallbackSelection.
    repeat split.
Qed.

End TemplateSelectorFacts.

(** The witness of C3: the scripted platform, no candidate. *)
Lemma selectTemplate_empty_candidates_witness :
  sta_availableTemplates (demoArgs happyScript []) = []
  /\ exists sel,
       result_of (selectTemplate (demoArgs happyScript []) 0) = Ok sel
       /\ selectedTemplateName sel = None
       /\ reasoning sel <> ""
       /\ world_of (selectTemplate (demoArgs happyScript []) 0) = 0
       /\ forall iargs r,
            ~ In (ExecuteInference iargs r)
                 (trace_of (selectTemplate (demoArgs happyScript []) 0)).
Proof.
  split; [reflexivity |].
  apply (selectTemplate_empty_candidates (P := scripted happyScript)).
  reflexivity.
Defined.

(** C4, as stated, fails: after a transport error of the inference call
    [selectTemplate] does return a selection, but not the one of the
    empty-candidate case (the reasoning text differs). *)
Lemma selectTemplate_fallback_differs_from_empty_case :
  let failed := selectTemplate (demoArgs timeoutScript [gameTemplate]) 0 in
  let empty := selectTemplate (demoArgs timeoutScript []) 0 in
  In (ExecuteInference (P := scripted timeoutScript) gameInferenceArgs
        (Raise (JS.new_Error "inference timed out")))
     (trace_of failed)
  /\ propagated (JS.new_Error "inference timed out") = false
  /\ result_of failed <> result_of empty.
Proof.
  repeat split.
  - vm_compute. do 5 right. left. reflexivity.
  - vm_compute. intros H. discriminate H.
Qed.

(** The witness of C4 amended: the same failed run. *)
Lemma selectTemplate_inference_failure_witness :
  let failed := selectTemplate (demoArgs timeoutScript [gameTemplate]) 0 in
  let e := JS.new_Error "inference timed out" in
  In (ExecuteInference (P := scripted timeoutScript) gameInferenceArgs (Raise e))
     (trace_of failed)
  /\ (propagated e = true -> result_of failed = Raise e)
  /\ (propagated e = false ->
      exists sel,
        result_of failed = Ok sel
        /\ selectedTemplateName sel = None
        /\ selectedTemplateName sel = selectedTemplateName noTemplatesSelection
        /\ useCase sel = useCase noTemplatesSelection
        /\ complexity sel = complexity noTemplatesSelection
        /\ styleSelection sel = styleSelection noTemplatesSelection
        /\ projectName sel = projectName noTemplatesSelection
        /\ reasoning sel = "An error occurred during the template selection process.").
Proof.
  intros failed e.
  assert (Hin : In (ExecuteInference (P := scripted timeoutScript)
                      gameInferenceArgs (Raise e)) (trace_of failed)).
  { vm_compute. do 5 right. left. reflexivity. }
  split; [exact Hin |].
  apply (selectTemplate_inference_failure (P := scripted timeoutScript)
           (demoArgs timeoutScript [gameTemplate]) 0 (world_of failed)
           (result_of failed) (trace_of failed) gameInferenceArgs e);
    [reflexivity | exact Hin].
Defined.

(** ** Which calls a computation can make *)

Section Emits.
Context `{P : Platform}.

Lemma emits_only_ret {A} Q (a : A) : emits_only Q (mret a).
Proof. intros w. constructor. Qed.

Lemma emits_only_throw {A} Q e : emits_only Q (throw (A := A) e).
Proof. intros w. constructor. Qed.

Lemma emits_only_settled {A} Q (r : Outcome A) : emits_only Q (settled r).
Proof. intros w. constructor. Qed.

Lemma emits_only_emit Q ev : Q ev -> emits_only Q (emit ev).
Proof. intros H w. repeat constructor. exact H. Qed.

Lemma emits_only_log Q level message :
  Q (Log level message) -> emits_only Q (log level message).
Proof. apply emits_only_emit. Qed.

Lemma emits_only_call {A} Q (h : World -> Outcome A * World) ev :
  (forall r, Q (ev r)) -> emits_only Q (call h ev).
Proof.
  intros H w. unfold call, trace_of. destruct (h w) as [r w1]. simpl.
  repeat constructor. apply H.
Qed.

Lemma emits_only_call_total {A} Q (h : World -> A * World) ev :
  (forall a, Q (ev a)) -> emits_only Q (call_total h ev).
Proof.
  intros H w. unfold call_total, trace_of. destruct (h w) as [a w1]. simpl.
  repeat constructor. apply H.
Qed.

Lemma emits_only_bind {A B} Q (m : M A) (k : A -> M B) :
  emits_only Q m -> (forall a, emits_only Q (k a)) -> emits_only Q (m ≫= k).
Proof.
  intros Hm Hk w. specialize (Hm w). unfold trace_of in *. run.
  destruct (m w) as [[[a | e] w1] t1]; simpl in *; [| exact Hm].
  specialize (Hk a w1). unfold trace_of in Hk.
  destruct (k a w1) as [[r w2] t2]. simpl in *.
  apply Forall_app. split; assumption.
Qed.

Lemma emits_only_try_catch {A} Q (m : M A) (handler : JS.Thrown -> M A) :
  emits_only Q m -> (forall e, emits_only Q (handler e)) ->
  emits_only Q (try_catch m handler).
Proof.
  intros Hm Hk w. specialize (Hm w). unfold trace_of in *. run.
  destruct (m w) as [[[a | e] w1] t1]; simpl in *; [exact Hm |].
  specialize (Hk e w1). unfold trace_of in Hk.
  destruct (handler e w1) as [[r w2] t2]. simpl in *.
  apply Forall_app. split; assumption.
Qed.

Lemma emits_only_settle {A} Q (m : M A) :
  emits_only Q m -> emits_only Q (settle m).
Proof.
  intros Hm w. specialize (Hm w). unfold trace_of in *. run.
  destruct (m w) as [[r w1] t1]. exact Hm.
Qed.

Lemma emits_only_promise_all {A B} Q (a : M A) (b : M B) :
  emits_only Q a -> emits_only Q b -> emits_only Q (promise_all a b).
Proof.
  intros Ha Hb. unfold promise_all.
  apply emits_only_bind; [apply emits_only_settle, Ha |]. intros ra.
  apply emits_only_bind; [apply emits_only_settle, Hb |]. intros rb.
  destruct ra, rb; first [apply emits_only_ret | apply emits_only_throw].
Qed.

Lemma emits_only_or_return {A} Q (m : M (Response + A)) (k : A -> M Response) :
  emits_only Q m -> (forall a, emits_only Q (k a)) -> emits_only Q (or_return m k).
Proof.
  intros Hm Hk. unfold or_return. apply emits_only_bind; [exact Hm |].
  intros [response | a]; [apply emits_only_ret | apply Hk].
Qed.

(** What [m] emitted, read off a finished run. *)
Lemma emits_only_run {A} Q (m : M A) w r w' tr :
  emits_only Q m -> m w = (r, w', tr) -> Forall Q tr.
Proof. intros Hm Hrun. specialize (Hm w). rewrite Hrun in Hm. exact Hm. Qed.

End Emits.

(** Walks through a computation, leaving the side conditions on events. *)
Ltac emits :=
  repeat first
    [ apply emits_only_ret
    | apply emits_only_throw
    | apply emits_only_settled
    | apply emits_only_log
    | apply emits_only_emit
    | apply emits_only_call; intros ?
    | apply emits_only_call_total; intros ?
    | apply emits_only_promise_all
    | apply emits_only_or_return; [| intros ?]
    | apply emits_only_try_catch; [| intros ?]
    | apply emits_only_bind; [| intros ?]
    | match goal with
      | |- emits_only _ (if ?b then _ else _) => destruct b
      | |- emits_only _ (match ?x with Some _ => _ | None => _ end) => destruct x
      | |- emits_only _ (match ?x with Ok _ => _ | Raise _ => _ end) => destruct x
      | |- emits_only _ (match ?x with inl _ => _ | inr _ => _ end) => destruct x
      | |- emits_only _ (let (_, _) := ?x in _) => destruct x
      end ].

Section AgentsFacts.
Context `{P : Platform}.

Lemma getAgentStub_emits env agentId search :
  emits_only lookup_event (getAgentStub env agentId search).
Proof.
  unfold getAgentStub. destruct (CodeGenObject env) as [namespace |];
    [| emits; exact I].
  assert (Hsearch : forall js,
             emits_only lookup_event (searchJurisdictions namespace agentId js)).
  { induction js as [| j rest IH]; simpl; [emits |].
    unfold tryJurisdiction, getAgentByName. emits; try exact I. apply IH. }
  unfold getAgentByName.
  emits; first [exact I | apply Hsearch].
Qed.

(** One iteration of the search loop never raises. *)
Lemma tryJurisdiction_reports namespace agentId j w stub w' :
  reportsInitialized namespace agentId j w stub w' ->
  exists t,
    tryJurisdiction namespace agentId j w = (Ok (Some stub), w', t)
    /\ forall ev, In ev t ->
         match ev with
         | NsGet _ options _ => jurisdiction options = j
         | _ => True
         end.
Proof.
  intros (id & w1 & w2 & Hid & Hget & Hinit).
  unfold tryJurisdiction, getAgentByName. run.
  feed Hid. feed Hget. feed Hinit.
  eexists. split; [reflexivity |].
  intros ev H. in_trace H; subst ev; done.
Qed.

Lemma tryJurisdiction_not namespace agentId j w w' :
  notInitialized namespace agentId j w w' ->
  exists t, tryJurisdiction namespace agentId j w = (Ok None, w', t).
Proof.
  unfold tryJurisdiction, getAgentByName. run.
  intros [(e & H1) | [(id & w1 & e & H1 & H2)
                      | (id & w1 & stub & w2 & answer & H1 & H2 & H3 & Hans)]].
  - feed H1. eexists. reflexivity.
  - feed H1. feed H2. eexists. reflexivity.
  - feed H1. feed H2. feed H3.
    destruct answer as [[|] | e]; [congruence | |]; run; eexists; reflexivity.
Qed.

(** An attempt that raised was caught and logged. *)
Lemma tryJurisdiction_raised namespace agentId j w w' t r :
  attemptRaised namespace agentId j w w' ->
  tryJurisdiction namespace agentId j w = (r, w', t) ->
  In (Log Info ("Agent " +:+ agentId +:+ " not found in jurisdiction "
                +:+ show_jurisdiction j +:+ ":")) t.
Proof.
  unfold tryJurisdiction, getAgentByName. run.
  intros [(e & H1) | [(id & w1 & e & H1 & H2)
                      | (id & w1 & stub & w2 & e & H1 & H2 & H3)]].
  - feed H1. intros [= <- <-]. simpl. tauto.
  - feed H1. feed H2. intros [= <- <-]. simpl. tauto.
  - feed H1. feed H2. feed H3. intros [= <- <-]. simpl. tauto.
Qed.

(** C5. A jurisdiction search tries the default jurisdiction, then "eu",
    and returns the handle of the first one whose actor reports
    initialized.  When the default one does, its handle is returned
    whatever "eu" would answer: "eu" is not even looked up. *)
Theorem getAgentStub_first_initialized_jurisdiction
    (env : Env Namespace) (namespace : Namespace) (agentId : string) (w : World) :
  CodeGenObject env = Some namespace ->
  (forall stub w',
      reportsInitialized namespace agentId None w stub w' ->
      result_of (getAgentStub env agentId true w) = Ok stub
      /\ world_of (getAgentStub env agentId true w) = w'
      /\ forall id r,
           ~ In (NsGet id {| locationHint := Some "enam";
                             jurisdiction := Some "eu" |} r)
                (trace_of (getAgentStub env agentId true w)))
  /\ (forall w1 stub w',
        notInitialized namespace agentId None w w1 ->
        reportsInitialized namespace agentId (Some "eu") w1 stub w' ->
        result_of (getAgentStub env agentId true w) = Ok stub
        /\ world_of (getAgentStub env agentId true w) = w').
Proof.
  intros Hns. split.
  - intros stub w' Hrep.
    destruct (tryJurisdiction_reports _ _ _ _ _ _ Hrep) as (t & Ht & Hev).
    unfold getAgentStub. rewrite Hns.
    unfold jurisdictions, searchJurisdictions. run. feed Ht.
    repeat split. intros id r H.
    in_trace H; apply Hev in H; discriminate H.
  - intros w1 stub w' Hnot Hrep.
    destruct (tryJurisdiction_not _ _ _ _ _ Hnot) as (t1 & Ht1).
    destruct (tryJurisdiction_reports _ _ _ _ _ _ Hrep) as (t2 & Ht2 & _).
    unfold getAgentStub. rewrite Hns.
    unfold jurisdictions, searchJurisdictions. run. feed Ht1. feed Ht2.
    split; reflexivity.
Qed.

(** C6, amended. When no jurisdiction reports an initialized actor the
    search loop raises nothing: an attempt that raised was caught and
    logged.  [getAgentStub] then resolves the id directly in the default
    jurisdiction and ends as that resolution ends: with its handle, whose
    initialization is not checked, or with the error it raised. *)
Theorem getAgentStub_none_initialized
    (env : Env Namespace) (namespace : Namespace) (agentId : string)
    (w w1 w2 : World) :
  CodeGenObject env = Some namespace ->
  notInitialized namespace agentId None w w1 ->
  notInitialized namespace agentId (Some "eu") w1 w2 ->
  let direct :=
    getAgentByName namespace agentId
      {| locationHint := Some "enam"; jurisdiction := None |} w2 in
  result_of (getAgentStub env agentId true w) = result_of direct
  /\ world_of (getAgentStub env agentId true w) = world_of direct
  /\ (attemptRaised namespace agentId None w w1 ->
      In (Log Info ("Agent " +:+ agentId
                    +:+ " not found in jurisdiction undefined:"))
         (trace_of (getAgentStub env agentId true w)))
  /\ (attemptRaised namespace agentId (Some "eu") w1 w2 ->
      In (Log Info ("Agent " +:+ agentId +:+ " not found in jurisdiction eu:"))
         (trace_of (getAgentStub env agentId true w))).
Proof.
  intros Hns Hnot1 Hnot2 direct. subst direct.
  destruct (tryJurisdiction_not _ _ _ _ _ Hnot1) as (t1 & Ht1).
  destruct (tryJurisdiction_not _ _ _ _ _ Hnot2) as (t2 & Ht2).
  assert (Hlog1 := fun H => tryJurisdiction_raised _ _ _ _ _ _ _ H Ht1).
  assert (Hlog2 := fun H => tryJurisdiction_raised _ _ _ _ _ _ _ H Ht2).
  simpl in Hlog1, Hlog2.
  unfold getAgentStub. rewrite Hns.
  unfold jurisdictions, searchJurisdictions. run. feed Ht1. feed Ht2.
  destruct (getAgentByName namespace agentId
              {| locationHint := Some "enam"; jurisdiction := None |} w2)
    as [[[stub | e] w3] t3]; run.
  all: split; [reflexivity |]; split; [reflexivity |].
  all: split; intros H; [apply Hlog1 in H | apply Hlog2 in H];
    simpl; rewrite ?in_app_iff; tauto.
Qed.

(** A direct lookup that succeeds went through the namespace: the handle
    is the one obtained for the id derived from the name. *)
Lemma getAgentStub_direct env name w stub w' t :
  getAgentStub env name false w = (Ok stub, w', t) ->
  exists id,
    In (IdFromName name (Ok id)) t
    /\ In (NsGet id {| locationHint := Some "enam"; jurisdiction := None |} (Ok stub)) t.
Proof.
  unfold getAgentStub, getAgentByName. intros Hrun.
  destruct (CodeGenObject env) as [namespace |]; run in Hrun; [| discriminate Hrun].
  destruct (idFromName namespace name w) as [[id | e] w1]; run in Hrun;
    [| discriminate Hrun].
  destruct (ns_get namespace id _ w1) as [[stub' | e] w2]; run in Hrun;
    [| discriminate Hrun].
  injection Hrun as <- <- <-. exists id. simpl. tauto.
Qed.

Lemma lookup_prewrite ev : lookup_event ev -> prewrite_event ev.
Proof. destruct ev; simpl; tauto. Qed.

(** The two shapes of a run of [cloneAgent]: it raises before any write,
    or it reaches the single [setState], the last call it makes. *)
Lemma cloneAgent_run env agentId w r w' tr :
  cloneAgent env agentId w = (r, w', tr) ->
  (Forall prewrite_event tr
   /\ (forall source answer,
         In (GetFullState source answer) tr ->
         In (IsInitialized source (Ok true)) tr)
   /\ exists e, r = Raise e)
  \/ (exists t1 source newAgentId t2 newAgent originalState res w2 w3,
        Forall lookup_event t1
        /\ Forall lookup_event t2
        /\ getAgentStub env newAgentId false w2 = (Ok newAgent, w3, t2)
        /\ tr = t1 ++ [IsInitialized source (Ok true); GenerateId newAgentId]
                ++ t2 ++ [GetFullState source (Ok originalState);
                          SetState newAgent (newState originalState newAgentId) res]
        /\ r = match res with
               | Ok _ => Ok (newAgentId, newAgent)
               | Raise e => Raise e
               end).
Proof.
  intros Hrun. unfold cloneAgent in Hrun. run in Hrun.
  destruct (getAgentStub env agentId true w) as [[[source | e] w1] t1] eqn:Hsrc;
    pose proof (emits_only_run _ _ _ _ _ _ (getAgentStub_emits _ _ _) Hsrc) as Ht1;
    run in Hrun.
  2: { finish Hrun. left. split; [| split; [| eauto]].
       - eapply Forall_impl; [exact Ht1 | apply lookup_prewrite].
       - intros s a H. apply (trace_event _ _ _ Ht1) in H. destruct H. }
  destruct (stub_isInitialized source w1) as [[initialized | e] w2];
    run in Hrun.
  2: { finish Hrun. left. split; [| split; [| eauto]].
       - apply Forall_app. split; [| repeat constructor].
         eapply Forall_impl; [exact Ht1 | apply lookup_prewrite].
       - intros s a H. apply in_app_or in H as [H | H]; [| in_trace H].
         apply (trace_event _ _ _ Ht1) in H. destruct H. }
  destruct initialized; run in Hrun.
  2: { finish Hrun. left. split; [| split; [| eauto]].
       - rewrite ?app_nil_r. apply Forall_app. split; [| repeat constructor].
         eapply Forall_impl; [exact Ht1 | apply lookup_prewrite].
       - intros s a H. rewrite ?app_nil_r in H.
         apply in_app_or in H as [H | H]; [| in_trace H].
         apply (trace_event _ _ _ Ht1) in H. destruct H. }
  destruct (generateId w2) as [newAgentId w3]. run in Hrun.
  destruct (getAgentStub env newAgentId false w3) as [[[newAgent | e] w4] t2] eqn:Hnew;
    pose proof (emits_only_run _ _ _ _ _ _ (getAgentStub_emits _ _ _) Hnew) as Ht2;
    run in Hrun.
  2: { finish Hrun. left. split; [| split; [| eauto]].
       - apply Forall_app. split.
         + eapply Forall_impl; [exact Ht1 | apply lookup_prewrite].
         + repeat constructor.
           eapply Forall_impl; [exact Ht2 | apply lookup_prewrite].
       - intros s a H. apply in_app_or in H as [H | H].
         + apply (trace_event _ _ _ Ht1) in H. destruct H.
         + simpl in H. destruct H as [H | [H | H]]; try discriminate H.
           apply (trace_event _ _ _ Ht2) in H. destruct H. }
  destruct (stub_getFullState source w4) as [[originalState | e] w5];
    run in Hrun.
  2: { finish Hrun. left. split; [| split; [| eauto]].
       - apply Forall_app. split.
         + eapply Forall_impl; [exact Ht1 | apply lookup_prewrite].
         + repeat constructor. apply Forall_app. split; [| repeat constructor].
           eapply Forall_impl; [exact Ht2 | apply lookup_prewrite].
       - intros s a H. apply in_app_or in H as [H | H].
         + apply (trace_event _ _ _ Ht1) in H. destruct H.
         + simpl in H. destruct H as [H | [H | H]]; try discriminate H.
           apply in_app_or in H as [H | H].
           * apply (trace_event _ _ _ Ht2) in H. destruct H.
           * in_trace H. injection H as <- _.
             apply in_or_app. right. left. reflexivity. }
  destruct (stub_setState newAgent _ w5) as [res w6]. run in Hrun.
  right. exists t1, source, newAgentId, t2, newAgent, originalState, res, w3, w4.
  repeat split; try assumption.
  - destruct res; finish Hrun; rewrite ?app_nil_r; reflexivity.
  - destruct res; finish Hrun; reflexivity.
Qed.

(** Membership in the trace of a run that reached the write. *)
Lemma in_clone_trace (ev : Event) t1 (a b : Event) t2 (c d : Event) :
  In ev (t1 ++ [a; b] ++ t2 ++ [c; d]) <->
  In ev t1 \/ ev = a \/ ev = b \/ In ev t2 \/ ev = c \/ ev = d.
Proof.
  rewrite !in_app_iff. simpl. intuition (subst; auto).
Qed.

(** C2, amended. When [cloneAgent] returns, the state it wrote to the new
    actor is the source state it fetched with exactly seven properties
    replaced: the session identifier (the new id), the sandbox binding
    (undefined), the pending inputs (empty), the generation flag (false),
    the generation handle (undefined), the reported client errors (empty)
    and also [currentDevState] (0).  Every other property is the source's. *)
Theorem cloneAgent_derived_state
    (env : Env Namespace) (agentId newAgentId : string) (newAgent : Stub)
    (w w' : World) (tr : list Event) :
  cloneAgent env agentId w = (Ok (newAgentId, newAgent), w', tr) ->
  exists source originalState st,
    In (IsInitialized source (Ok true)) tr
    /\ In (GetFullState source (Ok originalState)) tr
    /\ In (SetState newAgent st (Ok tt)) tr
    /\ st !! "sessionId" = Some (JS.Str newAgentId)
    /\ st !! "sandboxInstanceId" = Some JS.Undefined
    /\ st !! "pendingUserInputs" = Some (JS.Arr [])
    /\ st !! "shouldBeGenerating" = Some (JS.Bool false)
    /\ st !! "generationPromise" = Some JS.Undefined
    /\ st !! "clientReportedErrors" = Some (JS.Arr [])
    /\ st !! "currentDevState" = Some (JS.Num 0)
    /\ forall k, k ∉ resetKeys -> st !! k = originalState !! k.
Proof.
  intros Hrun.
  destruct (cloneAgent_run _ _ _ _ _ _ Hrun)
    as [(_ & _ & e & He)
       | (t1 & source & newId & t2 & new & originalState & res & w2 & w3
          & _ & _ & _ & -> & Hres)];
    [discriminate He |].
  destruct res as [[] | e]; [| discriminate Hres].
  injection Hres as -> ->.
  exists source, originalState, (newState originalState newId).
  rewrite !in_clone_trace. unfold newState.
  repeat split; try tauto; try (by simplify_map_eq).
  intros k Hk. unfold resetKeys in Hk.
  repeat (apply not_elem_of_cons in Hk as [? Hk]).
  rewrite !lookup_insert_ne by done. reflexivity.
Qed.

Lemma cloneAgent_reads_located env agentId w r w' tr source w1 t1 :
  cloneAgent env agentId w = (r, w', tr) ->
  getAgentStub env agentId true w = (Ok source, w1, t1) ->
  forall stub answer, In (GetFullState stub answer) tr -> stub = source.
Proof.
  intros Hrun Hsrc stub answer Hin.
  pose proof (emits_only_run _ _ _ _ _ _ (getAgentStub_emits _ _ _) Hsrc) as Ht1.
  unfold cloneAgent in Hrun. run in Hrun. feed_in Hrun Hsrc.
  destruct (stub_isInitialized source w1) as [[[] | e] w2]; run in Hrun.
  2, 3: finish Hrun; in_trace Hin.
  destruct (generateId w2) as [newAgentId w3]. run in Hrun.
  destruct (getAgentStub env newAgentId false w3) as [[[newAgent | e] w4] t2] eqn:Hnew;
    pose proof (emits_only_run _ _ _ _ _ _ (getAgentStub_emits _ _ _) Hnew) as Ht2;
    run in Hrun.
  2: finish Hrun; in_trace Hin.
  destruct (stub_getFullState source w4) as [[originalState | e] w5]; run in Hrun.
  2: { finish Hrun. in_trace Hin. injection Hin as <- _. reflexivity. }
  destruct (stub_setState newAgent _ w5) as [[[] | e] w6]; run in Hrun;
    finish Hrun; in_trace Hin; injection Hin as <- _; reflexivity.
Qed.

(** C10. [cloneAgent] never writes to the source actor.  On the handle
    that the jurisdiction search located for the source it makes only reads
    ([isInitialized], [getFullState]), and every [getFullState] of the run
    is made on that handle.  Its only write is one [setState], addressed to
    the handle obtained by the direct lookup of the generated identifier
    (the new agent it returns); nothing else is written.  The generated
    identity is taken to be fresh: the namespace does not answer its lookup
    with the source's handle. *)
Theorem cloneAgent_writes_only_new_actor
    (env : Env Namespace) (agentId : string) (w w' : World)
    (r : Outcome (string * Stub)) (tr : list Event)
    (source : Stub) (w1 : World) (t1 : list Event) :
  cloneAgent env agentId w = (r, w', tr) ->
  getAgentStub env agentId true w = (Ok source, w1, t1) ->
  (forall newAgentId id,
      In (GenerateId newAgentId) tr ->
      In (IdFromName newAgentId (Ok id)) tr ->
      ~ In (NsGet id {| locationHint := Some "enam"; jurisdiction := None |}
              (Ok source)) tr) ->
  (forall st res, ~ In (SetState source st res) tr)
  /\ (forall ev, In ev tr -> addressed_to source ev -> is_read ev)
  /\ (forall stub answer, In (GetFullState stub answer) tr -> stub = source)
  /\ (forall ev, In ev tr ->
        prewrite_event ev \/ exists stub st res, ev = SetState stub st res)
  /\ (forall stub answer,
        In (GetFullState stub answer) tr ->
        In (IsInitialized stub (Ok true)) tr)
  /\ (forall stub st res,
        In (SetState stub st res) tr ->
        (exists newAgentId id,
            In (GenerateId newAgentId) tr
            /\ In (IdFromName newAgentId (Ok id)) tr
            /\ In (NsGet id {| locationHint := Some "enam"; jurisdiction := None |}
                      (Ok stub)) tr
            /\ forall id' new', r = Ok (id', new') -> id' = newAgentId /\ new' = stub)
        /\ forall stub' st' res',
             In (SetState stub' st' res') tr -> stub' = stub /\ st' = st /\ res' = res).
Proof.
  intros Hrun Hsrc Hfresh.
  assert (Hshape :
            (forall ev, In ev tr ->
               prewrite_event ev \/ exists stub st res, ev = SetState stub st res)
            /\ (forall stub answer,
                  In (GetFullState stub answer) tr ->
                  In (IsInitialized stub (Ok true)) tr)
            /\ (forall stub st res,
                  In (SetState stub st res) tr ->
                  (exists newAgentId id,
                      In (GenerateId newAgentId) tr
                      /\ In (IdFromName newAgentId (Ok id)) tr
                      /\ In (NsGet id {| locationHint := Some "enam";
                                         jurisdiction := None |} (Ok stub)) tr
                      /\ forall id' new',
                           r = Ok (id', new') -> id' = newAgentId /\ new' = stub)
                  /\ forall stub' st' res',
                       In (SetState stub' st' res') tr ->
                       stub' = stub /\ st' = st /\ res' = res)).
  { destruct (cloneAgent_run _ _ _ _ _ _ Hrun)
      as [(Hpre & Hread & _)
         | (t1' & source' & newId & t2 & new & originalState & res & w2 & w3
            & Ht1 & Ht2 & Hnew & -> & Hres)].
    { split; [| split].
      - intros ev H. left. exact (trace_event _ _ _ Hpre H).
      - exact Hread.
      - intros stub st res H. apply (trace_event _ _ _ Hpre) in H. destruct H. }
    assert (Hwrite : forall stub st res',
               In (SetState stub st res')
                  (t1' ++ [IsInitialized source' (Ok true); GenerateId newId] ++ t2
                   ++ [GetFullState source' (Ok originalState);
                       SetState new (newState originalState newId) res]) ->
               stub = new /\ st = newState originalState newId /\ res' = res).
    { intros stub st res' H. apply in_clone_trace in H.
      destruct H as [H | [H | [H | [H | [H | H]]]]]; try discriminate H.
      - apply (trace_event _ _ _ Ht1) in H. destruct H.
      - apply (trace_event _ _ _ Ht2) in H. destruct H.
      - injection H as -> -> ->. auto. }
    split; [| split].
    - intros ev H. apply in_clone_trace in H.
      destruct H as [H | [-> | [-> | [H | [-> | ->]]]]]; simpl; eauto.
      + left. apply lookup_prewrite. exact (trace_event _ _ _ Ht1 H).
      + left. apply lookup_prewrite. exact (trace_event _ _ _ Ht2 H).
    - intros s a H. apply in_clone_trace in H. apply in_clone_trace.
      destruct H as [H | [H | [H | [H | [H | H]]]]]; try discriminate H.
      + apply (trace_event _ _ _ Ht1) in H. destruct H.
      + apply (trace_event _ _ _ Ht2) in H. destruct H.
      + injection H as -> _. auto.
    - intros stub st res' H.
      destruct (Hwrite _ _ _ H) as (-> & -> & ->).
      split.
      + destruct (getAgentStub_direct _ _ _ _ _ _ Hnew) as (id & Hid & Hget).
        exists newId, id. rewrite !in_clone_trace.
        repeat split; try tauto.
        all: destruct res; subst r; congruence.
      + intros stub' st' res' H'.
        destruct (Hwrite _ _ _ H') as (-> & -> & ->). auto. }
  destruct Hshape as (Hkinds & Hprobed & Hwritten).
  assert (Hnever : forall st res, ~ In (SetState source st res) tr).
  { intros st res Hin.
    destruct (Hwritten _ _ _ Hin) as [(newAgentId & id & Hid & Hname & Hget & _) _].
    exact (Hfresh newAgentId id Hid Hname Hget). }
  split; [exact Hnever |]. split; [| split; [| split; [| split]]].
  - intros ev Hin Hto. destruct (Hkinds ev Hin) as [Hpre | (stub & st & res & ->)].
    + destruct ev; simpl in *; tauto.
    + simpl in Hto. subst stub. destruct (Hnever _ _ Hin).
  - exact (cloneAgent_reads_located _ _ _ _ _ _ _ _ _ Hrun Hsrc).
  - exact Hkinds.
  - exact Hprobed.
  - exact Hwritten.
Qed.

End AgentsFacts.

(** The witness of C5: the default jurisdiction wins on [happyScript];
    "eu" is returned on [euScript], where the default actor is not
    initialized. *)
Lemma getAgentStub_first_initialized_jurisdiction_witness :
  CodeGenObject demoEnv = Some tt
  /\ reportsInitialized (P := scripted happyScript) tt "app" None 0 ("app", None) 0
  /\ result_of (getAgentStub (P := scripted happyScript) demoEnv "app" true 0)
     = Ok ("app", None)
  /\ notInitialized (P := scripted euScript) tt "app" None 0 0
  /\ reportsInitialized (P := scripted euScript) tt "app" (Some "eu") 0
       ("app", Some "eu") 0
  /\ result_of (getAgentStub (P := scripted euScript) demoEnv "app" true 0)
     = Ok ("app", Some "eu").
Proof.
  assert (H1 : reportsInitialized (P := scripted happyScript) tt "app" None 0
                 ("app", None) 0).
  { exists "app", 0, 0. repeat split. }
  assert (H2 : notInitialized (P := scripted euScript) tt "app" None 0 0).
  { right. right. exists "app", 0, ("app", None), 0, (Ok false).
    repeat split. discriminate. }
  assert (H3 : reportsInitialized (P := scripted euScript) tt "app" (Some "eu") 0
                 ("app", Some "eu") 0).
  { exists "app", 0, 0. repeat split. }
  split; [reflexivity |]. split; [exact H1 |]. split.
  - exact (proj1 (proj1 (getAgentStub_first_initialized_jurisdiction
                           (P := scripted happyScript) demoEnv tt "app" 0 eq_refl)
                    _ _ H1)).
  - split; [exact H2 |]. split; [exact H3 |].
    exact (proj1 (proj2 (getAgentStub_first_initialized_jurisdiction
                           (P := scripted euScript) demoEnv tt "app" 0 eq_refl)
                    _ _ _ H2 H3)).
Defined.

(** C6, as stated, fails.  When no jurisdiction reports an initialized
    actor the caller does receive a handle, the one of the default
    jurisdiction ([dormantScript]); and when the direct resolution raises,
    so does [getAgentStub] ([brokenScript]). *)
Lemma getAgentStub_none_initialized_counterexample :
  (notInitialized (P := scripted dormantScript) tt "app" None 0 0
   /\ notInitialized (P := scripted dormantScript) tt "app" (Some "eu") 0 0
   /\ result_of (getAgentStub (P := scripted dormantScript) demoEnv "app" true 0)
      = Ok ("app", None))
  /\ (notInitialized (P := scripted brokenScript) tt "app" None 0 0
      /\ notInitialized (P := scripted brokenScript) tt "app" (Some "eu") 0 0
      /\ result_of (getAgentStub (P := scripted brokenScript) demoEnv "app" true 0)
         = Raise (JS.new_Error "get failed")).
Proof.
  split; repeat split.
  - right. right. exists "app", 0, ("app", None), 0, (Ok false).
    repeat split. discriminate.
  - right. right. exists "app", 0, ("app", Some "eu"), 0, (Ok false).
    repeat split. discriminate.
  - right. left. exists "app", 0, (JS.new_Error "get failed"). repeat split.
  - right. left. exists "app", 0, (JS.new_Error "get failed"). repeat split.
Qed.

(** The witness of C6 amended, on [dormantScript]. *)
Lemma getAgentStub_none_initialized_witness :
  CodeGenObject demoEnv = Some tt
  /\ notInitialized (P := scripted dormantScript) tt "app" None 0 0
  /\ notInitialized (P := scripted dormantScript) tt "app" (Some "eu") 0 0
  /\ result_of (getAgentStub (P := scripted dormantScript) demoEnv "app" true 0)
     = result_of (getAgentByName (P := scripted dormantScript) tt "app" (enam None) 0).
Proof.
  assert (H1 : notInitialized (P := scripted dormantScript) tt "app" None 0 0).
  { right. right. exists "app", 0, ("app", None), 0, (Ok false).
    repeat split. discriminate. }
  assert (H2 : notInitialized (P := scripted dormantScript) tt "app" (Some "eu") 0 0).
  { right. right. exists "app", 0, ("app", Some "eu"), 0, (Ok false).
    repeat split. discriminate. }
  split; [reflexivity |]. split; [exact H1 |]. split; [exact H2 |].
  exact (proj1 (getAgentStub_none_initialized (P := scripted dormantScript)
                  demoEnv tt "app" 0 0 0 eq_refl H1 H2)).
Defined.

(** C2, as stated, fails: [currentDevState] is none of the six listed
    properties, and the clone of a source whose [currentDevState] is 3
    is written with [currentDevState] 0. *)
Lemma cloneAgent_resets_currentDevState :
  let run := cloneAgent (P := scripted happyScript) demoEnv "source" 0 in
  let written := newState (sc_state happyScript) "agent-0" in
  result_of run = Ok ("agent-0", ("agent-0", None))
  /\ In (GetFullState (P := scripted happyScript) ("source", None)
           (Ok (sc_state happyScript))) (trace_of run)
  /\ In (SetState (P := scripted happyScript) ("agent-0", None) written (Ok tt))
        (trace_of run)
  /\ ("currentDevState" ∉ claimedKeys)
  /\ sc_state happyScript !! "currentDevState" = Some (JS.Num 3)
  /\ written !! "currentDevState" = Some (JS.Num 0).
Proof.
  repeat split.
  - unfold trace_of. simpl. tauto.
  - unfold trace_of. simpl. tauto.
  - unfold claimedKeys. rewrite !not_elem_of_cons. repeat split; try discriminate.
    apply not_elem_of_nil.
Qed.

(** The witness of C2 amended: the same clone. *)
Lemma cloneAgent_derived_state_witness :
  let run := cloneAgent (P := scripted happyScript) demoEnv "source" 0 in
  run = (Ok ("agent-0", ("agent-0", None)), 1, trace_of run)
  /\ exists source originalState st,
      In (IsInitialized (P := scripted happyScript) source (Ok true)) (trace_of run)
      /\ In (GetFullState (P := scripted happyScript) source (Ok originalState))
            (trace_of run)
      /\ In (SetState (P := scripted happyScript) ("agent-0", None) st (Ok tt))
            (trace_of run)
      /\ st !! "sessionId" = Some (JS.Str "agent-0")
      /\ st !! "sandboxInstanceId" = Some JS.Undefined
      /\ st !! "pendingUserInputs" = Some (JS.Arr [])
      /\ st !! "shouldBeGenerating" = Some (JS.Bool false)
      /\ st !! "generationPromise" = Some JS.Undefined
      /\ st !! "clientReportedErrors" = Some (JS.Arr [])
      /\ st !! "currentDevState" = Some (JS.Num 0)
      /\ forall k, k ∉ resetKeys -> st !! k = originalState !! k.
Proof.
  intros run. split; [reflexivity |].
  exact (cloneAgent_derived_state (P := scripted happyScript) demoEnv "source"
           "agent-0" ("agent-0", None) 0 1 (trace_of run) eq_refl).
Defined.

(** The witness of C10: the same clone. *)
Lemma cloneAgent_writes_only_new_actor_witness :
  let run := cloneAgent (P := scripted happyScript) demoEnv "source" 0 in
  let lookup := getAgentStub (P := scripted happyScript) demoEnv "source" true 0 in
  run = (result_of run, world_of run, trace_of run)
  /\ lookup = (Ok ("source", None), 0, trace_of lookup)
  /\ (forall newAgentId id,
        In (GenerateId (P := scripted happyScript) newAgentId) (trace_of run) ->
        In (IdFromName (P := scripted happyScript) newAgentId (Ok id))
           (trace_of run) ->
        ~ In (NsGet (P := scripted happyScript) id (enam None) (Ok ("source", None)))
             (trace_of run))
  /\ (forall st res,
        ~ In (SetState (P := scripted happyScript) ("source", None) st res)
             (trace_of run))
  /\ forall stub st res,
       In (SetState (P := scripted happyScript) stub st res) (trace_of run) ->
       stub = ("agent-0", None).
Proof.
  intros run lookup.
  assert (Hfresh : forall newAgentId id,
             In (GenerateId (P := scripted happyScript) newAgentId) (trace_of run) ->
             In (IdFromName (P := scripted happyScript) newAgentId (Ok id))
                (trace_of run) ->
             ~ In (NsGet (P := scripted happyScript) id (enam None)
                     (Ok ("source", None))) (trace_of run)).
  { intros newAgentId id Hgen Hname Hget.
    unfold trace_of in Hgen, Hname, Hget. simpl in Hgen, Hname, Hget.
    change ("agent-" +:+ pretty 0) with "agent-0" in Hgen, Hname, Hget.
    repeat (destruct Hgen as [Hgen | Hgen]; [try discriminate Hgen |]);
      [| destruct Hgen].
    injection Hgen as <-.
    repeat (destruct Hname as [Hname | Hname]; [try discriminate Hname |]);
      [| destruct Hname].
    injection Hname as <-.
    repeat (destruct Hget as [Hget | Hget]; [try discriminate Hget |]).
    destruct Hget. }
  split; [reflexivity |]. split; [reflexivity |]. split; [exact Hfresh |].
  destruct (cloneAgent_writes_only_new_actor (P := scripted happyScript) demoEnv
              "source" 0 (world_of run) (result_of run) (trace_of run)
              ("source", None) 0 (trace_of lookup) eq_refl eq_refl Hfresh)
    as (Hnever & _ & _ & _ & _ & Hwritten).
  split; [exact Hnever |].
  intros stub st res H.
  destruct (Hwritten stub st res H) as [(newAgentId & id & _ & _ & _ & Hret) _].
  exact (eq_sym (proj2 (Hret "agent-0" ("agent-0", None) eq_refl))).
Defined.

Section TemplateFacts.
Context `{P : Platform}.

Lemma selectTemplate_emits args : emits_only select_event (selectTemplate args).
Proof. unfold selectTemplate. emits; exact I. Qed.

Lemma emits_only_weaken {A} (Q Q' : Event -> Prop) (m : M A) :
  (forall ev, Q ev -> Q' ev) -> emits_only Q m -> emits_only Q' m.
Proof. intros HQ Hm w. eapply Forall_impl; [apply Hm | exact HQ]. Qed.

Lemma getTemplateForQuery_emits env ctx query :
  emits_only template_event (getTemplateForQuery env ctx query).
Proof.
  unfold getTemplateForQuery. emits; try exact I.
  all: try (destruct t as [[] ? ?]; emits; try exact I).
  all: eapply emits_only_weaken; [| apply selectTemplate_emits].
  all: intros []; simpl; tauto.
Qed.

(** C1. Once the candidate list is fetched and [selectTemplate] has
    answered with a selection, [getTemplateForQuery] raises when the
    selected name is null, and raises when it is the name of no fetched
    candidate; when it returns, the selected name is the name of a fetched
    candidate, whose details were asked for and are the ones returned. *)
Theorem getTemplateForQuery_validates_selection
    (env : Env Namespace) (ctx : InferenceContext) (query : string)
    (w w1 w2 w3 w' : World) (response : TemplateListResponse)
    (sessionId : string) (sel : TemplateSelection) (t : list Event)
    (r : Outcome TemplateForQuery) (tr : list Event) :
  listTemplates w = (Ok (Some response), w1) ->
  tl_success response = true ->
  generateId w1 = (sessionId, w2) ->
  selectTemplate {| sta_env := env; sta_inferenceContext := ctx;
                    sta_query := query;
                    sta_availableTemplates := tl_templates response |} w2
  = (Ok sel, w3, t) ->
  getTemplateForQuery env ctx query w = (r, w', tr) ->
  (selectedTemplateName sel = None -> exists e, r = Raise e)
  /\ (forall name,
        selectedTemplateName sel = Some name ->
        (forall candidate, In candidate (tl_templates response) ->
                           tmpl_name candidate <> name) ->
        exists e, r = Raise e)
  /\ (forall out,
        r = Ok out ->
        tfq_selection out = sel
        /\ exists name candidate client answer,
            selectedTemplateName sel = Some name
            /\ In candidate (tl_templates response)
            /\ tmpl_name candidate = name
            /\ In (GetTemplateDetails client name (Ok answer)) tr
            /\ tdr_templateDetails answer = Some (templateDetails out)).
Proof.
  intros Hlist Hsuccess Hid Hsel Hrun.
  unfold getTemplateForQuery in Hrun. run in Hrun. feed_in Hrun Hlist.
  destruct response as [success templates error]. simpl in *. subst success.
  run in Hrun. feed_in Hrun Hid. feed_in Hrun Hsel.
  destruct (getSandboxService sessionId w3) as [[client | e] w4]; run in Hrun.
  2: { finish Hrun. repeat split; eauto; discriminate. }
  destruct (selectedTemplateName sel) as [name |] eqn:Hname; simpl in Hrun;
    [| run in Hrun; finish Hrun; repeat split; eauto; discriminate].
  destruct (String.eqb name "") eqn:Hnonempty; run in Hrun.
  { finish Hrun. repeat split; eauto; discriminate. }
  destruct (List.find _ templates) as [candidate |] eqn:Hfind; run in Hrun.
  2: { finish Hrun. repeat split; eauto; discriminate. }
  apply find_some in Hfind as [Hin Heq]. apply String.eqb_eq in Heq.
  destruct (getTemplateDetails client (tmpl_name candidate) w4)
    as [[answer | e] w5]; run in Hrun.
  2: { finish Hrun. repeat split; eauto; discriminate. }
  destruct (tdr_success answer) eqn:Hok;
    [destruct (tdr_templateDetails answer) as [details |] eqn:Hdetails |];
    run in Hrun; finish Hrun; try (repeat split; eauto; discriminate).
  split; [discriminate |]. split.
  - intros name0 [= <-] Hno. exfalso. exact (Hno _ Hin Heq).
  - intros out [= <-]. split; [reflexivity |].
    exists name, candidate, client, answer. simpl.
    repeat split; try assumption. rewrite Heq.
    rewrite !in_app_iff. simpl. tauto.
Qed.

(** C7, amended. [getTemplateForQuery] raises an error whose message is
    the fetch-failure prefix followed by the upstream error text (or by
    "Unknown error" when the collaborator gave none) when [listTemplates]
    does not report success, and when the details call does not report
    success or returns no details.  On an empty template list it raises
    too, but the error of the validation step ("No suitable template
    found for code generation", or the rejection of the sandbox-session
    acquisition), which carries no upstream text. *)
Theorem getTemplateForQuery_fetch_failures
    (env : Env Namespace) (ctx : InferenceContext) (query : string)
    (w w' : World) (r : Outcome TemplateForQuery) (tr : list Event) :
  getTemplateForQuery env ctx query w = (r, w', tr) ->
  (forall answer,
      In (ListTemplates (Ok answer)) tr ->
      listFailed answer ->
      r = Raise (JS.new_Error
                   ("Failed to fetch templates from sandbox service: "
                    +:+ JS.or_else (answer ≫= tl_error) "Unknown error")))
  /\ (forall client name answer,
        In (GetTemplateDetails client name (Ok answer)) tr ->
        detailsFailed answer ->
        r = Raise (JS.new_Error
                     ("Failed to fetch template details: "
                      +:+ JS.or_else (tdr_error answer) "Unknown error")))
  /\ (forall response,
        In (ListTemplates (Ok (Some response))) tr ->
        tl_success response = true ->
        tl_templates response = [] ->
        exists e,
          r = Raise e
          /\ (e = JS.new_Error "No suitable template found for code generation"
              \/ exists sessionId, In (GetSandboxService sessionId (Raise e)) tr)).
Proof.
  intros Hrun. unfold getTemplateForQuery in Hrun. run in Hrun.
  destruct (listTemplates w) as [[[[[] templates error] |] | e] w1];
    run in Hrun.
  2-4: finish Hrun; split; [| split];
    [ intros answer H Hfail; in_trace H; injection H as <-;
      first [ reflexivity
            | destruct Hfail as [Hf | (response & Hf & Hs)]; discriminate ]
    | intros client name answer H; in_trace H
    | intros response H; in_trace H; try injection H as <-; discriminate ].
  destruct (generateId w1) as [sessionId w2]. run in Hrun.
  match type of Hrun with
  | context [selectTemplate ?a w2] =>
      destruct (selectTemplate a w2) as [[rs w3] t3] eqn:Hsel;
      pose proof (emits_only_run _ _ _ _ _ _ (selectTemplate_emits _) Hsel) as Ht3
  end.
  run in Hrun.
  destruct (getSandboxService sessionId w3) as [rc w4]. run in Hrun.
  assert (Hlist : forall answer,
             listFailed answer ->
             answer <> Some {| tl_success := true; tl_templates := templates;
                               tl_error := error |}).
  { intros answer [-> | (response & -> & Hs)] H; [discriminate |].
    injection H as ->. discriminate Hs. }
  assert (Hempty : forall response,
             ListTemplates (Ok (Some {| tl_success := true; tl_templates := templates;
                                        tl_error := error |}))
             = ListTemplates (Ok (Some response)) ->
             tl_templates response = [] ->
             rs = Ok noTemplatesSelection).
  { intros response [= <-] Hnil. simpl in Hnil. subst templates.
    rewrite selectTemplate_empty_run in Hsel by reflexivity. congruence. }
  assert (Hfirst : forall answer r0,
             ListTemplates (Ok (Some {| tl_success := true; tl_templates := templates;
                                        tl_error := error |}))
             = ListTemplates (Ok answer) ->
             listFailed answer -> r = r0).
  { intros answer r0 [= <-] Hfail. destruct (Hlist _ Hfail eq_refl). }
  destruct rs as [sel | e]; destruct rc as [client | e']; run in Hrun.
  2: { finish Hrun. split; [| split].
       - intros answer H Hfail. in_trace H. eapply Hfirst; eassumption.
       - intros c n a H. in_trace H.
       - intros response H Hs Hnil.
         eexists. split; [reflexivity |]. right. exists sessionId.
         simpl. rewrite ?in_app_iff. simpl. tauto. }
  2-3: finish Hrun; split; [| split];
    [ intros answer H Hfail; in_trace H; eapply Hfirst; eassumption
    | intros c n a H; in_trace H
    | intros response H Hs Hnil; in_trace H;
      specialize (Hempty _ H Hnil); discriminate Hempty ].
  destruct (selectedTemplateName sel) as [name |] eqn:Hname; simpl in Hrun.
  2: { run in Hrun. finish Hrun. split; [| split].
       - intros answer H Hfail. in_trace H. eapply Hfirst; eassumption.
       - intros c n a H. in_trace H.
       - intros response H Hs Hnil. eexists. split; [reflexivity |]. left. reflexivity. }
  assert (Hthird : forall response r0,
             ListTemplates (Ok (Some {| tl_success := true; tl_templates := templates;
                                        tl_error := error |}))
             = ListTemplates (Ok (Some response)) ->
             tl_templates response = [] -> r0).
  { intros response r0 H Hnil. specialize (Hempty _ H Hnil).
    injection Hempty as ->. discriminate Hname. }
  destruct (String.eqb name "") eqn:Hnonempty; run in Hrun.
  { finish Hrun. split; [| split].
    - intros answer H Hfail. in_trace H. eapply Hfirst; eassumption.
    - intros c n a H. in_trace H.
    - intros response H Hs Hnil. in_trace H. eapply Hthird; eassumption. }
  destruct (List.find _ templates) as [candidate |]; run in Hrun.
  2: { finish Hrun. split; [| split].
       - intros answer H Hfail. in_trace H. eapply Hfirst; eassumption.
       - intros c n a H. in_trace H.
       - intros response H Hs Hnil. in_trace H. eapply Hthird; eassumption. }
  destruct (getTemplateDetails client (tmpl_name candidate) w4)
    as [[answer | e] w5]; run in Hrun.
  2: { finish Hrun. split; [| split].
       - intros answer H Hfail. in_trace H. eapply Hfirst; eassumption.
       - intros c n a H. in_trace H.
       - intros response H Hs Hnil. in_trace H. eapply Hthird; eassumption. }
  destruct (tdr_success answer) eqn:Hok;
    [destruct (tdr_templateDetails answer) as [details |] eqn:Hdetails |];
    run in Hrun; finish Hrun;
    ((split; [| split]);
     [ intros answer0 H Hfail; in_trace H; eapply Hfirst; eassumption
     | intros c n a H [Hfail | Hfail]; in_trace H; injection H as <- <- <-;
       congruence
     | intros response H Hs Hnil; in_trace H; eapply Hthird; eassumption ]).
Qed.

End TemplateFacts.

(** The witness of C1: on [happyScript] the selected name is the name of
    the second fetched candidate. *)
Lemma getTemplateForQuery_validates_selection_witness :
  let args := @Build_SelectTemplateArgs (scripted happyScript) demoEnv
                "Build a 2D puzzle game with scoring"
                (tl_templates happyList) demoContext in
  let run := getTemplateForQuery (P := scripted happyScript) demoEnv demoContext
               "Build a 2D puzzle game with scoring" 0 in
  listTemplates (Platform := scripted happyScript) 0 = (Ok (Some happyList), 0)
  /\ tl_success happyList = true
  /\ generateId (Platform := scripted happyScript) 0 = ("agent-0", 1)
  /\ selectTemplate args 1 = (Ok gameSelection, 1, trace_of (selectTemplate args 1))
  /\ (forall out,
        result_of run = Ok out ->
        tfq_selection out = gameSelection
        /\ exists name candidate client answer,
            selectedTemplateName gameSelection = Some name
            /\ In candidate (tl_templates happyList)
            /\ tmpl_name candidate = name
            /\ In (GetTemplateDetails client name (Ok answer)) (trace_of run)
            /\ tdr_templateDetails answer = Some (templateDetails out)).
Proof.
  intros args run.
  split; [reflexivity |]. split; [reflexivity |]. split; [reflexivity |].
  split; [reflexivity |].
  exact (proj2 (proj2 (getTemplateForQuery_validates_selection
                         (P := scripted happyScript) demoEnv demoContext
                         "Build a 2D puzzle game with scoring" 0 0 1 1
                         (world_of run) happyList "agent-0" gameSelection
                         (trace_of (selectTemplate args 1))
                         (result_of run) (trace_of run)
                         eq_refl eq_refl eq_refl eq_refl eq_refl))).
Defined.

(** C7, as stated, fails: when [listTemplates] reports success with an
    empty list, the error raised is not a template fetch failure. *)
Lemma getTemplateForQuery_empty_list_is_not_fetch_failure :
  let run := getTemplateForQuery (P := scripted emptyListScript) demoEnv demoContext
               "Build a 2D puzzle game with scoring" 0 in
  In (ListTemplates (P := scripted emptyListScript)
        (Ok (Some {| tl_success := true; tl_templates := []; tl_error := None |})))
     (trace_of run)
  /\ result_of run
     = Raise (JS.new_Error "No suitable template found for code generation")
  /\ ~ isTemplateFetchFailure
         (JS.new_Error "No suitable template found for code generation").
Proof.
  repeat split.
  - unfold trace_of. simpl. tauto.
  - intros [upstream [H | H]]; discriminate H.
Qed.

(** The witness of C7 amended: [listTemplates] reports a failure with the
    text "sandbox offline". *)
Lemma getTemplateForQuery_fetch_failures_witness :
  let run := getTemplateForQuery (P := scripted offlineScript) demoEnv demoContext
               "Build a 2D puzzle game with scoring" 0 in
  let answer := Some {| tl_success := false; tl_templates := [];
                        tl_error := Some "sandbox offline" |} in
  run = (result_of run, world_of run, trace_of run)
  /\ In (ListTemplates (P := scripted offlineScript) (Ok answer)) (trace_of run)
  /\ listFailed answer
  /\ result_of run
     = Raise (JS.new_Error
                "Failed to fetch templates from sandbox service: sandbox offline").
Proof.
  intros run answer.
  assert (Hin : In (ListTemplates (P := scripted offlineScript) (Ok answer))
                   (trace_of run)).
  { unfold trace_of. simpl. tauto. }
  assert (Hfail : listFailed answer).
  { right. eexists. split; reflexivity. }
  split; [reflexivity |]. split; [exact Hin |]. split; [exact Hfail |].
  exact (proj1 (getTemplateForQuery_fetch_failures (P := scripted offlineScript)
                  demoEnv demoContext "Build a 2D puzzle game with scoring" 0
                  (world_of run) (result_of run) (trace_of run) eq_refl)
           answer Hin Hfail).
Defined.

Section ControllerFacts.
Context `{P : Platform}.

Lemma socket_events_lookup t : Forall lookup_event t -> socket_events t = [].
Proof.
  induction 1 as [| ev t Hev Ht IH]; [reflexivity |].
  unfold socket_events in *. simpl. rewrite IH.
  destruct ev; simpl in *; tauto.
Qed.

(** C8. When the direct actor resolution of a WebSocket request raises,
    the handler does not raise: it answers HTTP 101 with the client end of
    a fresh socket pair; on the server end it accepts, sends exactly one
    JSON error message, and closes with code 1011. *)
Theorem handleWebSocketConnection_resolution_failure
    (request : Request) (env : Env Namespace) (context : RouteContext)
    (chatId : string) (w w1 w2 w3 w4 : World) (e : JS.Thrown)
    (t : list Event) (client server : WebSocket) :
  ctx_agentId context = Some chatId ->
  chatId <> "" ->
  headers_get "Upgrade" (req_headers request) = Some "websocket" ->
  validateWebSocketOrigin request w = (Ok true, w1) ->
  routeAgentRequest request w1 = (Ok None, w2) ->
  getAgentStub env chatId true w2 = (Raise e, w3, t) ->
  newWebSocketPair w3 = ((client, server), w4) ->
  result_of (handleWebSocketConnection request env context w)
  = Ok (NewResponse BodyNull 101 [] (Some client))
  /\ world_of (handleWebSocketConnection request env context w) = w4
  /\ socket_events (trace_of (handleWebSocketConnection request env context w))
     = [ NewWebSocketPair client server;
         WsAccept server;
         WsSend server
           (JS.Obj [ ("type", JS.Str WebSocketMessageResponses_ERROR);
                     ("error", JS.Str ("Failed to get agent instance: "
                                       +:+ JS.message_or_String e)) ]);
         WsClose server 1011 "Agent instance not found" ].
Proof.
  intros Hid Hne Hup Hvalid Hroute Hstub Hpair.
  pose proof (emits_only_run _ _ _ _ _ _ (getAgentStub_emits _ _ _) Hstub) as Ht.
  unfold handleWebSocketConnection. rewrite Hid, Hup. simpl.
  apply String.eqb_neq in Hne. rewrite Hne. simpl.
  run. feed Hvalid. feed Hroute. feed Hstub. feed Hpair.
  repeat split.
  unfold socket_events. simpl. rewrite ?List.filter_app.
  fold (socket_events t). rewrite (socket_events_lookup _ Ht). reflexivity.
Qed.

Lemma collectUserModelConfigs_emits (Q : Event -> Prop) entries :
  (forall level message, Q (Log level message)) ->
  emits_only Q (collectUserModelConfigs entries).
Proof.
  intros HQ. induction entries as [| [actionKey mergedConfig] rest IH]; simpl.
  - emits.
  - destruct (isUserOverride mergedConfig); [| exact IH].
    emits; [apply HQ | exact IH].
Qed.

Ltac emits_controller :=
  cbv zeta;
  repeat first
    [ eapply emits_only_weaken;
      [| first [ apply getAgentStub_emits | apply getTemplateForQuery_emits ] ];
      [ intros []; simpl; tauto ]
    | apply collectUserModelConfigs_emits; intros ? ?
    | progress emits ].

Lemma startCodeGeneration_emits request env context :
  emits_only (rate_limited_for (ctx_user context))
    (startCodeGeneration request env context).
Proof.
  unfold startCodeGeneration.
  destruct (ctx_user context) as [user |]; emits_controller.
  all: try exact I.
  all: try reflexivity.
Qed.

(** Records what the folded runs in the context can have emitted. *)
Ltac note_emits :=
  repeat match goal with
    | H : getAgentStub _ _ _ _ = (_, _, ?t) |- _ =>
        lazymatch goal with
        | _ : Forall lookup_event t |- _ => fail
        | _ => pose proof (emits_only_run _ _ _ _ _ _ (getAgentStub_emits _ _ _) H)
        end
    | H : getTemplateForQuery _ _ _ _ = (_, _, ?t) |- _ =>
        lazymatch goal with
        | _ : Forall template_event t |- _ => fail
        | _ => pose proof (emits_only_run _ _ _ _ _ _ (getTemplateForQuery_emits _ _ _) H)
        end
    | H : collectUserModelConfigs _ _ = (_, _, ?t) |- _ =>
        lazymatch goal with
        | _ : Forall is_log t |- _ => fail
        | _ => pose proof (emits_only_run _ _ _ _ _ _
                             (collectUserModelConfigs_emits is_log _ (fun _ _ => I)) H)
        end
    end.

(** C9, amended. A start request of an anonymous caller never reaches the
    rate limiter.  A start request of an authenticated user whose body parses
    and carries a query is rate-limited before any other collaborator is
    called; when the limiter raises, the answer is an error response with
    status 429 and nothing but logging happened besides the check: no
    identifier was generated and no actor was looked up.  A request whose
    body does not parse, or has no query, is answered 400 before that
    step: nothing but logging happened. *)
Theorem startCodeGeneration_rate_limit
    (request : Request) (env : Env Namespace) (context : RouteContext)
    (w w' : World) (r : Outcome Response) (tr : list Event) :
  startCodeGeneration request env context w = (r, w', tr) ->
  (ctx_user context = None ->
   forall user answer, ~ In (EnforceAppCreationRateLimit user answer) tr)
  /\ (forall user body,
        ctx_user context = Some user ->
        req_json request = Ok body ->
        JS.truthy_str (cg_query body) = true ->
        (exists pre answer post,
            tr = pre ++ EnforceAppCreationRateLimit user answer :: post
            /\ Forall is_log pre)
        /\ (forall e,
              In (EnforceAppCreationRateLimit user (Raise e)) tr ->
              (exists message, r = Ok (ErrorResponse message 429))
              /\ Forall (fun ev => is_log ev
                                   \/ ev = EnforceAppCreationRateLimit user (Raise e))
                        tr))
  /\ ((forall body, req_json request = Ok body ->
                    JS.truthy_str (cg_query body) = false) ->
      (exists message, r = Ok (ErrorResponse message 400))
      /\ Forall is_log tr).
Proof.
  intros Hrun. split; [| split].
  { intros Hanon user answer H.
    pose proof (emits_only_run _ _ _ _ _ _ (startCodeGeneration_emits _ _ _) Hrun) as Hq.
    apply (trace_event _ _ _ Hq) in H. simpl in H. congruence. }
  2: { intros Hinvalid. unfold startCodeGeneration in Hrun. run in Hrun.
       destruct (req_json request) as [body | e]; run in Hrun.
       - rewrite (Hinvalid body eq_refl) in Hrun. run in Hrun. finish Hrun.
         split; [eexists; reflexivity | repeat constructor].
       - finish Hrun. split; [eexists; reflexivity | repeat constructor]. }
  intros user body Huser Hjson Hquery.
  unfold startCodeGeneration in Hrun. rewrite Huser, Hjson in Hrun.
  run in Hrun. rewrite Hquery in Hrun. run in Hrun.
  destruct (enforceAppCreationRateLimit user request w) as [[[] | e] w1];
    run in Hrun.
  2: { destruct (JS.instanceof_Error e); run in Hrun; finish Hrun.
       all: split;
         [ eexists [_; _; _; _; _; _; _; _], _, _;
           split; [reflexivity | repeat constructor]
         | intros e' H; in_trace H; injection H as <-;
           split;
           [ eexists; reflexivity
           | repeat (constructor; [simpl; auto |]); constructor ] ]. }
  repeat (step_in Hrun; note_emits).
  all: finish Hrun; split.
  all: try (eexists [_; _; _; _; _; _; _; _], _, _;
            split; [reflexivity | repeat constructor]).
  all: intros ? Hin; in_trace Hin.
Qed.

End ControllerFacts.

(** The witness of C8: on [brokenScript] the resolution raises "get
    failed". *)
Lemma handleWebSocketConnection_resolution_failure_witness :
  let run := handleWebSocketConnection (P := scripted brokenScript)
               socketRequest demoEnv anonymous 0 in
  let lookup := getAgentStub (P := scripted brokenScript) demoEnv "app" true 0 in
  lookup = (Raise (JS.new_Error "get failed"), 0, trace_of lookup)
  /\ result_of run = Ok (NewResponse (P := scripted brokenScript) BodyNull 101 []
                           (Some false))
  /\ socket_events (trace_of run)
     = [ NewWebSocketPair (P := scripted brokenScript) false true;
         WsAccept (P := scripted brokenScript) true;
         WsSend (P := scripted brokenScript) true
           (JS.Obj [ ("type", JS.Str "error");
                     ("error", JS.Str "Failed to get agent instance: get failed") ]);
         WsClose (P := scripted brokenScript) true 1011 "Agent instance not found" ].
Proof.
  intros run lookup. split; [reflexivity |].
  pose proof (handleWebSocketConnection_resolution_failure
                (P := scripted brokenScript) socketRequest demoEnv anonymous
                "app" 0 0 0 0 0 (JS.new_Error "get failed") (trace_of lookup)
                false true eq_refl ltac:(discriminate) eq_refl eq_refl eq_refl
                eq_refl eq_refl) as (Hres & _ & Hsock).
  split; [exact Hres | exact Hsock].
Defined.

(** C9, as stated, fails: a request of an authenticated user whose body
    has no query is answered 400 and the rate limiter is never called. *)
Lemma startCodeGeneration_validation_precedes_rate_limit :
  let run := startCodeGeneration (P := scripted happyScript)
               (startRequest None) demoEnv signedIn 0 in
  ctx_user signedIn = Some alice
  /\ (exists message, result_of run = Ok (ErrorResponse message 400))
  /\ forall user answer,
      ~ In (EnforceAppCreationRateLimit (P := scripted happyScript) user answer)
           (trace_of run).
Proof.
  repeat split.
  - eexists. reflexivity.
  - intros user answer H. unfold trace_of in H. simpl in H.
    repeat (destruct H as [H | H]; [discriminate H |]). destruct H.
Qed.

(** The witness of C9 amended: an authenticated user, a query, and a rate
    limiter that rejects. *)
Lemma startCodeGeneration_rate_limit_witness :
  let request := startRequest (Some "Build a 2D puzzle game with scoring") in
  let run := startCodeGeneration (P := scripted limitedScript)
               request demoEnv signedIn 0 in
  let e := JS.ErrorObj JS.RateLimitExceededError "too many apps" in
  run = (Ok (ErrorResponse (ErrObject e) 429), 0, trace_of run)
  /\ ctx_user signedIn = Some alice
  /\ req_json request = Ok (demoBody (Some "Build a 2D puzzle game with scoring"))
  /\ In (EnforceAppCreationRateLimit (P := scripted limitedScript) alice (Raise e))
        (trace_of run)
  /\ Forall (fun ev => is_log ev
                       \/ ev = EnforceAppCreationRateLimit
                                 (P := scripted limitedScript) alice (Raise e))
            (trace_of run).
Proof.
  intros request run e.
  assert (Hin : In (EnforceAppCreationRateLimit (P := scripted limitedScript)
                      alice (Raise e)) (trace_of run)).
  { unfold trace_of. simpl. tauto. }
  split; [reflexivity |]. split; [reflexivity |]. split; [reflexivity |].
  split; [exact Hin |].
  exact (proj2 (proj2 (proj1 (proj2 (startCodeGeneration_rate_limit
                                       (P := scripted limitedScript) request demoEnv
                                       signedIn 0 0
                                       (Ok (ErrorResponse (ErrObject e) 429))
                                       (trace_of run) eq_refl))
                         alice _ eq_refl eq_refl eq_refl) e Hin)).
Defined.


(** * Further properties of the modelled code *)

(** [step_in], also through a test on a boolean or optional answer. *)
Ltac explore H :=
  first
    [ step_in H
    | match type of H with
      | context [if ?b then _ else _] => is_var b; destruct b; run in H
      | context [match ?o with Some _ => _ | None => _ end] =>
          is_var o; destruct o; run in H
      end ].

Section LocatorFacts.
Context `{P : Platform}.

(** X1. Without the [CodeGenObject] binding, locating, reading and cloning
    an agent all raise the same error, whatever the agent id and the search
    flag, and reach no collaborator: only logging happens and the world is
    as before. *)
Theorem namespace_unavailable
    (env : Env Namespace) (agentId : string) (search : bool) (w : World) :
  CodeGenObject env = None ->
  let e := JS.new_Error "CodeGenObject namespace not available in environment" in
  (result_of (getAgentStub env agentId search w) = Raise e
   /\ world_of (getAgentStub env agentId search w) = w
   /\ Forall is_log (trace_of (getAgentStub env agentId search w)))
  /\ (result_of (getAgentState env agentId search w) = Raise e
      /\ world_of (getAgentState env agentId search w) = w
      /\ Forall is_log (trace_of (getAgentState env agentId search w)))
  /\ (result_of (cloneAgent env agentId w) = Raise e
      /\ world_of (cloneAgent env agentId w) = w
      /\ Forall is_log (trace_of (cloneAgent env agentId w))).
Proof.
  intros Hns e.
  unfold getAgentState, cloneAgent, getAgentStub. rewrite Hns. run.
  repeat split; repeat constructor.
Qed.

(** X2. Whatever the collaborators answer, a lookup asks the namespace
    with location hint "enam" only, in the default jurisdiction or, when
    searching, in "eu"; it derives ids from the agent id only; it makes at
    most three namespace lookups and two initialization probes when
    searching, and one lookup and no probe otherwise; and a handle it
    returns is one the namespace answered with. *)
Theorem getAgentStub_lookup_discipline
    (env : Env Namespace) (agentId : string) (search : bool) (w w' : World)
    (r : Outcome Stub) (tr : list Event) :
  getAgentStub env agentId search w = (r, w', tr) ->
  (forall id options answer,
      In (NsGet id options answer) tr ->
      locationHint options = Some "enam"
      /\ (jurisdiction options = None
          \/ (search = true /\ jurisdiction options = Some "eu")))
  /\ (forall name answer, In (IdFromName name answer) tr -> name = agentId)
  /\ count is_lookup tr <= (if search then 3 else 1)
  /\ count is_probe tr <= (if search then 2 else 0)
  /\ (forall stub, r = Ok stub ->
        exists id options, In (NsGet id options (Ok stub)) tr).
Proof.
  intros Hrun. unfold getAgentStub in Hrun.
  destruct (CodeGenObject env) as [namespace |]; run in Hrun.
  2: { finish Hrun. split; [| split; [| split; [| split]]].
       - intros id options answer H. in_trace H.
       - intros name answer H. in_trace H.
       - unfold count. simpl. destruct search; lia.
       - unfold count. simpl. destruct search; lia.
       - discriminate. }
  destruct search;
    unfold jurisdictions, searchJurisdictions, tryJurisdiction, getAgentByName in Hrun;
    run in Hrun; repeat explore Hrun; finish Hrun.
  all: split; [| split; [| split; [| split]]].
  all: try (unfold count; simpl; lia).
  all: try (intros id options answer H; in_trace H; injection H as <- <- <-;
            simpl; auto).
  all: try (intros name answer H; in_trace H; injection H as <- <-; reflexivity).
  all: intros stub0 Hok; try discriminate Hok; injection Hok as <-;
    eexists _, _; simpl; eauto 20.
Qed.

(** X3. [getAgentState] is read-only: it makes no [setState],
    [initialize] or [fetch] call; the state it returns is the answer of
    one [getFullState], its last call, on the handle the lookup
    returned. *)
Theorem getAgentState_reads_located_actor
    (env : Env Namespace) (agentId : string) (search : bool) (w w' : World)
    (r : Outcome CodeGenState) (tr : list Event) :
  getAgentState env agentId search w = (r, w', tr) ->
  (forall ev, In ev tr -> ~ actor_write ev)
  /\ (forall state,
        r = Ok state ->
        exists stub w1 t,
          getAgentStub env agentId search w = (Ok stub, w1, t)
          /\ stub_getFullState stub w1 = (Ok state, w')
          /\ tr = t ++ [GetFullState stub (Ok state)]).
Proof.
  intros Hrun. unfold getAgentState in Hrun. run in Hrun.
  destruct (getAgentStub env agentId search w) as [[[stub | e] w1] t] eqn:Hstub;
    pose proof (emits_only_run _ _ _ _ _ _ (getAgentStub_emits _ _ _) Hstub) as Ht;
    run in Hrun.
  - destruct (stub_getFullState stub w1) as [answer w2] eqn:Hstate.
    run in Hrun. finish Hrun. split.
    + intros ev H. apply in_app_or in H as [H | [<- | []]]; [| simpl; tauto].
      pose proof (trace_event _ _ _ Ht H) as Hq. destruct ev; simpl in *; tauto.
    + intros state ->. exists stub, w1, t. auto.
  - finish Hrun. split; [| discriminate].
    intros ev H. pose proof (trace_event _ _ _ Ht H) as Hq.
    destruct ev; simpl in *; tauto.
Qed.

(** X4. [cloneAgent] needs an actor that reported initialized: in a run in
    which no [isInitialized] call answered true it raises, after lookups
    and probes only (no identifier is generated, no state is read or
    written).  When the located handle answers false, the error is "Agent
    <id> not found". *)
Theorem cloneAgent_requires_initialized_source
    (env : Env Namespace) (agentId : string) (w w' : World)
    (r : Outcome (string * Stub)) (tr : list Event) :
  cloneAgent env agentId w = (r, w', tr) ->
  ((forall stub, ~ In (IsInitialized stub (Ok true)) tr) ->
   (exists e, r = Raise e) /\ Forall lookup_event tr)
  /\ (forall source w1 t w2,
        getAgentStub env agentId true w = (Ok source, w1, t) ->
        stub_isInitialized source w1 = (Ok false, w2) ->
        r = Raise (JS.new_Error ("Agent " +:+ agentId +:+ " not found"))
        /\ w' = w2
        /\ tr = t ++ [IsInitialized source (Ok false)]).
Proof.
  intros Hrun. unfold cloneAgent in Hrun. run in Hrun.
  destruct (getAgentStub env agentId true w) as [[[source | e] w1] t1] eqn:Hsrc;
    pose proof (emits_only_run _ _ _ _ _ _ (getAgentStub_emits _ _ _) Hsrc) as Ht1;
    run in Hrun.
  2: { finish Hrun. split; [eauto | intros ? ? ? ? [=]]. }
  destruct (stub_isInitialized source w1) as [[initialized | e] w2] eqn:Hinit;
    run in Hrun.
  2: { finish Hrun. split.
       - intros _. split; [eauto |].
         apply Forall_app. split; [exact Ht1 | repeat constructor].
       - intros ? ? ? ? [= <- <- <-] H. rewrite Hinit in H. discriminate H. }
  destruct initialized; run in Hrun.
  - split.
    + intros Hnone. exfalso.
      destruct (generateId w2) as [newId w3]. run in Hrun.
      repeat step_in Hrun; finish Hrun;
        apply (Hnone source); apply in_or_app; right; left; reflexivity.
    + intros ? ? ? ? [= <- <- <-] H. rewrite Hinit in H. discriminate H.
  - finish Hrun. rewrite ?app_nil_r. split.
    + intros _. split; [eauto |].
      apply Forall_app. split; [exact Ht1 | repeat constructor].
    + intros ? ? ? ? [= <- <- <-] H. rewrite Hinit in H.
      injection H as <-. auto.
Qed.

End LocatorFacts.

Section SelectorFacts.
Context `{P : Platform}.

(** X5. [selectTemplate] raises nothing but a rate-limit or security
    error, and only one that the inference call raised: every other
    failure ends in a returned selection. *)
Theorem selectTemplate_raises_only_propagated
    (args : SelectTemplateArgs) (w w' : World) (e : JS.Thrown)
    (tr : list Event) :
  selectTemplate args w = (Raise e, w', tr) ->
  propagated e = true
  /\ exists iargs, In (ExecuteInference iargs (Raise e)) tr.
Proof.
  unfold selectTemplate, propagated. intros Hrun.
  destruct (length (sta_availableTemplates args) =? 0); run in Hrun;
    [discriminate Hrun |].
  do 3 step_in Hrun; [discriminate Hrun |].
  destruct (JS.instanceof_RateLimitExceededError e0
            || JS.instanceof_SecurityError e0) eqn:Hcls;
    run in Hrun; [| discriminate Hrun].
  injection Hrun as <- <- <-. split; [exact Hcls |].
  eexists. simpl. eauto 10.
Qed.

(** X6. [selectTemplate] calls the inference collaborator at most once,
    for a non-empty candidate list only, with the action name
    "templateSelection", the caller's inference context, a budget of 2000
    tokens and two messages: the system prompt and the user prompt built
    from the query, the candidates and a token freshly drawn with
    [generateSecureToken(64)].  A
    selection the collaborator answers is returned as it is: its name is
    not compared with the candidates. *)
Theorem selectTemplate_returns_inference_answer
    (args : SelectTemplateArgs) (w w' : World) (r : Outcome TemplateSelection)
    (tr : list Event) (iargs : InferenceArgs) (answer : Outcome TemplateSelection) :
  selectTemplate args w = (r, w', tr) ->
  In (ExecuteInference iargs answer) tr ->
  sta_availableTemplates args <> []
  /\ count is_inference tr = 1
  /\ ia_agentActionName iargs = "templateSelection"
  /\ ia_context iargs = sta_inferenceContext args
  /\ ia_maxTokens iargs = 2000
  /\ (exists token,
        In (GenerateSecureToken 64 token) tr
        /\ ia_messages iargs
           = [ {| role := RoleSystem; content := systemPrompt |};
               {| role := RoleUser;
                  content := userPrompt (sta_query args)
                               (templateDescriptions (sta_availableTemplates args))
                               token |} ])
  /\ (forall selection, answer = Ok selection -> r = Ok selection).
Proof.
  unfold selectTemplate. intros Hrun Hin.
  destruct (sta_availableTemplates args) as [| candidate rest] eqn:Hlist;
    simpl in Hrun; run in Hrun.
  { finish Hrun. in_trace Hin. }
  split; [discriminate |].
  do 3 step_in Hrun.
  - finish Hrun. in_trace Hin. injection Hin as <- <-.
    repeat split; try reflexivity.
    + eexists. split; [simpl; eauto 10 | reflexivity].
    + intros selection [= <-]. reflexivity.
  - destruct (JS.instanceof_RateLimitExceededError e
              || JS.instanceof_SecurityError e);
      run in Hrun; finish Hrun; in_trace Hin; injection Hin as <- <-.
    all: repeat split; try reflexivity; try discriminate.
    all: eexists; split; [simpl; eauto 10 | reflexivity].
Qed.

End SelectorFacts.

Section ResolveFacts.
Context `{P : Platform}.

(** The first part of every run of [getTemplateForQuery] that got a
    successful list: the id, the selection and the sandbox client. *)
Ltac resolve_prefix Hrun :=
  unfold getTemplateForQuery in Hrun; run in Hrun;
  destruct (listTemplates _) as [[[[[] templates error] |] | ?e] ?w];
  run in Hrun;
  [ destruct (generateId _) as [sessionId ?w]; run in Hrun;
    match type of Hrun with
    | context [selectTemplate ?a ?w0] =>
        let Hsel := fresh "Hsel" in
        destruct (selectTemplate a w0) as [[rs ?w] t3] eqn:Hsel;
        pose proof (emits_only_run _ _ _ _ _ _ (selectTemplate_emits _) Hsel)
    end;
    run in Hrun;
    destruct (getSandboxService sessionId _) as [rc ?w]; run in Hrun
  | .. ].

(** X7. When [getTemplateForQuery] returns, the pieces of its result
    belong together: the session id is the identifier it generated, the
    sandbox client was acquired for that id, the details were asked of
    that client for the candidate the selection names and were answered
    with success, and the list was fetched once. *)
Theorem getTemplateForQuery_result_consistent
    (env : Env Namespace) (ctx : InferenceContext) (query : string)
    (w w' : World) (out : TemplateForQuery) (tr : list Event) :
  getTemplateForQuery env ctx query w = (Ok out, w', tr) ->
  exists response candidate client answer,
    In (ListTemplates (Ok (Some response))) tr
    /\ tl_success response = true
    /\ In candidate (tl_templates response)
    /\ selectedTemplateName (tfq_selection out) = Some (tmpl_name candidate)
    /\ In (GenerateId (sandboxSessionId out)) tr
    /\ In (GetSandboxService (sandboxSessionId out) (Ok client)) tr
    /\ In (GetTemplateDetails client (tmpl_name candidate) (Ok answer)) tr
    /\ tdr_success answer = true
    /\ tdr_templateDetails answer = Some (templateDetails out).
Proof.
  intros Hrun. resolve_prefix Hrun; try discriminate Hrun.
  destruct rs as [sel | e]; destruct rc as [client | e']; run in Hrun;
    try discriminate Hrun.
  destruct (selectedTemplateName sel) as [name |] eqn:Hname; simpl in Hrun;
    [| run in Hrun; discriminate Hrun].
  destruct (String.eqb name "") eqn:Hnonempty; run in Hrun;
    [discriminate Hrun |].
  destruct (List.find _ templates) as [candidate |] eqn:Hfind; run in Hrun;
    [| discriminate Hrun].
  apply find_some in Hfind as [Hin Heq]. apply String.eqb_eq in Heq.
  destruct (getTemplateDetails client (tmpl_name candidate) _)
    as [[answer | e] ?w]; run in Hrun; [| discriminate Hrun].
  destruct (tdr_success answer) eqn:Hok;
    [destruct (tdr_templateDetails answer) as [details |] eqn:Hdetails |];
    run in Hrun; try discriminate Hrun.
  injection Hrun as <- <- <-. simpl.
  exists {| tl_success := true; tl_templates := templates; tl_error := error |},
    candidate, client, answer.
  simpl. rewrite Heq. repeat split; try assumption; try reflexivity.
  all: rewrite ?in_app_iff; simpl; rewrite ?in_app_iff; simpl; tauto.
Qed.

(** X8. [getTemplateForQuery] stops at a list it cannot use: nothing is
    called after [listTemplates] (no identifier, no inference, no sandbox
    session).  After a successful list it always generates a session id
    and asks for the sandbox session of that id, also when the selection
    then raises or names nothing. *)
Theorem getTemplateForQuery_stops_or_acquires
    (env : Env Namespace) (ctx : InferenceContext) (query : string)
    (w w' : World) (r : Outcome TemplateForQuery) (tr : list Event) :
  getTemplateForQuery env ctx query w = (r, w', tr) ->
  (forall answer,
      In (ListTemplates answer) tr ->
      listUnusable answer ->
      (exists e, r = Raise e)
      /\ Forall (fun ev => is_log ev \/ ev = ListTemplates answer) tr)
  /\ (forall response,
        In (ListTemplates (Ok (Some response))) tr ->
        tl_success response = true ->
        exists sessionId acquired,
          In (GenerateId sessionId) tr
          /\ In (GetSandboxService sessionId acquired) tr).
Proof.
  intros Hrun. resolve_prefix Hrun.
  - (* a successful list *)
    split.
    + intros answer Hin Hbad. exfalso.
      assert (Hfirst : answer = Ok (Some {| tl_success := true;
                                            tl_templates := templates;
                                            tl_error := error |})).
      { destruct rs, rc; run in Hrun;
          repeat first [ explore Hrun
                       | match type of Hrun with
                         | context [List.find ?f ?l] => destruct (List.find f l); run in Hrun
                         | context [JS.truthy_str ?x] => destruct (JS.truthy_str x); run in Hrun
                         | context [if tdr_success ?x then _ else _] =>
                             destruct (tdr_success x); run in Hrun
                         | context [match tdr_templateDetails ?x with _ => _ end] =>
                             destruct (tdr_templateDetails x); run in Hrun
                         end ];
          finish Hrun; in_trace Hin; injection Hin as <-; reflexivity. }
      subst answer. simpl in Hbad. discriminate Hbad.
    + intros response Hin Hok. exists sessionId, rc.
      destruct rs, rc; run in Hrun;
        repeat first [ explore Hrun
                     | match type of Hrun with
                       | context [List.find ?f ?l] => destruct (List.find f l); run in Hrun
                       | context [JS.truthy_str ?x] => destruct (JS.truthy_str x); run in Hrun
                       | context [if tdr_success ?x then _ else _] =>
                           destruct (tdr_success x); run in Hrun
                       | context [match tdr_templateDetails ?x with _ => _ end] =>
                           destruct (tdr_templateDetails x); run in Hrun
                       end ];
        finish Hrun; simpl; rewrite ?in_app_iff; simpl; rewrite ?in_app_iff;
        simpl; tauto.
  - finish Hrun. split.
    + intros answer Hin Hbad. in_trace Hin. injection Hin as <-.
      split; [eauto |]. repeat (constructor; [simpl; auto |]); constructor.
    + intros response Hin Hok. in_trace Hin. injection Hin as <-.
      discriminate Hok.
  - finish Hrun. split.
    + intros answer Hin Hbad. in_trace Hin. injection Hin as <-.
      split; [eauto |]. repeat (constructor; [simpl; auto |]); constructor.
    + intros response Hin Hok. in_trace Hin.
  - finish Hrun. split.
    + intros answer Hin Hbad. in_trace Hin. injection Hin as <-.
      split; [eauto |]. repeat (constructor; [simpl; auto |]); constructor.
    + intros response Hin Hok. in_trace Hin.
Qed.

End ResolveFacts.

Section StartFacts.
Context `{P : Platform}.

Lemma collectUserModelConfigs_run
    (entries : list (string * MergedConfig)) (w : World) :
  collectUserModelConfigs entries w
  = (Ok (userOverrides entries), w,
     List.map (fun kept => Log Info ("Added model config for " +:+ fst kept +:+ ":"))
       (userOverrides entries)).
Proof.
  unfold userOverrides. revert w.
  induction entries as [| [actionKey mergedConfig] rest IH]; intros w;
    [reflexivity |].
  simpl. destruct (isUserOverride mergedConfig) eqn:Hflag; simpl;
    [| apply IH].
  cbv beta iota delta [mbind M_bind bind log emit mret M_ret ret].
  rewrite IH. rewrite app_nil_r. reflexivity.
Qed.

(** X9. The loop over the user's model configurations keeps exactly the
    entries flagged [isUserOverride], in their order, each reduced to its
    model configuration; it logs once per kept entry, raises nothing,
    calls no collaborator and leaves the world as it was. *)
Theorem collectUserModelConfigs_keeps_overrides
    (entries : list (string * MergedConfig)) (w : World) :
  result_of (collectUserModelConfigs entries w)
  = Ok (List.map (fun entry => (fst entry, merged (snd entry)))
          (List.filter (fun entry => isUserOverride (snd entry)) entries))
  /\ world_of (collectUserModelConfigs entries w) = w
  /\ Forall is_log (trace_of (collectUserModelConfigs entries w))
  /\ length (trace_of (collectUserModelConfigs entries w))
     = length (List.filter (fun entry => isUserOverride (snd entry)) entries).
Proof.
  rewrite collectUserModelConfigs_run. unfold userOverrides, trace_of. simpl.
  repeat split.
  - apply Forall_forall. intros ev Hev.
    apply list_elem_of_In, in_map_iff in Hev as (kept & <- & _). exact I.
  - rewrite !length_map. reflexivity.
Qed.

Lemma filter_quiet (kind : Event -> bool) (Q : Event -> Prop) (t : list Event) :
  (forall ev, Q ev -> kind ev = false) -> Forall Q t -> List.filter kind t = [].
Proof.
  intros HQ. induction 1 as [| ev t Hev Ht IH]; [reflexivity |].
  simpl. rewrite (HQ ev Hev). exact IH.
Qed.

Lemma selectTemplate_context args :
  emits_only (resolve_event (sta_inferenceContext args)) (selectTemplate args).
Proof. unfold selectTemplate. emits; simpl; auto. Qed.

Lemma getTemplateForQuery_context env ctx query :
  emits_only (resolve_event ctx) (getTemplateForQuery env ctx query).
Proof.
  unfold getTemplateForQuery. emits; try exact I.
  all: try (destruct t as [[] ? ?]; emits; try exact I).
  all: first [ reflexivity
             | match goal with
               | |- emits_only _ (selectTemplate ?a) =>
                   apply (selectTemplate_context a)
               end ].
Qed.

End StartFacts.

(** Records what the folded runs of a start request can have emitted. *)
Ltac note_start :=
  repeat match goal with
    | H : getAgentStub _ _ _ _ = (_, _, ?t) |- _ =>
        lazymatch goal with
        | _ : Forall lookup_event t |- _ => fail
        | _ => pose proof (emits_only_run _ _ _ _ _ _ (getAgentStub_emits _ _ _) H)
        end
    | H : getTemplateForQuery _ ?ctx _ _ = (_, _, ?t) |- _ =>
        lazymatch goal with
        | _ : Forall (resolve_event ctx) t |- _ => fail
        | _ => pose proof (emits_only_run _ _ _ _ _ _
                             (getTemplateForQuery_context _ _ _) H)
        end
    end.

(** Membership in a trace with folded runs inside, down to what the
    [emits_only] facts of the context say about the event. *)
Ltac in_sub H :=
  simpl in H;
  repeat lazymatch type of H with
    | _ \/ _ => destruct H as [H | H]; [try discriminate H |]
    | False => destruct H
    | In _ (_ ++ _) => apply in_app_or in H; simpl in H
    | In _ (List.map _ _) =>
        let kept := fresh "kept" in
        apply in_map_iff in H as (kept & H & _); try discriminate H
    | In _ ?t =>
        is_var t;
        match goal with
        | Ht : Forall _ t |- _ => apply (trace_event _ _ _ Ht) in H; simpl in H
        end
    end.

(** The launches of a trace with folded runs inside. *)
Ltac quiet :=
  unfold launches;
  repeat first
    [ progress simpl
    | rewrite List.filter_app
    | match goal with
      | Ht : Forall ?Q ?t |- context [List.filter ?kind ?t] =>
          rewrite (filter_quiet kind Q t) by
            (first [ exact Ht
                   | intros []; simpl; intros; first [reflexivity | contradiction] ])
      | |- context [List.filter ?kind (List.map ?f ?l)] =>
          rewrite (filter_quiet kind is_log (List.map f l)) by
            (first [ intros []; simpl; intros; first [reflexivity | contradiction]
                   | apply Forall_forall;
                     intros ? [? [<- _]]%list_elem_of_In%in_map_iff; exact I ])
      end ].

Section StartRunFacts.
Context `{P : Platform}.

(** Every run of [startCodeGeneration]: an error response and nothing
    launched, or the 200 stream after one initial write and one
    [initialize]; and what its inference calls carry. *)
Lemma startCodeGeneration_run
    (request : Request) (env : Env Namespace) (context : RouteContext)
    (w w' : World) (r : Outcome Response) (tr : list Event) :
  startCodeGeneration request env context w = (r, w', tr) ->
  ((exists message status,
       r = Ok (ErrorResponse message status)
       /\ (status = 400 \/ (status = 429 /\ ctx_user context <> None) \/ status = 500)
       /\ launches tr = [])
   \/ (exists body agentId entries stub templateResult w1 w2 t1 w3 w4 t2,
         launches tr
         = [ WriterWrite
               {| ir_message := "Code generation started";
                  ir_agentId := agentId;
                  ir_websocketUrl := websocketUrlOf (req_url request) agentId;
                  ir_httpStatusUrl :=
                    url_origin (req_url request) +:+ "/api/agent/" +:+ agentId;
                  ir_template := (td_name (templateDetails templateResult),
                                  td_files (templateDetails templateResult)) |};
             Initialize stub
               {| aip_query := default "" (cg_query body);
                  aip_language := JS.or_else (cg_language body) "typescript";
                  aip_frameworks := default ["react"; "vite"] (cg_frameworks body);
                  aip_hostname :=
                    if String.eqb (url_hostname (req_url request)) "localhost"
                    then "localhost:" +:+ url_port (req_url request)
                    else getPreviewDomain env;
                  aip_inferenceContext :=
                    startContext (ctx_user context) agentId entries;
                  aip_templateDetails := templateDetails templateResult;
                  aip_selection := tfq_selection templateResult;
                  aip_sandboxSessionId := sandboxSessionId templateResult |}
               (JS.or_else (cg_agentMode body) "deterministic") ]
         /\ r = Ok (NewResponse BodyReadable 200
                      [ ("Content-Type", "text/event-stream; charset=utf-8");
                        ("Cache-Control", "no-cache, no-store, must-revalidate, no-transform");
                        ("Pragma", "no-cache");
                        ("Connection", "keep-alive") ]
                      None)
         /\ req_json request = Ok body
         /\ JS.truthy_str (cg_query body) = true
         /\ In (GenerateId agentId) tr
         /\ getAgentStub env agentId false w1 = (Ok stub, w2, t1)
         /\ (forall ev, In ev t1 -> In ev tr)
         /\ getTemplateForQuery env (startContext (ctx_user context) agentId entries)
              (default "" (cg_query body)) w3
            = (Ok templateResult, w4, t2)))
  /\ (forall iargs answer,
        In (ExecuteInference iargs answer) tr ->
        exists agentId entries,
          ia_context iargs = startContext (ctx_user context) agentId entries
          /\ In (GenerateId agentId) tr
          /\ match ctx_user context with
             | Some user => In (GetUserModelConfigs (user_id user) (Ok entries)) tr
             | None => entries = []
                       /\ forall id fetched, ~ In (GetUserModelConfigs id fetched) tr
             end).
Proof.
  intros Hrun. unfold startCodeGeneration in Hrun. run in Hrun.
  destruct (req_json request) as [body | e] eqn:Hjson; run in Hrun.
  2: { finish Hrun. split.
       - left. eexists _, _. split; [reflexivity |]. split; [auto | reflexivity].
       - intros iargs answer Hin. in_sub Hin. }
  destruct (JS.truthy_str (cg_query body)) eqn:Hquery; run in Hrun.
  2: { finish Hrun. split.
       - left. eexists _, _. split; [reflexivity |]. split; [auto | reflexivity].
       - intros iargs answer Hin. in_sub Hin. }
  destruct (ctx_user context) as [user |] eqn:Huser; run in Hrun.
  - destruct (enforceAppCreationRateLimit user request w) as [[[] | e] w1];
      run in Hrun.
    2: { destruct (JS.instanceof_Error e); run in Hrun; finish Hrun.
         all: split;
           [ left; eexists _, _; split; [reflexivity |];
             split; [right; left; split; [reflexivity | discriminate] | reflexivity]
           | intros iargs answer Hin; in_sub Hin ]. }
    repeat first [ rewrite collectUserModelConfigs_run in Hrun; run in Hrun
                 | explore Hrun; note_start ].
    all: finish Hrun.
    all: match goal with
         | Hg : generateId _ = (?s, _),
           Hc : getUserModelConfigs _ _ = (?fetched, _) |- _ =>
             split;
             [ first
                 [ left; eexists _, _; split; [reflexivity |];
                   split; [auto | quiet; reflexivity]
                 | right;
                   match goal with
                   | Hs : getAgentStub _ s false ?wa = (Ok ?stub, ?wb, ?ta),
                     Ht : getTemplateForQuery _ _ _ ?wc = (Ok ?tres, ?wd, ?tb),
                     Hf : getUserModelConfigs _ _ = (Ok ?a, _) |- _ =>
                       exists body, s, a, stub, tres, wa, wb, ta, wc, wd, tb
                   end;
                   split; [quiet; reflexivity |];
                   repeat split; try reflexivity; try assumption;
                   try (intros ev Hev);
                   simpl; rewrite ?in_app_iff; simpl; rewrite ?in_app_iff; tauto ]
             | intros iargs answer Hin; in_sub Hin;
               (match goal with
                | Hf : getUserModelConfigs _ _ = (Ok ?a, _) |- _ => exists s, a
                end;
                split; [exact Hin |];
                split; simpl; rewrite ?in_app_iff; simpl; rewrite ?in_app_iff; tauto) ]
         end.
  - repeat first [ rewrite collectUserModelConfigs_run in Hrun; run in Hrun
                 | explore Hrun; note_start ].
    all: finish Hrun.
    all: match goal with
         | Hg : generateId _ = (?s, _) |- _ =>
             split;
             [ first
                 [ left; eexists _, _; split; [reflexivity |];
                   split; [auto | quiet; reflexivity]
                 | right;
                   match goal with
                   | Hs : getAgentStub _ s false ?wa = (Ok ?stub, ?wb, ?ta),
                     Ht : getTemplateForQuery _ _ _ ?wc = (Ok ?tres, ?wd, ?tb) |- _ =>
                       exists body, s, [], stub, tres, wa, wb, ta, wc, wd, tb
                   end;
                   split; [quiet; reflexivity |];
                   repeat split; try reflexivity; try assumption;
                   try (intros ev Hev);
                   simpl; rewrite ?in_app_iff; simpl; rewrite ?in_app_iff; tauto ]
             | intros iargs answer Hin; in_sub Hin;
               (exists s, [];
                split; [exact Hin |];
                split; [simpl; rewrite ?in_app_iff; simpl; rewrite ?in_app_iff; tauto |];
                split; [reflexivity |];
                intros id fetched Hget; in_sub Hget) ]
         end.
Qed.

End StartRunFacts.

Section StartLaunchFacts.
Context `{P : Platform}.


(** X11. What a start request launches belongs together: the agent
    initialized is the actor looked up directly for the identifier generated
    in this run; the initial write announces that identifier, the WebSocket
    and status URLs built from it and the request URL, and the template the
    resolution returned; the initialization carries the query, the language,
    frameworks and mode of the body or their defaults (typescript, react and
    vite, deterministic), and the inference context the template was
    resolved with. *)
Theorem startCodeGeneration_launch_contents
    (request : Request) (env : Env Namespace) (context : RouteContext)
    (w w' : World) (r : Outcome Response) (tr : list Event)
    (stub : Stub) (params : AgentInitParams) (mode : string) :
  startCodeGeneration request env context w = (r, w', tr) ->
  In (Initialize stub params mode) tr ->
  exists body agentId entries templateResult w1 w2 t1 w3 w4 t2,
    req_json request = Ok body
    /\ In (GenerateId agentId) tr
    /\ getAgentStub env agentId false w1 = (Ok stub, w2, t1)
    /\ (forall ev, In ev t1 -> In ev tr)
    /\ getTemplateForQuery env (startContext (ctx_user context) agentId entries)
         (default "" (cg_query body)) w3
       = (Ok templateResult, w4, t2)
    /\ In (WriterWrite
             {| ir_message := "Code generation started";
                ir_agentId := agentId;
                ir_websocketUrl := websocketUrlOf (req_url request) agentId;
                ir_httpStatusUrl :=
                  url_origin (req_url request) +:+ "/api/agent/" +:+ agentId;
                ir_template := (td_name (templateDetails templateResult),
                                td_files (templateDetails templateResult)) |}) tr
    /\ params
       = {| aip_query := default "" (cg_query body);
            aip_language := JS.or_else (cg_language body) "typescript";
            aip_frameworks := default ["react"; "vite"] (cg_frameworks body);
            aip_hostname :=
              if String.eqb (url_hostname (req_url request)) "localhost"
              then "localhost:" +:+ url_port (req_url request)
              else getPreviewDomain env;
            aip_inferenceContext := startContext (ctx_user context) agentId entries;
            aip_templateDetails := templateDetails templateResult;
            aip_selection := tfq_selection templateResult;
            aip_sandboxSessionId := sandboxSessionId templateResult |}
    /\ mode = JS.or_else (cg_agentMode body) "deterministic".
Proof.
  intros Hrun Hin.
  assert (Hl : In (Initialize stub params mode) (launches tr)).
  { unfold launches. apply filter_In. split; [exact Hin | reflexivity]. }
  destruct (startCodeGeneration_run _ _ _ _ _ _ _ Hrun) as [Hshape _].
  destruct Hshape as [(message & status & _ & _ & Hnone)
                     | (body & agentId & entries & stub' & templateResult & w1 & w2
                        & t1 & w3 & w4 & t2 & Hlaunch & _ & Hjson & _ & Hid
                        & Hstub & Hsub & Htemplate)].
  { rewrite Hnone in Hl. destruct Hl. }
  assert (Hw : In (WriterWrite
                     {| ir_message := "Code generation started";
                        ir_agentId := agentId;
                        ir_websocketUrl := websocketUrlOf (req_url request) agentId;
                        ir_httpStatusUrl :=
                          url_origin (req_url request) +:+ "/api/agent/" +:+ agentId;
                        ir_template := (td_name (templateDetails templateResult),
                                        td_files (templateDetails templateResult)) |})
                  (launches tr)).
  { rewrite Hlaunch. left. reflexivity. }
  apply filter_In in Hw as [Hw _].
  rewrite Hlaunch in Hl.
  destruct Hl as [Hl | [Hl | []]]; [discriminate Hl |].
  injection Hl as <- <- <-.
  exists body, agentId, entries, templateResult, w1, w2, t1, w3, w4, t2.
  repeat split; assumption.
Qed.

(** X12. Every inference call of a start request carries the inference
    context of that request: its agent id is an identifier generated in the
    run and real-time code fixing is on; for an anonymous caller the user id
    is "anonymous", there are no model overrides and the configuration store
    is never asked; for an authenticated user the overrides are those kept
    from the entries the store answered for that user's id. *)
Theorem startCodeGeneration_inference_context
    (request : Request) (env : Env Namespace) (context : RouteContext)
    (w w' : World) (r : Outcome Response) (tr : list Event)
    (iargs : InferenceArgs) (answer : Outcome TemplateSelection) :
  startCodeGeneration request env context w = (r, w', tr) ->
  In (ExecuteInference iargs answer) tr ->
  enableRealtimeCodeFix (ia_context iargs) = true
  /\ In (GenerateId (ic_agentId (ia_context iargs))) tr
  /\ match ctx_user context with
     | Some user =>
         ic_userId (ia_context iargs) = JS.or_else (Some (user_id user)) "anonymous"
         /\ exists entries,
              In (GetUserModelConfigs (user_id user) (Ok entries)) tr
              /\ userModelConfigs (ia_context iargs) = userOverrides entries
     | None =>
         ic_userId (ia_context iargs) = "anonymous"
         /\ userModelConfigs (ia_context iargs) = []
         /\ forall id fetched, ~ In (GetUserModelConfigs id fetched) tr
     end.
Proof.
  intros Hrun Hin.
  destruct (startCodeGeneration_run _ _ _ _ _ _ _ Hrun) as [_ Hctx].
  destruct (Hctx _ _ Hin) as (agentId & entries & -> & Hid & Huser).
  split; [reflexivity |]. split; [exact Hid |].
  destruct (ctx_user context) as [user |]; simpl.
  - split; [reflexivity |]. exists entries. split; [exact Huser | reflexivity].
  - destruct Huser as [-> Hnone]. repeat split. exact Hnone.
Qed.

End StartLaunchFacts.

Section StartReachFacts.
Context `{P : Platform}.

Lemma getAgentStub_direct_emits env name :
  emits_only (direct_event name) (getAgentStub env name false).
Proof.
  unfold getAgentStub, getAgentByName.
  destruct (CodeGenObject env) as [namespace |]; emits; simpl; auto.
Qed.

Ltac note_direct :=
  repeat match goal with
    | H : getAgentStub _ ?name false _ = (_, _, ?t) |- _ =>
        lazymatch goal with
        | _ : Forall (direct_event name) t |- _ => fail
        | _ => pose proof (emits_only_run _ _ _ _ _ _
                             (getAgentStub_direct_emits _ _) H)
        end
    | H : getTemplateForQuery _ ?ctx _ _ = (_, _, ?t) |- _ =>
        lazymatch goal with
        | _ : Forall (resolve_event ctx) t |- _ => fail
        | _ => pose proof (emits_only_run _ _ _ _ _ _
                             (getTemplateForQuery_context _ _ _) H)
        end
    end.

Ltac start_leaf :=
  let Hin := fresh "Hin" in
  split; [intros ? Hin | split; [intros ? ? Hin | intros ? ? ? Hin]];
  in_sub Hin;
  first
    [ subst; repeat (progress (simpl; rewrite ?in_app_iff)); tauto
    | match goal with ev : Event |- _ => destruct ev; simpl in *; tauto end ].

(** X13. A start request reaches no existing actor: it never probes, reads,
    writes or fetches an actor, routes nothing and opens no socket; every
    name it resolves is an identifier it generated, and every namespace
    lookup is a direct one (hint "enam", default jurisdiction). *)
Theorem startCodeGeneration_fresh_agent_only
    (request : Request) (env : Env Namespace) (context : RouteContext)
    (w w' : World) (r : Outcome Response) (tr : list Event) :
  startCodeGeneration request env context w = (r, w', tr) ->
  (forall ev, In ev tr -> ~ reaches_actor ev)
  /\ (forall name answer,
        In (IdFromName name answer) tr -> In (GenerateId name) tr)
  /\ (forall id options answer,
        In (NsGet id options answer) tr ->
        options = {| locationHint := Some "enam"; jurisdiction := None |}).
Proof.
  intros Hrun. unfold startCodeGeneration in Hrun. run in Hrun.
  destruct (req_json request) as [body | e] eqn:Hjson; run in Hrun.
  2: { finish Hrun. start_leaf. }
  destruct (JS.truthy_str (cg_query body)) eqn:Hquery; run in Hrun.
  2: { finish Hrun. start_leaf. }
  destruct (ctx_user context) as [user |] eqn:Huser; run in Hrun.
  - destruct (enforceAppCreationRateLimit user request w) as [[[] | e] w1];
      run in Hrun.
    2: { destruct (JS.instanceof_Error e); run in Hrun; finish Hrun; start_leaf. }
    repeat first [ rewrite collectUserModelConfigs_run in Hrun; run in Hrun
                 | explore Hrun; note_direct ].
    all: finish Hrun; start_leaf.
  - repeat first [ rewrite collectUserModelConfigs_run in Hrun; run in Hrun
                 | explore Hrun; note_direct ].
    all: finish Hrun; start_leaf.
Qed.
End StartReachFacts.

(** ** Header lists *)

Lemma lowerAscii_idem (c : Ascii.ascii) : lowerAscii (lowerAscii c) = lowerAscii c.
Proof. destruct c as [[] [] [] [] [] [] [] []]; reflexivity. Qed.

Lemma lowerCase_idem (s : string) : lowerCase (lowerCase s) = lowerCase s.
Proof.
  induction s as [| c rest IH]; simpl; [reflexivity |].
  rewrite lowerAscii_idem, IH. reflexivity.
Qed.

Lemma header_values_obj_set_other (name key value : string)
    (obj : list (string * string)) :
  lowerCase key <> name ->
  header_values name (obj_set key value obj) = header_values name obj.
Proof.
  intros Hne. apply String.eqb_neq in Hne. unfold header_values.
  induction obj as [| [k v] rest IH]; simpl.
  - rewrite Hne. reflexivity.
  - destruct (String.eqb k key) eqn:Hk; simpl.
    + apply String.eqb_eq in Hk. subst k. rewrite Hne. reflexivity.
    + destruct (String.eqb (lowerCase k) name); simpl; rewrite IH; reflexivity.
Qed.

Lemma header_values_absent (name : string) (obj : list (string * string)) :
  Forall (fun kv => lowerCase (fst kv) = fst kv) obj ->
  ~ In name (List.map fst obj) ->
  header_values name obj = [].
Proof.
  unfold header_values.
  induction 1 as [| [k v] rest Hk Hrest IH]; simpl; [reflexivity |].
  intros Hnot. simpl in Hk. rewrite Hk.
  destruct (String.eqb k name) eqn:Heq.
  - apply String.eqb_eq in Heq. tauto.
  - apply IH. tauto.
Qed.

Lemma header_values_obj_set_same (key value : string)
    (obj : list (string * string)) :
  lowerKeyed obj ->
  lowerCase key = key ->
  header_values key (obj_set key value obj) = [value].
Proof.
  intros [Hdup Hlow] Hkey. unfold header_values.
  induction obj as [| [k v] rest IH]; simpl.
  - rewrite Hkey, String.eqb_refl. reflexivity.
  - simpl in Hdup. apply NoDup_cons_iff in Hdup as [Hfirst Hdup].
    apply Forall_cons_1 in Hlow as [Hk Hlow]. simpl in Hk.
    destruct (String.eqb k key) eqn:Heq; simpl.
    + apply String.eqb_eq in Heq. subst k.
      rewrite Hkey, String.eqb_refl. simpl. f_equal.
      apply (header_values_absent key rest Hlow Hfirst).
    + rewrite Hk, Heq. apply IH; assumption.
Qed.

Lemma obj_set_keys (key value k : string) (obj : list (string * string)) :
  In k (List.map fst (obj_set key value obj)) <->
  k = key \/ In k (List.map fst obj).
Proof.
  induction obj as [| [k0 v0] rest IH]; simpl; [intuition |].
  destruct (String.eqb k0 key) eqn:Heq; simpl.
  - apply String.eqb_eq in Heq. subst k0. intuition.
  - rewrite IH. intuition.
Qed.

Lemma lowerKeyed_obj_set (key value : string) (obj : list (string * string)) :
  lowerKeyed obj -> lowerCase key = key -> lowerKeyed (obj_set key value obj).
Proof.
  intros [Hdup Hlow] Hkey. split.
  - induction obj as [| [k v] rest IH]; simpl.
    + repeat constructor. intros [].
    + simpl in Hdup. apply NoDup_cons_iff in Hdup as [Hfirst Hdup].
      apply Forall_cons_1 in Hlow as [_ Hlow].
      destruct (String.eqb k key) eqn:Heq; simpl.
      * apply NoDup_cons_iff. split; assumption.
      * apply NoDup_cons_iff. split; [| apply IH; assumption].
        rewrite obj_set_keys. apply String.eqb_neq in Heq. intros [-> | H]; tauto.
  - clear Hdup. induction Hlow as [| [k v] rest Hk Hrest IH]; simpl.
    + repeat constructor. exact Hkey.
    + destruct (String.eqb k key); constructor; assumption.
Qed.

Lemma lowerKeyed_fold (entries obj : list (string * string)) :
  Forall (fun kv => lowerCase (fst kv) = fst kv) entries ->
  lowerKeyed obj ->
  lowerKeyed (List.fold_left (fun o kv => obj_set (fst kv) (snd kv) o) entries obj).
Proof.
  intros Hkeys. revert obj.
  induction Hkeys as [| [k v] rest Hk Hrest IH]; simpl; intros obj Hobj;
    [exact Hobj |].
  apply IH. apply lowerKeyed_obj_set; assumption.
Qed.

Lemma header_values_fold_other (name : string)
    (entries obj : list (string * string)) :
  Forall (fun kv => lowerCase (fst kv) <> name) entries ->
  header_values name
    (List.fold_left (fun o kv => obj_set (fst kv) (snd kv) o) entries obj)
  = header_values name obj.
Proof.
  intros Hkeys. revert obj.
  induction Hkeys as [| [k v] rest Hk Hrest IH]; simpl; intros obj;
    [reflexivity |].
  rewrite IH. apply header_values_obj_set_other. exact Hk.
Qed.

Lemma insert_name_In (x name : string) (sorted : list string) :
  In x (insert_name name sorted) <-> x = name \/ In x sorted.
Proof.
  induction sorted as [| other rest IH]; simpl; [intuition |].
  destruct (String.leb name other); simpl; [intuition |].
  rewrite IH. intuition.
Qed.

Lemma sort_names_In (x : string) (names : list string) :
  In x (sort_names names) <-> In x names.
Proof.
  induction names as [| name rest IH]; simpl; [tauto |].
  rewrite insert_name_In, IH. intuition.
Qed.

Lemma insert_name_NoDup (name : string) (sorted : list string) :
  ~ In name sorted -> List.NoDup sorted -> List.NoDup (insert_name name sorted).
Proof.
  induction sorted as [| other rest IH]; simpl; intros Hnot Hdup.
  - repeat constructor. intros [].
  - destruct (String.leb name other).
    + apply NoDup_cons_iff. split; [exact Hnot | exact Hdup].
    + apply NoDup_cons_iff in Hdup as [Hother Hdup].
      apply NoDup_cons_iff. split; [| apply IH; tauto].
      rewrite insert_name_In. intros [-> | H]; tauto.
Qed.

Lemma sort_names_NoDup (names : list string) :
  List.NoDup names -> List.NoDup (sort_names names).
Proof.
  induction 1 as [| name rest Hnot Hdup IH]; simpl; [constructor |].
  apply insert_name_NoDup; [| exact IH].
  rewrite sort_names_In. exact Hnot.
Qed.

Lemma header_names_In (name : string) (headers : list (string * string)) :
  In name (sort_names (remove_dups (List.map (fun kv => lowerCase (fst kv)) headers)))
  <-> exists kv, In kv headers /\ lowerCase (fst kv) = name.
Proof.
  rewrite sort_names_In, <- list_elem_of_In, elem_of_remove_dups, list_elem_of_In.
  rewrite in_map_iff. split; intros (kv & H1 & H2); exists kv; tauto.
Qed.

Lemma header_names_NoDup (headers : list (string * string)) :
  List.NoDup
    (sort_names (remove_dups (List.map (fun kv => lowerCase (fst kv)) headers))).
Proof. apply sort_names_NoDup, NoDup_ListNoDup, NoDup_remove_dups. Qed.

Lemma header_values_nil (name : string) (headers : list (string * string)) :
  header_values name headers = [] <->
  ~ exists kv, In kv headers /\ lowerCase (fst kv) = name.
Proof.
  unfold header_values. split.
  - intros Hnil (kv & Hin & Hname).
    assert (Hkept : In kv (List.filter
                             (fun kv => String.eqb (lowerCase (fst kv)) name)
                             headers)).
    { apply filter_In. split; [exact Hin |]. apply String.eqb_eq. exact Hname. }
    apply (in_map snd) in Hkept. rewrite Hnil in Hkept. destruct Hkept.
  - intros Hnone.
    destruct (List.filter _ headers) as [| kv rest] eqn:Hkept; [reflexivity |].
    exfalso. apply Hnone. exists kv.
    assert (Hin : In kv (List.filter
                           (fun kv => String.eqb (lowerCase (fst kv)) name)
                           headers)).
    { rewrite Hkept. left. reflexivity. }
    apply filter_In in Hin as [Hin Hname]. apply String.eqb_eq in Hname. tauto.
Qed.

(** The entries of [headers.entries()] are keyed by the names listed. *)
Lemma entries_keys (headers : list (string * string)) (names : list string) :
  Forall (fun kv => In (fst kv) names)
    (List.flat_map
       (fun name =>
          let values := header_values name headers in
          if String.eqb name "set-cookie"
          then List.map (fun value => (name, value)) values
          else [(name, String.concat ", " values)])
       names).
Proof.
  apply List.Forall_forall. intros kv Hin.
  apply in_flat_map in Hin as (name & Hname & Hkv). cbv zeta in Hkv.
  destruct (String.eqb name "set-cookie").
  - apply in_map_iff in Hkv as (value & <- & _). exact Hname.
  - destruct Hkv as [<- | []]. exact Hname.
Qed.

Lemma header_values_fromEntries (name : string)
    (headers : list (string * string)) :
  lowerCase name = name ->
  name <> "set-cookie" ->
  header_values name (Object_fromEntries (headers_entries headers))
  = match header_values name headers with
    | [] => []
    | values => [String.concat ", " values]
    end.
Proof.
  intros Hlow Hcookie. unfold Object_fromEntries, headers_entries.
  set (names := sort_names _).
  assert (Hlower : Forall (fun n => lowerCase n = n) names).
  { apply List.Forall_forall. intros n Hn.
    apply header_names_In in Hn as (kv & _ & <-). apply lowerCase_idem. }
  destruct (in_dec String.string_dec name names) as [Hin | Hout].
  - destruct (in_split _ _ Hin) as (l1 & l2 & Hsplit).
    pose proof (header_names_NoDup headers) as Hdup. fold names in Hdup.
    rewrite Hsplit in Hdup. apply NoDup_remove_2 in Hdup.
    rewrite Hsplit in Hlower. apply Forall_app in Hlower as [Hl1 Hl2].
    apply Forall_cons_1 in Hl2 as [_ Hl2].
    rewrite Hsplit, flat_map_app. simpl.
    apply String.eqb_neq in Hcookie. rewrite Hcookie. simpl.
    rewrite fold_left_app. simpl.
    rewrite header_values_fold_other.
    + rewrite header_values_obj_set_same; [| | exact Hlow].
      * apply header_names_In in Hin.
        destruct (header_values name headers) eqn:Hvalues; [| reflexivity].
        apply header_values_nil in Hvalues. tauto.
      * apply lowerKeyed_fold; [| split; constructor].
        pose proof (entries_keys headers l1) as Hkeys.
        eapply Forall_impl; [exact Hkeys |]. intros kv Hkv.
        exact (proj1 (List.Forall_forall _ _) Hl1 _ Hkv).
    + pose proof (entries_keys headers l2) as Hkeys.
      eapply Forall_impl; [exact Hkeys |]. intros kv Hkv.
      pose proof (proj1 (List.Forall_forall _ _) Hl2 _ Hkv) as Hk. simpl in Hk.
      rewrite Hk. intros Heq. simpl in Hkv. rewrite Heq in Hkv.
      apply Hdup. apply in_or_app. right. exact Hkv.
  - rewrite header_values_fold_other.
    + assert (Hnone : header_values name headers = []).
      { apply header_values_nil. intros Hex. apply Hout, header_names_In, Hex. }
      rewrite Hnone. reflexivity.
    + pose proof (entries_keys headers names) as Hkeys.
      eapply Forall_impl; [exact Hkeys |]. intros kv Hkv.
      pose proof (proj1 (List.Forall_forall _ _) Hlower _ Hkv) as Hk.
      simpl in Hk. rewrite Hk. intros Heq. simpl in Hkv. rewrite Heq in Hkv.
      exact (Hout Hkv).
Qed.

Lemma header_values_stored (name : string) (obj : list (string * string)) :
  header_values name (List.map (fun kv => (fst kv, normalizeValue (snd kv))) obj)
  = List.map normalizeValue (header_values name obj).
Proof.
  unfold header_values. induction obj as [| [k v] rest IH]; simpl; [reflexivity |].
  destruct (String.eqb (lowerCase k) name); simpl; rewrite IH; reflexivity.
Qed.

Lemma obj_set_In (key value : string) (obj : list (string * string)) :
  In (key, value) (obj_set key value obj).
Proof.
  induction obj as [| [k v] rest IH]; simpl; [tauto |].
  destruct (String.eqb k key) eqn:Heq; simpl; [| tauto].
  apply String.eqb_eq in Heq. subst k. tauto.
Qed.

Lemma lowerKeyed_fromEntries (headers : list (string * string)) :
  lowerKeyed (Object_fromEntries (headers_entries headers)).
Proof.
  apply lowerKeyed_fold; [| split; constructor].
  unfold headers_entries.
  eapply Forall_impl; [apply entries_keys |]. intros kv Hkv. simpl in Hkv.
  apply header_names_In in Hkv as (kv' & _ & <-). apply lowerCase_idem.
Qed.

(** What [get] answers on the headers stored from the record that the
    fallback builds. *)
Lemma forwarded_headers (headers : list (string * string)) (chatId name : string) :
  let stored :=
    List.map (fun kv => (fst kv, normalizeValue (snd kv)))
      (obj_set "room" chatId
         (obj_set "namespace" "CodeGenObject"
            (Object_fromEntries (headers_entries headers)))) in
  (lowerCase name = "namespace" -> headers_get name stored = Some "CodeGenObject")
  /\ (lowerCase name = "room" ->
      headers_get name stored = Some (normalizeValue chatId))
  /\ (lowerCase name <> "namespace" -> lowerCase name <> "room" ->
      lowerCase name <> "set-cookie" ->
      headers_get name stored = normalizeValue <$> headers_get name headers).
Proof.
  intros stored. subst stored. unfold headers_get.
  pose proof (lowerKeyed_fromEntries headers) as Hrecord.
  split; [| split].
  - intros ->. rewrite header_values_stored.
    rewrite header_values_obj_set_other by discriminate.
    rewrite header_values_obj_set_same by (exact Hrecord || reflexivity).
    reflexivity.
  - intros ->. rewrite header_values_stored.
    rewrite header_values_obj_set_same; [reflexivity | | reflexivity].
    apply lowerKeyed_obj_set; [exact Hrecord | reflexivity].
  - intros Hns Hroom Hcookie. rewrite header_values_stored.
    rewrite (header_values_obj_set_other _ "room")
      by (change (lowerCase "room") with "room"; congruence).
    rewrite (header_values_obj_set_other _ "namespace")
      by (change (lowerCase "namespace") with "namespace"; congruence).
    rewrite header_values_fromEntries by (apply lowerCase_idem || exact Hcookie).
    destruct (header_values (lowerCase name) headers); reflexivity.
Qed.

Section SocketFacts.
Context `{P : Platform}.

(** Every way a run of [handleWebSocketConnection] can go. *)
Ltac socket_runs Hrun :=
  unfold handleWebSocketConnection in Hrun; run in Hrun;
  destruct (JS.truthy_str (ctx_agentId _)) eqn:Hid; run in Hrun;
  [ destruct (bool_decide (headers_get "Upgrade" _ = Some "websocket")) eqn:Hup;
    run in Hrun;
    [ apply bool_decide_eq_true_1 in Hup;
      destruct (validateWebSocketOrigin _ _) as [[[] | ?e] ?w] eqn:Hvalid;
      run in Hrun;
      [ destruct (routeAgentRequest _ _) as [[[response |] | ?e] ?w] eqn:Hroute;
        run in Hrun;
        [ | destruct (getAgentStub _ _ true _) as [[[agentInstance | ?e] ?w] t] eqn:Hstub;
            pose proof (emits_only_run _ _ _ _ _ _ (getAgentStub_emits _ _ _) Hstub)
              as Ht;
            run in Hrun;
            [ unfold new_Request in Hrun;
              destruct (List.find _ _) as [[? rejected] |] eqn:Hvalues;
              run in Hrun;
              [ destruct (newWebSocketPair _) as [[client server] ?w] eqn:Hpair;
                run in Hrun
              | destruct (stub_fetch agentInstance _ _) as [[upstream | ?e] ?w]
                  eqn:Hfetch;
                run in Hrun ]
            | destruct (newWebSocketPair _) as [[client server] ?w] eqn:Hpair;
              run in Hrun ]
        | destruct (newWebSocketPair _) as [[client server] ?w] eqn:Hpair;
          run in Hrun ]
      | | ]
    | apply bool_decide_eq_false_1 in Hup ]
  | ];
  finish Hrun.

(** X14. The guards of the WebSocket handler come first and in order:
    without an agent id the answer is 400 and without [Upgrade: websocket]
    it is 426, both before any call; an origin check that does not answer
    true ends the run right after it (403, or the handled error when the
    check itself raised).  Routing is attempted for the original request
    only, after the three guards passed; a run that never reaches routing
    consists of logging and the origin check. *)
Theorem handleWebSocketConnection_guards
    (request : Request) (env : Env Namespace) (context : RouteContext)
    (w w' : World) (r : Outcome Response) (tr : list Event) :
  handleWebSocketConnection request env context w = (r, w', tr) ->
  (JS.truthy_str (ctx_agentId context) = false ->
   r = Ok (ErrorResponse (ErrText "Missing agent ID parameter") 400)
   /\ w' = w /\ tr = [])
  /\ (JS.truthy_str (ctx_agentId context) = true ->
      headers_get "Upgrade" (req_headers request) <> Some "websocket" ->
      r = Ok (NewResponse (BodyText "Expected WebSocket upgrade") 426 [] None)
      /\ w' = w /\ tr = [])
  /\ (forall answer,
        In (ValidateWebSocketOrigin request answer) tr ->
        answer <> Ok true ->
        r = Ok match answer with
               | Ok _ => NewResponse (BodyText "Forbidden: Invalid origin") 403 [] None
               | Raise e => HandledError e "handle WebSocket connection"
               end
        /\ Forall (fun ev => is_log ev \/ ev = ValidateWebSocketOrigin request answer)
             tr)
  /\ (forall routed answer,
        In (RouteAgentRequest routed answer) tr ->
        routed = request
        /\ JS.truthy_str (ctx_agentId context) = true
        /\ headers_get "Upgrade" (req_headers request) = Some "websocket"
        /\ In (ValidateWebSocketOrigin request (Ok true)) tr)
  /\ ((forall routed answer, ~ In (RouteAgentRequest routed answer) tr) ->
      Forall (fun ev => is_log ev
                        \/ exists answer, ev = ValidateWebSocketOrigin request answer)
        tr).
Proof.
  intros Hrun. split; [| split; [| split; [| split]]].
  - intros Hno. socket_runs Hrun; try congruence. auto.
  - intros Hyes Hnot. socket_runs Hrun; try congruence. auto.
  - intros answer Hin Hne. socket_runs Hrun; in_trace Hin; injection Hin as <-.
    all: try congruence.
    all: split; [reflexivity |].
    all: repeat (constructor; [simpl; auto |]); constructor.
  - intros routed answer Hin. socket_runs Hrun; in_trace Hin.
    all: injection Hin as <- <-; repeat split; try assumption; simpl; tauto.
  - intros Hnone. socket_runs Hrun.
    all: try (exfalso; eapply Hnone; simpl; eauto 10; fail).
    all: repeat (constructor; [simpl; eauto |]); constructor.
Qed.

(** X15. When the routing facility answers with a response, the handler
    returns it as it is and neither looks up an agent nor opens a socket.
    When routing itself raises, the handler answers as for a failed agent
    lookup: status 101 on a fresh socket pair, one error message "Failed to
    get agent instance: ..." and close code 1011, without any namespace
    lookup. *)
Theorem handleWebSocketConnection_routing_outcome
    (request : Request) (env : Env Namespace) (context : RouteContext)
    (w w' : World) (r : Outcome Response) (tr : list Event) :
  handleWebSocketConnection request env context w = (r, w', tr) ->
  (forall response,
      In (RouteAgentRequest request (Ok (Some response))) tr ->
      r = Ok (Upstream response)
      /\ Forall (fun ev => is_log ev
                           \/ ev = ValidateWebSocketOrigin request (Ok true)
                           \/ ev = RouteAgentRequest request (Ok (Some response)))
           tr)
  /\ (forall e,
        In (RouteAgentRequest request (Raise e)) tr ->
        exists client server,
          r = Ok (NewResponse BodyNull 101 [] (Some client))
          /\ socket_events tr
             = [ NewWebSocketPair client server;
                 WsAccept server;
                 WsSend server
                   (JS.Obj [ ("type", JS.Str WebSocketMessageResponses_ERROR);
                             ("error", JS.Str ("Failed to get agent instance: "
                                               +:+ JS.message_or_String e)) ]);
                 WsClose server 1011 "Agent instance not found" ]
          /\ count is_lookup tr = 0).
Proof.
  intros Hrun. split.
  - intros response' Hin. socket_runs Hrun; in_trace Hin.
    injection Hin as <-. split; [reflexivity |].
    repeat (constructor; [simpl; auto |]); constructor.
  - intros e' Hin. socket_runs Hrun; in_trace Hin.
    injection Hin as <-. exists client, server. repeat split.
Qed.

(** X16. The fallback forwards a new request to the agent found by the
    jurisdiction search for the path's id, after routing answered null:
    method, URL and body are the original ones; whatever the case of the
    name asked, [namespace] is "CodeGenObject" and [room] is the id (as a
    stored header value, that is without surrounding HTTP whitespace), also
    when the client sent such headers itself; every other header but
    [set-cookie] answers its original combined value, stored anew.  The
    handler's result is the forwarded call's: a response is returned as it
    is, and a rejection is raised to the caller, not turned into the socket
    error response (no socket is opened). *)
Theorem handleWebSocketConnection_fallback_forward
    (request : Request) (env : Env Namespace) (context : RouteContext)
    (w w' : World) (r : Outcome Response) (tr : list Event)
    (stub : Stub) (forwarded : Request) (answer : Outcome UpstreamResponse) :
  handleWebSocketConnection request env context w = (r, w', tr) ->
  In (Fetch stub forwarded answer) tr ->
  let chatId := default "" (ctx_agentId context) in
  In (RouteAgentRequest request (Ok None)) tr
  /\ (exists w1 w2 t, getAgentStub env chatId true w1 = (Ok stub, w2, t))
  /\ req_method forwarded = req_method request
  /\ req_url forwarded = req_url request
  /\ req_json forwarded = req_json request
  /\ isHeaderValue (normalizeValue chatId) = true
  /\ (forall name,
        lowerCase name = "namespace" ->
        headers_get name (req_headers forwarded) = Some "CodeGenObject")
  /\ (forall name,
        lowerCase name = "room" ->
        headers_get name (req_headers forwarded) = Some (normalizeValue chatId))
  /\ (forall name,
        lowerCase name <> "namespace" -> lowerCase name <> "room" ->
        lowerCase name <> "set-cookie" ->
        headers_get name (req_headers forwarded)
        = normalizeValue <$> headers_get name (req_headers request))
  /\ r = match answer with
         | Ok upstream => Ok (Upstream upstream)
         | Raise e => Raise e
         end
  /\ socket_events tr = [].
Proof.
  intros Hrun Hin chatId. socket_runs Hrun; in_trace Hin.
  all: injection Hin as <- <- <-; simpl.
  all: split; [tauto |].
  all: split; [eauto |].
  all: do 3 (split; [reflexivity |]).
  all: split;
    [ pose proof (find_none _ _ Hvalues
                    ("room", normalizeValue (default "" (ctx_agentId context)))
                    (in_map (fun kv => (fst kv, normalizeValue (snd kv))) _ _
                       (obj_set_In "room" _ _))) as Hroom;
      simpl in Hroom; apply negb_false_iff in Hroom; exact Hroom |].
  all: split; [intros name; apply forwarded_headers |].
  all: split; [intros name; apply forwarded_headers |].
  all: split; [intros name; apply forwarded_headers |].
  all: split; [reflexivity |].
  all: unfold socket_events; simpl; rewrite ?List.filter_app; simpl;
    fold (socket_events t); rewrite (socket_events_lookup _ Ht); reflexivity.
Qed.

End SocketFacts.

Section EndpointFacts.
Context `{P : Platform}.

Lemma lookup_event_reads (ev : Event) : lookup_event ev -> ~ actor_write ev.
Proof. destruct ev; simpl; tauto. Qed.

Ltac connect_runs Hrun :=
  unfold connectToExistingAgent in Hrun; run in Hrun;
  destruct (JS.truthy_str (ctx_agentId _)) eqn:Hid; run in Hrun;
  [ destruct (getAgentStub _ _ true _) as [[[stub | ?e] w1] t] eqn:Hstub;
    pose proof (emits_only_run _ _ _ _ _ _ (getAgentStub_emits _ _ _) Hstub) as Ht;
    run in Hrun;
    [ destruct (stub_isInitialized stub w1) as [[[] | ?e] w2] eqn:Hinit;
      run in Hrun
    | ]
  | ];
  finish Hrun.

(** X17. [connectToExistingAgent] is read-only (no [setState],
    [initialize] or [fetch]).  It answers success only when the located
    actor's [isInitialized] probe answered true, with the path's id and the
    WebSocket URL a start request announces for that id; an error answer is
    400 (no id, nothing called) or 404; a located actor that reports false
    gives 404 "Agent instance not found or not initialized", and a missing
    namespace binding 404 with the lookup's message. *)
Theorem connectToExistingAgent_answers
    (request : Request) (env : Env Namespace) (context : RouteContext)
    (w w' : World) (r : Outcome (ControllerResponse AgentConnectionData))
    (tr : list Event) :
  connectToExistingAgent request env context w = (r, w', tr) ->
  let agentId := default "" (ctx_agentId context) in
  (forall ev, In ev tr -> ~ actor_write ev)
  /\ (forall data,
        r = Ok (CreateSuccess data) ->
        JS.truthy_str (ctx_agentId context) = true
        /\ acd_agentId data = agentId
        /\ acd_websocketUrl data = websocketUrlOf (req_url request) agentId
        /\ exists stub w1 t,
             getAgentStub env agentId true w = (Ok stub, w1, t)
             /\ stub_isInitialized stub w1 = (Ok true, w')
             /\ In (IsInitialized stub (Ok true)) tr)
  /\ (forall message status,
        r = Ok (CreateError message status) ->
        (status = 400 /\ JS.truthy_str (ctx_agentId context) = false /\ tr = [])
        \/ (status = 404 /\ JS.truthy_str (ctx_agentId context) = true))
  /\ (forall stub w1 t w2,
        JS.truthy_str (ctx_agentId context) = true ->
        getAgentStub env agentId true w = (Ok stub, w1, t) ->
        stub_isInitialized stub w1 = (Ok false, w2) ->
        r = Ok (CreateError
                  (ErrText "Agent instance not found or not initialized") 404))
  /\ (JS.truthy_str (ctx_agentId context) = true ->
      CodeGenObject env = None ->
      r = Ok (CreateError
                (ErrText ("Agent instance not found or unavailable: "
                          +:+ "CodeGenObject namespace not available in environment"))
                404)).
Proof.
  intros Hrun agentId. subst agentId.
  split; [| split; [| split; [| split]]].
  - intros ev Hin. connect_runs Hrun; in_sub Hin.
    all: first [ subst ev; simpl; tauto | exact (lookup_event_reads _ Hin) ].
  - intros data Hok. connect_runs Hrun; try discriminate Hok.
    injection Hok as <-. split; [reflexivity |]. split; [reflexivity |].
    split; [reflexivity |]. exists stub, w1, t.
    split; [reflexivity |]. split; [exact Hinit |].
    simpl. rewrite in_app_iff. simpl. tauto.
  - intros message status Hbad. connect_runs Hrun; try discriminate Hbad.
    all: injection Hbad as <- <-; auto.
  - intros stub' w1' t' w2' Hyes Hsrc Hno. connect_runs Hrun; try discriminate Hyes.
    all: try discriminate Hsrc.
    all: injection Hsrc as <- <- <-; rewrite Hinit in Hno; try discriminate Hno.
    reflexivity.
  - intros Hyes Hns. connect_runs Hrun; try discriminate Hyes.
    all: unfold getAgentStub in Hstub; rewrite Hns in Hstub; run in Hstub;
      try discriminate Hstub.
    injection Hstub as <- <- <-. reflexivity.
Qed.

(** X18. [deployPreview] never raises and never answers through
    [handleError]: a success carries the preview that [deployToSandbox]
    returned on the agent located by the jurisdiction search; without an id
    the answer is 400 before any call; every other failure (the lookup
    raising, the deployment rejecting or returning nothing) is answered 500
    with the fixed text "Failed to deploy preview", whatever the cause. *)
Theorem deployPreview_answers {Preview : Type}
    (deployToSandbox : Stub -> World -> Outcome (option Preview) * World)
    (env : Env Namespace) (context : RouteContext)
    (w w' : World) (r : Outcome (ControllerResponse Preview)) (tr : list Event) :
  deployPreview deployToSandbox env context w = (r, w', tr) ->
  let agentId := default "" (ctx_agentId context) in
  (exists response, r = Ok response)
  /\ (forall preview,
        r = Ok (CreateSuccess preview) ->
        JS.truthy_str (ctx_agentId context) = true
        /\ exists stub w1 t,
             getAgentStub env agentId true w = (Ok stub, w1, t)
             /\ deployToSandbox stub w1 = (Ok (Some preview), w'))
  /\ (forall message status,
        r = Ok (CreateError message status) ->
        (JS.truthy_str (ctx_agentId context) = false
         /\ message = ErrText "Missing agent ID parameter" /\ status = 400
         /\ tr = [])
        \/ (JS.truthy_str (ctx_agentId context) = true
            /\ message = ErrText "Failed to deploy preview" /\ status = 500))
  /\ (forall error action, r <> Ok (HandleError error action)).
Proof.
  intros Hrun agentId. subst agentId.
  unfold deployPreview in Hrun. run in Hrun.
  destruct (JS.truthy_str (ctx_agentId context)) eqn:Hid; run in Hrun.
  2: { finish Hrun. split; [eauto |]. split; [intros ? [=] |].
       split; [intros ? ? [= <- <-]; auto |].
       intros ? ? [=]. }
  destruct (getAgentStub env _ true w) as [[[stub | e] w1] t] eqn:Hstub;
    pose proof (emits_only_run _ _ _ _ _ _ (getAgentStub_emits _ _ _) Hstub) as Ht;
    run in Hrun.
  - destruct (deployToSandbox stub w1) as [[[preview |] | e] w2] eqn:Hdeploy;
      run in Hrun; finish Hrun.
    all: split; [eauto |].
    all: split; [first [ intros ? [= <-]; split; [reflexivity |]; eauto
                       | intros ? [=] ] |].
    all: split; [first [ intros ? ? [= <- <-]; auto | intros ? ? [=] ] |].
    all: intros ? ? [=].
  - finish Hrun. split; [eauto |]. split; [intros ? [=] |].
    split; [intros ? ? [= <- <-]; auto |]. intros ? ? [=].
Qed.

End EndpointFacts.

Lemma trimEnd_keeps (c : Ascii.ascii) (rest : string) :
  isWhiteSpace c = false -> trimEnd (String c rest) <> EmptyString.
Proof.
  intros Hc. simpl. destruct (trimEnd rest); [rewrite Hc |]; discriminate.
Qed.

Lemma trim_empty (s : string) :
  trim s = EmptyString <-> allWhiteSpace s = true.
Proof.
  unfold trim. induction s as [| c rest IH]; simpl; [tauto |].
  destruct (isWhiteSpace c) eqn:Hc; simpl; [exact IH |].
  split; [| discriminate].
  intros Hempty. exfalso. revert Hempty. apply (trimEnd_keeps c rest Hc).
Qed.

(** X19. [getPlatformStatus] returns the configured message and change log
    as they are, not trimmed (empty when the configuration or the field is
    absent); [hasActiveMessage] is true exactly when the message holds a
    character that is not white space. *)
Theorem getPlatformStatus_flag (globalMessaging : option GlobalMessaging) :
  let data := getPlatformStatus globalMessaging in
  globalUserMessage data = default "" (globalMessaging ≫= gm_globalUserMessage)
  /\ changeLogs data = default "" (globalMessaging ≫= gm_changeLogs)
  /\ hasActiveMessage data = negb (allWhiteSpace (globalUserMessage data)).
Proof.
  intros data. subst data. unfold getPlatformStatus.
  destruct globalMessaging as [[message logs] |]; simpl; [| repeat split].
  split; [reflexivity |]. split; [reflexivity |].
  pose proof (trim_empty (default "" message)) as Htrim.
  destruct (trim (default "" message)) eqn:Hkept,
           (allWhiteSpace (default "" message)); simpl; try reflexivity.
  - destruct Htrim as [Htrim _]. discriminate (Htrim eq_refl).
  - destruct Htrim as [_ Htrim]. discriminate (Htrim eq_refl).
Qed.

Lemma truthy_typeof (v : JS.Value) : truthy v = true -> typeof v <> "undefined".
Proof. destruct v; simpl; discriminate. Qed.

Lemma or_else_nonempty (s : option string) (dflt : string) :
  dflt <> "" -> JS.or_else s dflt <> "".
Proof.
  intros Hd. unfold JS.or_else, JS.truthy_str.
  destruct s as [text |]; [| exact Hd].
  destruct (String.eqb text "") eqn:Ht; simpl; [exact Hd |].
  apply String.eqb_neq. exact Ht.
Qed.

(** X20. The Workers-for-Platforms report: a success answer mirrors
    [isDispatcherAvailable] in [enabled] and [namespace.available], never
    has an empty namespace name, and classifies the dispatcher as
    "available" (available and binding truthy), "error" (available, binding
    falsy) or "unavailable"; a binding type is reported only with
    "available" and is never "undefined".  The 500 answer is given exactly
    when the availability check throws, with its message. *)
Theorem testWorkersForPlatforms_report
    (isDispatcherAvailable : DispatchEnv -> Outcome bool) (timestamp : string)
    (env : DispatchEnv) :
  (forall report,
      testWorkersForPlatforms isDispatcherAvailable timestamp env
      = StatusSuccess report ->
      isDispatcherAvailable env = Ok (wfp_enabled report)
      /\ ni_available (wfp_namespace report) = wfp_enabled report
      /\ ni_namespace (wfp_namespace report) <> ""
      /\ (dt_status (wfp_dispatcher report) = "available"
          <-> wfp_enabled report = true /\ truthy (DISPATCHER env) = true)
      /\ (dt_status (wfp_dispatcher report) = "error"
          <-> wfp_enabled report = true /\ truthy (DISPATCHER env) = false)
      /\ (dt_status (wfp_dispatcher report) = "unavailable"
          <-> wfp_enabled report = false)
      /\ (forall bindingType,
            dt_bindingType (wfp_dispatcher report) = Some bindingType ->
            dt_status (wfp_dispatcher report) = "available"
            /\ bindingType = typeof (DISPATCHER env)
            /\ bindingType <> "undefined"))
  /\ (forall message status,
        testWorkersForPlatforms isDispatcherAvailable timestamp env
        = StatusError message status ->
        status = 500
        /\ exists error,
             isDispatcherAvailable env = Raise error
             /\ message = "Error testing Workers for Platforms: "
                          +:+ JS.message_or_String error).
Proof.
  unfold testWorkersForPlatforms.
  destruct (isDispatcherAvailable env) as [[] | error]; split.
  all: try (intros ? ? [=]; fail).
  all: try (intros ? [=]; fail).
  - intros report [= <-]. simpl.
    split; [reflexivity |]. split; [reflexivity |].
    split; [apply or_else_nonempty; discriminate |].
    destruct (truthy (DISPATCHER env)) eqn:Htruthy; simpl.
    all: repeat split; try discriminate; try tauto; try (intros []; discriminate).
    all: match goal with
         | H : Some _ = Some _ |- _ =>
             injection H as <-;
             first [ reflexivity | apply truthy_typeof; exact Htruthy ]
         end.
  - intros report [= <-]. simpl.
    split; [reflexivity |]. split; [reflexivity |].
    split; [apply or_else_nonempty; discriminate |].
    repeat split; try discriminate; try tauto; try (intros []; discriminate).
  - intros message status [= <- <-]. split; [reflexivity |]. eauto.
Qed.

Section ToolFacts.
Context `{P : Platform}.

(** X21. [executeToolWithDefinition] and its hooks: without hooks it is the
    implementation's run; a returned result is the implementation's, the
    hooks cannot change it; a raising [onStart] prevents the implementation;
    a raising implementation skips [onComplete]; a raising [onComplete]
    fails the call although the implementation's effects have happened. *)
Theorem executeToolWithDefinition_hooks {TArgs TResult : Type}
    (toolDef : ToolDefinition TArgs TResult) (args : TArgs) (env : Env Namespace)
    (w w' : World) (r : Outcome TResult) (tr : list Event) :
  executeToolWithDefinition toolDef args env w = (r, w', tr) ->
  (onStart toolDef = None -> onComplete toolDef = None ->
   implementation toolDef args env w = (r, w', tr))
  /\ (forall result,
        r = Ok result ->
        exists w1 w2 t1 t2 t3,
          implementation toolDef args env w1 = (Ok result, w2, t2)
          /\ tr = t1 ++ t2 ++ t3)
  /\ (forall hook e w1 t1,
        onStart toolDef = Some hook ->
        hook args w = (Raise e, w1, t1) ->
        r = Raise e /\ w' = w1 /\ tr = t1)
  /\ (forall e w1 w2 t1 t2,
        match onStart toolDef with
        | Some hook => hook args w
        | None => (Ok tt, w, [])
        end = (Ok tt, w1, t1) ->
        implementation toolDef args env w1 = (Raise e, w2, t2) ->
        r = Raise e /\ w' = w2 /\ tr = t1 ++ t2)
  /\ (forall hook result e w1 w2 w3 t1 t2 t3,
        match onStart toolDef with
        | Some hook => hook args w
        | None => (Ok tt, w, [])
        end = (Ok tt, w1, t1) ->
        implementation toolDef args env w1 = (Ok result, w2, t2) ->
        onComplete toolDef = Some hook ->
        hook args result w2 = (Raise e, w3, t3) ->
        r = Raise e /\ w' = w3 /\ tr = t1 ++ t2 ++ t3).
Proof.
  intros Hrun. unfold executeToolWithDefinition in Hrun.
  split; [| split; [| split; [| split]]].
  - intros Hs Hc. rewrite Hs, Hc in Hrun. run in Hrun.
    destruct (implementation toolDef args env w) as [[[result | e] w1] t];
      run in Hrun; finish Hrun; rewrite ?app_nil_r; reflexivity.
  - intros result ->.
    destruct (onStart toolDef) as [hook |]; run in Hrun.
    + destruct (hook args w) as [[[[] | e] w1] t1]; run in Hrun;
        [| discriminate Hrun].
      destruct (implementation toolDef args env w1) as [[[result' | e] w2] t2] eqn:Himpl;
        run in Hrun; [| discriminate Hrun].
      destruct (onComplete toolDef) as [done |]; run in Hrun.
      * destruct (done args result' w2) as [[[[] | e] w3] t3]; run in Hrun;
          [| discriminate Hrun].
        injection Hrun as <- <- <-. exists w1, w2, t1, t2, (t3 ++ []).
        split; [exact Himpl | reflexivity].
      * injection Hrun as <- <- <-. exists w1, w2, t1, t2, [].
        split; [exact Himpl | reflexivity].
    + destruct (implementation toolDef args env w) as [[[result' | e] w2] t2] eqn:Himpl;
        run in Hrun; [| discriminate Hrun].
      destruct (onComplete toolDef) as [done |]; run in Hrun.
      * destruct (done args result' w2) as [[[[] | e] w3] t3]; run in Hrun;
          [| discriminate Hrun].
        injection Hrun as <- <- <-. exists w, w2, [], t2, (t3 ++ []).
        split; [exact Himpl | reflexivity].
      * injection Hrun as <- <- <-. exists w, w2, [], t2, [].
        split; [exact Himpl | reflexivity].
  - intros hook e w1 t1 Hs Hhook. rewrite Hs in Hrun. run in Hrun.
    rewrite Hhook in Hrun. finish Hrun. auto.
  - intros e w1 w2 t1 t2 Hstart Himpl.
    destruct (onStart toolDef) as [hook |]; run in Hrun.
    + rewrite Hstart in Hrun. run in Hrun. rewrite Himpl in Hrun.
      finish Hrun. auto.
    + injection Hstart as <- <-. rewrite Himpl in Hrun. finish Hrun. auto.
  - intros hook result e w1 w2 w3 t1 t2 t3 Hstart Himpl Hc Hhook.
    rewrite Hc in Hrun.
    destruct (onStart toolDef) as [start |]; run in Hrun.
    + rewrite Hstart in Hrun. run in Hrun. rewrite Himpl in Hrun. run in Hrun.
      rewrite Hhook in Hrun. finish Hrun. auto.
    + injection Hstart as <- <-. rewrite Himpl in Hrun. run in Hrun.
      rewrite Hhook in Hrun. finish Hrun. auto.
Qed.

End ToolFacts.

(** ** The properties at work: witnesses *)

(** The witness of X1: an environment without the binding. *)
Lemma namespace_unavailable_witness :
  let e := JS.new_Error "CodeGenObject namespace not available in environment" in
  CodeGenObject noEnv = None
  /\ result_of (getAgentStub (P := scripted happyScript) noEnv "app" true 0) = Raise e
  /\ result_of (getAgentState (P := scripted happyScript) noEnv "app" false 0)
     = Raise e
  /\ result_of (cloneAgent (P := scripted happyScript) noEnv "app" 0) = Raise e.
Proof.
  intros e. split; [reflexivity |].
  pose proof (namespace_unavailable (P := scripted happyScript) noEnv "app" true 0
                eq_refl) as H1.
  pose proof (namespace_unavailable (P := scripted happyScript) noEnv "app" false 0
                eq_refl) as H2.
  cbv zeta in H1, H2.
  destruct H1 as ((Hstub & _) & _ & (Hclone & _)).
  destruct H2 as (_ & (Hstate & _) & _).
  auto.
Defined.

(** The witness of X2: on [euScript] the search ends at the "eu" handle
    after two lookups and two probes. *)
Lemma getAgentStub_lookup_discipline_witness :
  let run := getAgentStub (P := scripted euScript) demoEnv "app" true 0 in
  run = (Ok ("app", Some "eu"), 0, trace_of run)
  /\ count (P := scripted euScript) is_lookup (trace_of run) <= 3
  /\ count (P := scripted euScript) is_probe (trace_of run) <= 2
  /\ exists id options,
       In (NsGet (P := scripted euScript) id options (Ok ("app", Some "eu")))
          (trace_of run).
Proof.
  intros run. split; [reflexivity |].
  destruct (getAgentStub_lookup_discipline (P := scripted euScript) demoEnv "app"
              true 0 0 (Ok ("app", Some "eu")) (trace_of run) eq_refl)
    as (_ & _ & Hlookups & Hprobes & Hstub).
  split; [exact Hlookups |]. split; [exact Hprobes |].
  exact (Hstub _ eq_refl).
Defined.

(** The witness of X3: the state of the scripted actor is read, nothing
    is written. *)
Lemma getAgentState_reads_located_actor_witness :
  let run := getAgentState (P := scripted happyScript) demoEnv "app" true 0 in
  run = (Ok (sc_state happyScript), 0, trace_of run)
  /\ (forall ev, In ev (trace_of run) -> ~ actor_write (P := scripted happyScript) ev)
  /\ exists stub w1 t,
       getAgentStub (P := scripted happyScript) demoEnv "app" true 0
       = (Ok stub, w1, t)
       /\ trace_of run
          = t ++ [GetFullState (P := scripted happyScript) stub
                    (Ok (sc_state happyScript))].
Proof.
  intros run. split; [reflexivity |].
  destruct (getAgentState_reads_located_actor (P := scripted happyScript) demoEnv
              "app" true 0 0 (Ok (sc_state happyScript)) (trace_of run) eq_refl)
    as (Hreads & Hstate).
  split; [exact Hreads |].
  destruct (Hstate _ eq_refl) as (stub & w1 & t & Hstub & _ & Htrace).
  exists stub, w1, t. split; [exact Hstub | exact Htrace].
Defined.

(** The witness of X4: on [dormantScript] no actor reports initialized. *)
Lemma cloneAgent_requires_initialized_source_witness :
  let run := cloneAgent (P := scripted dormantScript) demoEnv "app" 0 in
  let lookup := getAgentStub (P := scripted dormantScript) demoEnv "app" true 0 in
  run = (result_of run, world_of run, trace_of run)
  /\ lookup = (Ok ("app", None), 0, trace_of lookup)
  /\ result_of run = Raise (JS.new_Error "Agent app not found")
  /\ trace_of run
     = trace_of lookup
       ++ [IsInitialized (P := scripted dormantScript) ("app", None) (Ok false)].
Proof.
  intros run lookup. split; [reflexivity |]. split; [reflexivity |].
  destruct (proj2 (cloneAgent_requires_initialized_source
                     (P := scripted dormantScript) demoEnv "app" 0
                     (world_of run) (result_of run) (trace_of run) eq_refl)
              ("app", None) 0 (trace_of lookup) 0 eq_refl eq_refl)
    as (Hres & _ & Htrace).
  split; [exact Hres | exact Htrace].
Defined.

(** The witness of X5: the inference call is rate-limited. *)
Lemma selectTemplate_raises_only_propagated_witness :
  let run := selectTemplate (demoArgs (withInference (Raise slowDown)) [gameTemplate])
               0 in
  run = (Raise slowDown, 0, trace_of run)
  /\ propagated slowDown = true
  /\ exists iargs,
       In (ExecuteInference (P := scripted (withInference (Raise slowDown)))
             iargs (Raise slowDown))
          (trace_of run).
Proof.
  intros run. split; [reflexivity |].
  exact (selectTemplate_raises_only_propagated
           (P := scripted (withInference (Raise slowDown)))
           (demoArgs (withInference (Raise slowDown)) [gameTemplate])
           0 0 slowDown (trace_of run) eq_refl).
Defined.

(** The witness of X6: the inference names a template that is not among
    the candidates, and that answer is returned. *)
Lemma selectTemplate_returns_inference_answer_witness :
  let sc := withInference (Ok strangerSelection) in
  let run := selectTemplate (demoArgs sc [gameTemplate]) 0 in
  run = (result_of run, 0, trace_of run)
  /\ In (ExecuteInference (P := scripted sc) gameInferenceArgs (Ok strangerSelection))
        (trace_of run)
  /\ count (P := scripted sc) is_inference (trace_of run) = 1
  /\ result_of run = Ok strangerSelection
  /\ selectedTemplateName strangerSelection <> Some (tmpl_name gameTemplate).
Proof.
  intros sc run.
  assert (Hin : In (ExecuteInference (P := scripted sc) gameInferenceArgs
                      (Ok strangerSelection)) (trace_of run)).
  { unfold trace_of. simpl. tauto. }
  split; [reflexivity |]. split; [exact Hin |].
  destruct (selectTemplate_returns_inference_answer (P := scripted sc)
              (demoArgs sc [gameTemplate]) 0 0 (result_of run) (trace_of run)
              gameInferenceArgs (Ok strangerSelection) eq_refl Hin)
    as (_ & Hcount & _ & _ & _ & _ & Hanswer).
  split; [exact Hcount |]. split; [exact (Hanswer _ eq_refl) | discriminate].
Defined.

(** The witness of X7: the resolution on [happyScript]. *)
Lemma getTemplateForQuery_result_consistent_witness :
  let run := getTemplateForQuery (P := scripted happyScript) demoEnv demoContext
               gameQuery 0 in
  run = (Ok happyResult, 1, trace_of run)
  /\ exists response candidate client answer,
       In (ListTemplates (P := scripted happyScript) (Ok (Some response)))
          (trace_of run)
       /\ tl_success response = true
       /\ In candidate (tl_templates response)
       /\ selectedTemplateName (tfq_selection happyResult)
          = Some (tmpl_name candidate)
       /\ In (GenerateId (P := scripted happyScript) (sandboxSessionId happyResult))
             (trace_of run)
       /\ In (GetSandboxService (P := scripted happyScript)
                (sandboxSessionId happyResult) (Ok client)) (trace_of run)
       /\ In (GetTemplateDetails (P := scripted happyScript) client
                (tmpl_name candidate) (Ok answer)) (trace_of run)
       /\ tdr_success answer = true
       /\ tdr_templateDetails answer = Some (templateDetails happyResult).
Proof.
  intros run. split; [reflexivity |].
  exact (getTemplateForQuery_result_consistent (P := scripted happyScript) demoEnv
           demoContext gameQuery 0 1 happyResult (trace_of run) eq_refl).
Defined.

(** The witness of X8: on [offlineScript] the list reports a failure. *)
Lemma getTemplateForQuery_stops_or_acquires_witness :
  let run := getTemplateForQuery (P := scripted offlineScript) demoEnv demoContext
               gameQuery 0 in
  let answer := sc_templates offlineScript in
  run = (result_of run, world_of run, trace_of run)
  /\ In (ListTemplates (P := scripted offlineScript) answer) (trace_of run)
  /\ listUnusable answer
  /\ (exists e, result_of run = Raise e)
  /\ Forall (fun ev => is_log (P := scripted offlineScript) ev
                       \/ ev = ListTemplates (P := scripted offlineScript) answer)
       (trace_of run).
Proof.
  intros run answer.
  assert (Hin : In (ListTemplates (P := scripted offlineScript) answer)
                  (trace_of run)).
  { unfold trace_of. simpl. tauto. }
  split; [reflexivity |]. split; [exact Hin |]. split; [reflexivity |].
  exact (proj1 (getTemplateForQuery_stops_or_acquires (P := scripted offlineScript)
                  demoEnv demoContext gameQuery 0 (world_of run) (result_of run)
                  (trace_of run) eq_refl)
           answer Hin eq_refl).
Defined.


(** The witness of X11: the launch of an anonymous start request on
    [happyScript]. *)
Lemma startCodeGeneration_launch_contents_witness :
  let run := startCodeGeneration (P := scripted happyScript)
               (startRequest (Some gameQuery)) demoEnv anonymous 0 in
  let params := happyParams (startContext None "agent-0" []) "agent-1" in
  run = (result_of run, world_of run, trace_of run)
  /\ In (Initialize (P := scripted happyScript) ("agent-0", None) params
           "deterministic") (trace_of run)
  /\ In (GenerateId (P := scripted happyScript) "agent-0") (trace_of run)
  /\ In (WriterWrite (P := scripted happyScript)
           {| ir_message := "Code generation started";
              ir_agentId := "agent-0";
              ir_websocketUrl := "wss://build.example/api/agent/agent-0/ws";
              ir_httpStatusUrl := "https://build.example/api/agent/agent-0";
              ir_template := (td_name gameDetails, td_files gameDetails) |})
        (trace_of run).
Proof.
  intros run params.
  assert (Hin : In (Initialize (P := scripted happyScript) ("agent-0", None) params
                      "deterministic") (trace_of run)).
  { unfold trace_of. simpl. tauto. }
  split; [reflexivity |]. split; [exact Hin |].
  destruct (startCodeGeneration_launch_contents (P := scripted happyScript)
              (startRequest (Some gameQuery)) demoEnv anonymous 0 (world_of run)
              (result_of run) (trace_of run) ("agent-0", None) params
              "deterministic" eq_refl Hin)
    as (body & agentId & entries & templateResult & w1 & w2 & t1 & w3 & w4 & t2
        & Hjson & Hid & Hstub & Hsub & Htemplate & Hwrite & Hparams & Hmode).
  pose proof (f_equal (fun p => ic_agentId (aip_inferenceContext p)) Hparams)
    as Hagent.
  pose proof (f_equal aip_templateDetails Hparams) as Hdetails.
  simpl in Hagent, Hdetails. subst agentId. rewrite <- Hdetails in Hwrite.
  split; [exact Hid | exact Hwrite].
Defined.

(** The witness of X12: a user with one override among her
    configurations. *)
Lemma startCodeGeneration_inference_context_witness :
  let run := startCodeGeneration (P := staged overridesStage)
               (startRequest (Some gameQuery)) demoEnv signedIn 0 in
  let iargs := happyInferenceArgs (startContext (Some alice) "agent-0" aliceConfigs) in
  run = (result_of run, world_of run, trace_of run)
  /\ In (ExecuteInference (P := staged overridesStage) iargs (Ok gameSelection))
        (trace_of run)
  /\ ic_userId (ia_context iargs) = "u1"
  /\ userModelConfigs (ia_context iargs) = [("blueprint", fastModel)]
  /\ exists entries,
       In (GetUserModelConfigs (P := staged overridesStage) "u1" (Ok entries))
          (trace_of run)
       /\ userModelConfigs (ia_context iargs) = userOverrides entries.
Proof.
  intros run iargs.
  assert (Hin : In (ExecuteInference (P := staged overridesStage) iargs
                      (Ok gameSelection)) (trace_of run)).
  { unfold trace_of. simpl. tauto. }
  split; [reflexivity |]. split; [exact Hin |].
  destruct (startCodeGeneration_inference_context (P := staged overridesStage)
              (startRequest (Some gameQuery)) demoEnv signedIn 0 (world_of run)
              (result_of run) (trace_of run) iargs (Ok gameSelection) eq_refl Hin)
    as (_ & _ & Huser & Hentries).
  split; [exact Huser |]. split; [reflexivity | exact Hentries].
Defined.

(** The witness of X13: the only name resolved is the generated one. *)
Lemma startCodeGeneration_fresh_agent_only_witness :
  let run := startCodeGeneration (P := scripted happyScript)
               (startRequest (Some gameQuery)) demoEnv signedIn 0 in
  run = (result_of run, world_of run, trace_of run)
  /\ In (IdFromName (P := scripted happyScript) "agent-0" (Ok "agent-0"))
        (trace_of run)
  /\ In (GenerateId (P := scripted happyScript) "agent-0") (trace_of run)
  /\ (forall ev, In ev (trace_of run) -> ~ reaches_actor (P := scripted happyScript) ev).
Proof.
  intros run.
  assert (Hin : In (IdFromName (P := scripted happyScript) "agent-0" (Ok "agent-0"))
                  (trace_of run)).
  { unfold trace_of. simpl. tauto. }
  split; [reflexivity |]. split; [exact Hin |].
  destruct (startCodeGeneration_fresh_agent_only (P := scripted happyScript)
              (startRequest (Some gameQuery)) demoEnv signedIn 0 (world_of run)
              (result_of run) (trace_of run) eq_refl)
    as (Hnever & Hnames & _).
  split; [exact (Hnames _ _ Hin) | exact Hnever].
Defined.

(** The witness of X14: a request with a lower-case [upgrade] header passes
    the upgrade guard, and the origin check refuses it. *)
Lemma handleWebSocketConnection_guards_witness :
  let run := handleWebSocketConnection (P := staged foreignOriginStage)
               spoofedRequest demoEnv anonymous 0 in
  run = (result_of run, world_of run, trace_of run)
  /\ In (ValidateWebSocketOrigin (P := staged foreignOriginStage) spoofedRequest
           (Ok false)) (trace_of run)
  /\ result_of run
     = Ok (NewResponse (P := staged foreignOriginStage)
             (BodyText "Forbidden: Invalid origin") 403 [] None)
  /\ forall routed answer,
       ~ In (RouteAgentRequest (P := staged foreignOriginStage) routed answer)
            (trace_of run).
Proof.
  intros run.
  assert (Hin : In (ValidateWebSocketOrigin (P := staged foreignOriginStage)
                      spoofedRequest (Ok false)) (trace_of run)).
  { unfold trace_of. simpl. tauto. }
  split; [reflexivity |]. split; [exact Hin |].
  destruct (handleWebSocketConnection_guards (P := staged foreignOriginStage)
              spoofedRequest demoEnv anonymous 0 (world_of run) (result_of run)
              (trace_of run) eq_refl)
    as (_ & _ & Hrefused & _ & _).
  destruct (Hrefused (Ok false) Hin ltac:(discriminate)) as (Hres & Honly).
  split; [exact Hres |].
  intros routed answer Hrouted.
  destruct (trace_event _ _ _ Honly Hrouted) as [[] | Heq]. discriminate Heq.
Defined.

(** The witness of X15: the routing facility raises. *)
Lemma handleWebSocketConnection_routing_outcome_witness :
  let sc := withRoute (Raise (JS.new_Error "routing failed")) in
  let run := handleWebSocketConnection (P := scripted sc) socketRequest demoEnv
               anonymous 0 in
  run = (result_of run, world_of run, trace_of run)
  /\ In (RouteAgentRequest (P := scripted sc) socketRequest
           (Raise (JS.new_Error "routing failed"))) (trace_of run)
  /\ exists client server,
       result_of run
       = Ok (NewResponse (P := scripted sc) BodyNull 101 [] (Some client))
       /\ socket_events (P := scripted sc) (trace_of run)
          = [ NewWebSocketPair (P := scripted sc) client server;
              WsAccept (P := scripted sc) server;
              WsSend (P := scripted sc) server
                (JS.Obj [ ("type", JS.Str "error");
                          ("error",
                           JS.Str "Failed to get agent instance: routing failed") ]);
              WsClose (P := scripted sc) server 1011 "Agent instance not found" ]
       /\ count (P := scripted sc) is_lookup (trace_of run) = 0.
Proof.
  intros sc run.
  assert (Hin : In (RouteAgentRequest (P := scripted sc) socketRequest
                      (Raise (JS.new_Error "routing failed"))) (trace_of run)).
  { unfold trace_of. simpl. tauto. }
  split; [reflexivity |]. split; [exact Hin |].
  exact (proj2 (handleWebSocketConnection_routing_outcome (P := scripted sc)
                  socketRequest demoEnv anonymous 0 (world_of run) (result_of run)
                  (trace_of run) eq_refl)
           _ Hin).
Defined.

(** The witness of X16: the client sent a [Room] header of its own, and the
    agent rejects the forwarded request. *)
Lemma handleWebSocketConnection_fallback_forward_witness :
  let run := handleWebSocketConnection (P := staged unreachableStage) spoofedRequest
               demoEnv anonymous 0 in
  let rejection := JS.new_Error "actor unreachable" in
  run = (result_of run, world_of run, trace_of run)
  /\ In (Fetch (P := staged unreachableStage) ("app", None) forwardedRequest
           (Raise rejection)) (trace_of run)
  /\ result_of run = Raise rejection
  /\ socket_events (P := staged unreachableStage) (trace_of run) = []
  /\ headers_get "Room" (req_headers spoofedRequest) = Some "evil"
  /\ headers_get "Room" (req_headers forwardedRequest) = Some "app"
  /\ headers_get "Namespace" (req_headers forwardedRequest) = Some "CodeGenObject"
  /\ headers_get "Upgrade" (req_headers forwardedRequest)
     = headers_get "Upgrade" (req_headers spoofedRequest).
Proof.
  intros run rejection.
  assert (Hin : In (Fetch (P := staged unreachableStage) ("app", None)
                      forwardedRequest (Raise rejection)) (trace_of run)).
  { unfold trace_of. simpl. tauto. }
  split; [reflexivity |]. split; [exact Hin |].
  pose proof (handleWebSocketConnection_fallback_forward
                (P := staged unreachableStage) spoofedRequest demoEnv anonymous 0
                (world_of run) (result_of run) (trace_of run) ("app", None)
                forwardedRequest (Raise rejection) eq_refl Hin) as Hforward.
  cbv zeta in Hforward.
  destruct Hforward
    as (_ & _ & _ & _ & _ & _ & Hns & Hroom & Hother & Hres & Hsock).
  split; [exact Hres |]. split; [exact Hsock |]. split; [reflexivity |].
  split; [exact (Hroom "Room" eq_refl) |].
  split; [exact (Hns "Namespace" eq_refl) |].
  exact (Hother "Upgrade" ltac:(discriminate) ltac:(discriminate)
           ltac:(discriminate)).
Defined.

(** The witness of X17: connecting to the initialized agent "app". *)
Lemma connectToExistingAgent_answers_witness :
  let run := connectToExistingAgent (P := scripted happyScript) socketRequest
               demoEnv anonymous 0 in
  let data := {| acd_websocketUrl := "wss://build.example/api/agent/app/ws";
                 acd_agentId := "app" |} in
  run = (Ok (CreateSuccess data), 0, trace_of run)
  /\ acd_websocketUrl data = websocketUrlOf (req_url socketRequest) "app"
  /\ (forall ev, In ev (trace_of run) -> ~ actor_write (P := scripted happyScript) ev)
  /\ exists stub,
       In (IsInitialized (P := scripted happyScript) stub (Ok true)) (trace_of run).
Proof.
  intros run data. split; [reflexivity |].
  pose proof (connectToExistingAgent_answers (P := scripted happyScript)
                socketRequest demoEnv anonymous 0 0 (Ok (CreateSuccess data))
                (trace_of run) eq_refl) as Hconnect.
  cbv zeta in Hconnect. destruct Hconnect as (Hreads & Hdata & _).
  destruct (Hdata data eq_refl) as (_ & _ & Hurl & stub & w1 & t & _ & _ & Hprobe).
  split; [exact Hurl |]. split; [exact Hreads |]. exists stub. exact Hprobe.
Defined.

(** The witness of X18: the sandbox refuses the deployment. *)
Lemma deployPreview_answers_witness :
  let run := deployPreview (P := scripted happyScript) quotaExceeded demoEnv
               anonymous 0 in
  run = (result_of run, world_of run, trace_of run)
  /\ result_of run = Ok (CreateError (ErrText "Failed to deploy preview") 500).
Proof.
  intros run. split; [reflexivity |].
  pose proof (deployPreview_answers (P := scripted happyScript) quotaExceeded
                demoEnv anonymous 0 (world_of run) (result_of run) (trace_of run)
                eq_refl) as Hdeploy.
  cbv zeta in Hdeploy.
  destruct Hdeploy as ((response & Hres) & Hsuccess & Herror & Hhandled).
  destruct response as [preview | message status | error action].
  - destruct (Hsuccess preview Hres) as (_ & stub & w1 & t & _ & Hdone).
    discriminate Hdone.
  - destruct (Herror message status Hres) as [(Hno & _) | (_ & -> & ->)];
      [discriminate Hno | exact Hres].
  - destruct (Hhandled error action Hres).
Defined.

(** The witness of X21: the implementation fails after the start hook. *)
Lemma executeToolWithDefinition_hooks_witness :
  let run := executeToolWithDefinition (P := scripted happyScript)
               (failingTool happyScript) "lint" demoEnv 0 in
  run = (result_of run, world_of run, trace_of run)
  /\ result_of run = Raise (JS.new_Error "tool failed")
  /\ trace_of run
     = [ Log (P := scripted happyScript) Info "start lint";
         Log (P := scripted happyScript) Info "run lint" ].
Proof.
  intros run. split; [reflexivity |].
  destruct (proj1 (proj2 (proj2 (proj2
             (executeToolWithDefinition_hooks (P := scripted happyScript)
                (failingTool happyScript) "lint" demoEnv 0 (world_of run)
                (result_of run) (trace_of run) eq_refl))))
              (JS.new_Error "tool failed") 0 0
              [Log (P := scripted happyScript) Info "start lint"]
              [Log (P := scripted happyScript) Info "run lint"]
              eq_refl eq_refl)
    as (Hres & _ & Htrace).
  split; [exact Hres | exact Htrace].
Defined.
